(** * PKCS#7 SignedData wrapper (CryptPkcs7 over OpenSSL): shallow embedding

    The C functions WrapPkcs7Data, X509PopCertificate, Pkcs7GetSigners,
    Pkcs7GetCertificatesList, Pkcs7Verify and Pkcs7GetSignature are embedded
    as functions of a small state-and-fault monad.  The state is the heap of
    allocated blocks together with the outcomes of the coming allocation
    requests; a fault is an access or a release the C program has no right to
    make. *)

From stdpp Require Import base numbers list option strings.

Open Scope Z_scope.

(** ** Machine integers *)

Definition UINT8  (z : Z) : Z := z mod 2^8.
Definition UINT16 (z : Z) : Z := z mod 2^16.
Definition UINT32 (z : Z) : Z := z mod 2^32.
Definition UINTN  (z : Z) : Z := z mod 2^64.
Definition INT_MAX : Z := 2^31 - 1.

(** [(INT32) x] for an unsigned [x]. *)
Definition INT32 (z : Z) : Z :=
  let w := UINT32 z in if w <? 2^31 then w else w - 2^32.

(** ** Memory *)

(** A pointer is NULL or the base address of a block; offsets are passed to
    the memory operations beside the pointer. *)
Definition ptr := option nat.
Definition NULL : ptr := None.

Inductive fault :=
| OutOfBounds (p : ptr) (i : nat)   (* access at or beyond the block's length *)
| BadPointer (p : ptr)              (* NULL or released block dereferenced *)
| OutOfFuel
| InvalidFree (p : ptr)             (* free of a pointer moved off the base of [p] *)
| DoubleFree (obj : nat).           (* X509_free of an object released before *)

Inductive result (A : Type) :=
| Ret (a : A)
| Crash (f : fault).
Arguments Ret {A} a.
Arguments Crash {A} f.

(** [heap]: block [b] is [heap !! b]; a released block is [Some None].
    [plan]: outcome of each coming allocation request, in order ([true] =
    granted); requests beyond the plan are granted. *)
Record state := mkState { heap : list (option (list Z)); plan : list bool }.

Definition M (A : Type) : Type := state -> result (A * state).

Definition ret {A} (a : A) : M A := fun s => Ret (a, s).
Definition bind {A B} (c : M A) (k : A -> M B) : M B :=
  fun s => match c s with
           | Ret (a, s') => k a s'
           | Crash f => Crash f
           end.
Definition crash {A} (f : fault) : M A := fun _ => Crash f.

Notation "x <- c ;; k" := (bind c (fun x => k))
  (at level 100, c at next level, right associativity).
Notation "c ;; k" := (bind c (fun _ => k))
  (at level 100, right associativity).

Definition block (s : state) (p : ptr) : option (list Z) :=
  match p with
  | Some b => mjoin (heap s !! b)
  | None => None
  end.

(** One allocation request against the plan. *)
Definition request : M bool := fun s =>
  match plan s with
  | [] => Ret (true, s)
  | ok :: pl => Ret (ok, mkState (heap s) pl)
  end.

Definition malloc (size : Z) : M ptr :=
  ok <- request ;;
  if ok : bool then
    fun s => Ret (Some (length (heap s)),
                  mkState (heap s ++ [Some (replicate (Z.to_nat size) 0)]) (plan s))
  else ret NULL.

(** The source guards every call of free with a NULL test or calls it on a
    live block. *)
Definition free (p : ptr) : M unit := fun s =>
  match p with
  | Some b => Ret (tt, mkState (<[b := None]> (heap s)) (plan s))
  | None => Ret (tt, s)
  end.

Definition load (p : ptr) (i : nat) : M Z := fun s =>
  match block s p with
  | Some bs => match bs !! i with
               | Some v => Ret (v, s)
               | None => Crash (OutOfBounds p i)
               end
  | None => Crash (BadPointer p)
  end.

Definition read_bytes (p : ptr) (off n : nat) : M (list Z) := fun s =>
  match block s p with
  | Some bs => if decide (off + n <= length bs)%nat
               then Ret (take n (drop off bs), s)
               else Crash (OutOfBounds p (off + n - 1))
  | None => Crash (BadPointer p)
  end.

Definition write_at (bs : list Z) (off : nat) (new : list Z) : list Z :=
  take off bs ++ new ++ drop (off + length new) bs.

Definition store_bytes (p : ptr) (off : nat) (new : list Z) : M unit := fun s =>
  match p, block s p with
  | Some b, Some bs =>
      if decide (off + length new <= length bs)%nat
      then Ret (tt, mkState (<[b := Some (write_at bs off new)]> (heap s)) (plan s))
      else Crash (OutOfBounds p (off + length new - 1))
  | _, _ => Crash (BadPointer p)
  end.

(** CopyMem (Dst + doff, Src + soff, n) between two blocks. *)
Definition CopyMem (dst : ptr) (doff : nat) (src : ptr) (soff : nat) (n : Z) : M unit :=
  bs <- read_bytes src soff (Z.to_nat n) ;;
  store_bytes dst doff bs.

(** CompareMem (P + off, Src, |Src|) against a constant array: bytes are
    compared in order up to the first difference, whose value is returned. *)
Fixpoint CompareMem (p : ptr) (off : nat) (src : list Z) : M Z :=
  match src with
  | [] => ret 0
  | x :: src' =>
      v <- load p off ;;
      if v =? x then CompareMem p (S off) src' else ret (v - x)
  end.

(** WriteUnaligned32: the four bytes of a UINT32, least significant first. *)
Definition le32 (v : Z) : list Z :=
  [v mod 256; (v / 2^8) mod 256; (v / 2^16) mod 256; (v / 2^24) mod 256].

(** ** WrapPkcs7Data *)

Definition mOidValue : list Z :=
  [0x2A; 0x86; 0x48; 0x86; 0xF7; 0x0D; 0x01; 0x07; 0x02].

Record WrapOut := mkWrapOut { WrapFlag : bool; WrapData : ptr; WrapDataSize : Z }.

(** The test that sets [Wrapped]; [&&] reads its right operand only when the
    left one holds. *)
Definition DetectWrapped (P7Data : ptr) : M bool :=
  b4 <- load P7Data 4 ;;
  if negb (b4 =? 0x06) then ret false else
  b5 <- load P7Data 5 ;;
  if negb (b5 =? 0x09) then ret false else
  c <- CompareMem P7Data 6 mOidValue ;;
  if negb (c =? 0) then ret false else
  b15 <- load P7Data 15 ;;
  if negb (b15 =? 0xA0) then ret false else
  b16 <- load P7Data 16 ;;
  ret (b16 =? 0x82).

Definition WrapPkcs7Data (P7Data : ptr) (P7Length : Z) : M (bool * WrapOut) :=
  Wrapped <- DetectWrapped P7Data ;;
  if Wrapped : bool then
    ret (true, mkWrapOut Wrapped P7Data P7Length)
  else
    let size := UINTN (P7Length + 19) in
    SignedData <- malloc size ;;
    match SignedData with
    | None => ret (false, mkWrapOut Wrapped NULL size)
    | Some _ =>
        store_bytes SignedData 0 [0x30; 0x82] ;;
        store_bytes SignedData 2
          [UINT8 (Z.shiftr (UINT16 (UINTN (size - 4))) 8);
           UINT8 (Z.land (UINT16 (UINTN (size - 4))) 0xff)] ;;
        store_bytes SignedData 4 [0x06; 0x09] ;;
        store_bytes SignedData 6 mOidValue ;;
        store_bytes SignedData 15 [0xA0; 0x82] ;;
        store_bytes SignedData 17
          [UINT8 (Z.shiftr (UINT16 P7Length) 8);
           UINT8 (Z.land (UINT16 P7Length) 0xff)] ;;
        CopyMem SignedData 19 P7Data 0 P7Length ;;
        ret (true, mkWrapOut Wrapped SignedData size)
    end.

(** ** OpenSSL objects

    The decoder's objects live outside the modelled heap.  Releasing them
    (PKCS7_free, X509_free, sk_X509_free, BIO_free, ...) leaves the state
    untouched; it is written out where an object can be released a second
    time, at the exit of Pkcs7GetSigners. *)

Definition X509_NAME := string.

(** [x_ptr] is the object's address: sk_X509_delete_ptr compares addresses. *)
Record X509 := mkX509 {
  x_ptr : nat;
  x_subject : X509_NAME;
  x_issuer : X509_NAME;
  x_serial : Z;
  x_der : list Z
}.

Record PKCS7_SIGNER_INFO := mkSignerInfo {
  si_issuer : X509_NAME;
  si_serial : Z;
  enc_digest : option (list Z)
}.

Record PKCS7 := mkPKCS7 {
  type_is_signed : bool;
  sign_cert : option (list X509);
  sign_signer_info : option (list PKCS7_SIGNER_INFO)
}.

(** STACK_OF(X509): element 0 first; push appends, pop takes the last. *)
Definition sk_X509_pop (sk : list X509) : option (X509 * list X509) :=
  match reverse sk with
  | [] => None
  | x :: r => Some (x, reverse r)
  end.

Definition sk_X509_push (sk : list X509) (x : X509) : M (option (list X509)) :=
  ok <- request ;;
  ret (if ok : bool then Some (sk ++ [x]) else None).

Fixpoint sk_X509_delete_ptr (sk : list X509) (x : X509) : list X509 :=
  match sk with
  | [] => []
  | c :: r => if decide (x_ptr c = x_ptr x) then r else c :: sk_X509_delete_ptr r x
  end.

Fixpoint X509_find_by_subject (sk : list X509) (name : X509_NAME) : option X509 :=
  match sk with
  | [] => None
  | c :: r => if decide (x_subject c = name) then Some c else X509_find_by_subject r name
  end.

Fixpoint X509_find_by_issuer_and_serial (sk : list X509) (name : X509_NAME) (serial : Z)
  : option X509 :=
  match sk with
  | [] => None
  | c :: r => if decide (x_issuer c = name /\ x_serial c = serial) then Some c
              else X509_find_by_issuer_and_serial r name serial
  end.

(** X509_cmp is 0 exactly on certificates with the same encoding. *)
Definition X509_cmp (a b : X509) : Z :=
  if decide (x_der a = x_der b) then 0 else 1.

Definition PKCS7_get_signer_info (p7 : PKCS7) : option (list PKCS7_SIGNER_INFO) :=
  if type_is_signed p7 then sign_signer_info p7 else None.

(** PKCS7_get0_signers (p7, NULL, PKCS7_BINARY): one certificate per signer
    info, looked up by issuer and serial among the embedded certificates;
    NULL when there is no signer info or a signer is not found. *)
Fixpoint get0_signers_loop (sinfos : list PKCS7_SIGNER_INFO) (certs : option (list X509))
    (signers : list X509) : M (option (list X509)) :=
  match sinfos with
  | [] => ret (Some signers)
  | si :: rest =>
      match certs ≫= (fun c => X509_find_by_issuer_and_serial c (si_issuer si) (si_serial si)) with
      | None => ret None
      | Some signer =>
          r <- sk_X509_push signers signer ;;
          match r with
          | None => ret None
          | Some signers' => get0_signers_loop rest certs signers'
          end
      end
  end.

Definition PKCS7_get0_signers (p7 : PKCS7) : M (option (list X509)) :=
  if negb (type_is_signed p7) then ret None else
  match PKCS7_get_signer_info p7 with
  | None | Some [] => ret None
  | Some sinfos =>
      ok <- request ;;                      (* sk_X509_new_null *)
      if ok : bool then get0_signers_loop sinfos (sign_cert p7) [] else ret None
  end.

(** "if (Pkcs7 != NULL) PKCS7_free (Pkcs7)" releases the structure with the
    certificates embedded in it; the value is the list of the certificate
    objects released. *)
Definition PKCS7_free (Pkcs7 : option PKCS7) : list X509 :=
  match Pkcs7 with
  | Some p7 => default [] (sign_cert p7)
  | None => []
  end.

(** sk_X509_pop_free (sk, X509_free), element 0 first, when the objects
    [released] have been released before: X509_free on one of them writes to
    released memory. *)
Fixpoint sk_X509_pop_free (released : list X509) (sk : list X509) : M unit :=
  match sk with
  | [] => ret tt
  | c :: r =>
      if decide (x_ptr c ∈ map x_ptr released) then crash (DoubleFree (x_ptr c))
      else sk_X509_pop_free (c :: released) r
  end.

(** ** X509PopCertificate *)

(** Returns the stack after the call and, on TRUE, the values written to
    [*Cert] and [*CertSize]; on FALSE neither is written.  [Cert] and
    [CertSize] are addresses of locals at every call, so of the three NULL
    tests of the C function only the one on the stack is kept. *)
Definition X509PopCertificate (X509Stack : option (list X509))
  : M (option (list X509) * option (ptr * Z)) :=
  match X509Stack with
  | None => ret (None, None)
  | Some CertStack =>
      match sk_X509_pop CertStack with
      | None => ret (Some CertStack, None)
      | Some (X509Cert, CertStack') =>
          CertBio <- request ;;             (* BIO_new (BIO_s_mem ()) *)
          if negb CertBio then ret (Some CertStack', None) else
          Result <- request ;;              (* i2d_X509_bio *)
          if negb Result then ret (Some CertStack', None) else
          let Length := INT32 (Z.of_nat (length (x_der X509Cert))) in
          if Length <=? 0 then ret (Some CertStack', None) else
          Buffer <- malloc Length ;;
          match Buffer with
          | None => ret (Some CertStack', None)
          | Some _ =>
              let data := take (Z.to_nat Length) (x_der X509Cert) in   (* BIO_read *)
              store_bytes Buffer 0 data ;;
              if negb (Z.of_nat (length data) =? Length) then
                free Buffer ;; ret (Some CertStack', None)
              else ret (Some CertStack', Some (Buffer, Length))
          end
      end
  end.

(** ** The serializer loop

    The loop [for (Index = 0; ; Index++)] of Pkcs7GetSigners and the two of
    Pkcs7GetCertificatesList.  It leaves either by [break], when
    X509PopCertificate returns FALSE, or by [goto], when the allocation of the
    next accumulator fails. *)

Record locals := mkLocals {
  Status : bool;
  Index : Z;
  CertBuf : ptr;
  OldBuf : ptr;
  BufferSize : Z;
  OldSize : Z;
  SingleCert : ptr;
  Stack : option (list X509)
}.

Inductive leave := Break | Goto.

Fixpoint SerializeLoop (fuel : nat) (l : locals) : M (leave * locals) :=
  match fuel with
  | O => crash OutOfFuel
  | S fuel' =>
      r <- X509PopCertificate (Stack l) ;;
      match r with
      | (Stack', None) =>
          ret (Break, mkLocals false (Index l) (CertBuf l) (OldBuf l)
                               (BufferSize l) (OldSize l) (SingleCert l) Stack')
      | (Stack', Some (SingleCert', SingleCertSize)) =>
          let OldSize' := BufferSize l in
          let OldBuf' := CertBuf l in
          let BufferSize' := UINTN (OldSize' + SingleCertSize + 4) in
          CertBuf' <- malloc BufferSize' ;;
          match CertBuf' with
          | None =>
              ret (Goto, mkLocals true (Index l) NULL OldBuf' BufferSize' OldSize'
                                  SingleCert' Stack')
          | Some _ =>
              (match OldBuf' with
               | Some _ => CopyMem CertBuf' 0 OldBuf' 0 OldSize' ;; free OldBuf'
               | None => ret tt
               end) ;;
              store_bytes CertBuf' (Z.to_nat OldSize') (le32 (UINT32 SingleCertSize)) ;;
              CopyMem CertBuf' (Z.to_nat (OldSize' + 4)) SingleCert' 0 SingleCertSize ;;
              free SingleCert' ;;
              SerializeLoop fuel'
                (mkLocals true (UINT8 (Index l + 1)) CertBuf' NULL BufferSize' OldSize'
                          NULL Stack')
          end
      end
  end.

Definition stack_fuel (sk : option (list X509)) : nat :=
  S (length (default [] sk)).

Definition when (b : bool) (c : M unit) : M unit := if b then c else ret tt.
Definition notnull {A} (p : option A) : bool :=
  match p with Some _ => true | None => false end.

(** An OUT parameter is [None] when the caller passes NULL for it and
    [Some v] when it points to a variable of the caller that holds [v]. *)

Record SignersOut := mkSignersOut {
  CertStack : option ptr;
  StackLength : option Z;
  TrustedCert : option ptr;
  CertLength : option Z
}.

Record CertListOut := mkCertListOut {
  SignerChainCerts : option ptr;
  ChainLength : option Z;
  UnchainCerts : option ptr;
  UnchainLength : option Z
}.

Record SignatureOut := mkSignatureOut {
  Signature : option ptr;
  SignatureLength : option Z
}.

Record X509_STORE_CTX := mkCtx {
  ctx_cert : X509;
  ctx_untrusted : option (list X509);
  ctx_chain : option (list X509)
}.

Inductive walk := WalkDone | WalkError.

Section Pkcs7.

(** The decoder and the verification primitive of the library underneath. *)
Variable d2i_PKCS7 : list Z -> option PKCS7.
Variable d2i_X509 : list Z -> option X509.
Variable X509_STORE_CTX_get1_issuer : X509_STORE_CTX -> X509 -> option X509.
Variable PKCS7_verify : PKCS7 -> X509 -> list Z -> bool.

(** ** Pkcs7GetSigners *)

(** [Pkcs7] is the decoded structure, NULL before the decoder has succeeded;
    the stack of PKCS7_get0_signers, [Stack l], borrows its certificates. *)
Definition GetSigners_Exit (Wrapped : bool) (SignedData : ptr) (Pkcs7 : option PKCS7)
    (l : locals) (out : SignersOut) : M (bool * SignersOut) :=
  when (negb Wrapped) (free SignedData) ;;
  let released := PKCS7_free Pkcs7 in
  match Stack l with
  | Some sk => sk_X509_pop_free released sk
  | None => ret tt
  end ;;
  when (notnull (SingleCert l)) (free (SingleCert l)) ;;
  out' <- (if negb (Status l) && notnull (CertBuf l) then
             free (CertBuf l) ;;
             ret (mkSignersOut (Some NULL) (StackLength out) (TrustedCert out) (CertLength out))
           else ret out) ;;
  when (notnull (OldBuf l)) (free (OldBuf l)) ;;
  ret (Status l, out').

Definition with_status (b : bool) (l : locals) : locals :=
  mkLocals b (Index l) (CertBuf l) (OldBuf l) (BufferSize l) (OldSize l)
           (SingleCert l) (Stack l).

(** From the serializer loop to the return of Pkcs7GetSigners. *)
Definition GetSigners_serialize (Wrapped : bool) (SignedData : ptr)
    (Pkcs7 : option PKCS7) (Stack0 : option (list X509)) (out : SignersOut)
  : M (bool * SignersOut) :=
  r <- SerializeLoop (stack_fuel Stack0) (mkLocals false 0 NULL NULL 1 1 NULL Stack0) ;;
  match r with
  | (Goto, l) => GetSigners_Exit Wrapped SignedData Pkcs7 l out
  | (Break, l) =>
      match CertBuf l with
      | None => GetSigners_Exit Wrapped SignedData Pkcs7 l out
      | Some _ =>
          store_bytes (CertBuf l) 0 [Index l] ;;
          let CertLength' := UINTN (BufferSize l - OldSize l - 4) in
          TrustedCert' <- malloc CertLength' ;;
          let out1 := mkSignersOut (CertStack out) (StackLength out)
                                   (Some TrustedCert') (Some CertLength') in
          match TrustedCert' with
          | None => GetSigners_Exit Wrapped SignedData Pkcs7 l out1
          | Some _ =>
              CopyMem TrustedCert' 0 (CertBuf l) (Z.to_nat (OldSize l + 4)) CertLength' ;;
              GetSigners_Exit Wrapped SignedData Pkcs7 (with_status true l)
                (mkSignersOut (Some (CertBuf l)) (Some (BufferSize l))
                              (Some TrustedCert') (Some CertLength'))
          end
      end
  end.

Definition Pkcs7GetSigners (P7Data : ptr) (P7Length : Z) (out : SignersOut)
  : M (bool * SignersOut) :=
  if negb (notnull P7Data) || negb (notnull (CertStack out)) ||
     negb (notnull (StackLength out)) || negb (notnull (TrustedCert out)) ||
     negb (notnull (CertLength out)) || (P7Length >? INT_MAX)
  then ret (false, out) else
  w <- WrapPkcs7Data P7Data P7Length ;;
  let Wrapped := WrapFlag w.2 in
  let SignedData := WrapData w.2 in
  let SignedDataSize := WrapDataSize w.2 in
  if negb w.1 then ret (false, out) else
  let l0 := mkLocals false 0 NULL NULL 0 0 NULL None in
  if SignedDataSize >? INT_MAX then GetSigners_Exit Wrapped SignedData None l0 out else
  der <- read_bytes SignedData 0 (Z.to_nat SignedDataSize) ;;
  match d2i_PKCS7 der with
  | None => GetSigners_Exit Wrapped SignedData None l0 out
  | Some Pkcs7 =>
      if negb (type_is_signed Pkcs7)
      then GetSigners_Exit Wrapped SignedData (Some Pkcs7) l0 out else
      Stack0 <- PKCS7_get0_signers Pkcs7 ;;
      match Stack0 with
      | None => GetSigners_Exit Wrapped SignedData (Some Pkcs7) l0 out
      | Some _ => GetSigners_serialize Wrapped SignedData (Some Pkcs7) Stack0 out
      end
  end.

(** ** Pkcs7FreeSigners *)

Definition Pkcs7FreeSigners (Certs : ptr) : M unit :=
  match Certs with
  | None => ret tt
  | Some _ => free Certs
  end.

(** ** Pkcs7GetCertificatesList *)

(** free (NewP7Data) in Pkcs7GetCertificatesList.  [NewP7Data] is the block
    that WrapPkcs7Data has returned; [Advanced] tells that d2i_PKCS7, which is
    handed the address of the variable, has moved it behind the bytes it has
    decoded, so that it no longer points to the base of the block. *)
Definition free_moved (NewP7Data : ptr) (Advanced : bool) : M unit :=
  if Advanced then crash (InvalidFree NewP7Data) else free NewP7Data.

Definition CertList_Error (Status Wrapped : bool) (NewP7Data : ptr) (Advanced : bool)
    (SingleCert OldBuf CertBuf : ptr) (out : CertListOut) : M (bool * CertListOut) :=
  when (negb Wrapped && notnull NewP7Data) (free_moved NewP7Data Advanced) ;;
  when (notnull SingleCert) (free SingleCert) ;;
  when (notnull OldBuf) (free OldBuf) ;;
  if negb Status && notnull CertBuf then
    free CertBuf ;;
    ret (Status, mkCertListOut (Some NULL) (ChainLength out) (Some NULL) (UnchainLength out))
  else ret (Status, out).

(** The loop that chains issuers to the signer's certificate. *)
Fixpoint ChainWalk (fuel : nat) (CertCtx : X509_STORE_CTX) (Cert : X509)
    (CtxChain : list X509) (CtxUntrusted : option (list X509))
  : M (walk * list X509 * option (list X509)) :=
  match fuel with
  | O => crash OutOfFuel
  | S fuel' =>
      let self_issued :=
        match X509_STORE_CTX_get1_issuer CertCtx Cert with
        | Some Issuer => X509_cmp Issuer Cert =? 0
        | None => false
        end in
      if self_issued then ret (WalkDone, CtxChain, CtxUntrusted) else
      match CtxUntrusted with
      | None => ret (WalkDone, CtxChain, CtxUntrusted)
      | Some untrusted =>
          match X509_find_by_subject untrusted (x_issuer Cert) with
          | None => ret (WalkDone, CtxChain, CtxUntrusted)
          | Some Issuer =>
              r <- sk_X509_push CtxChain Issuer ;;
              match r with
              | None => ret (WalkError, CtxChain, CtxUntrusted)
              | Some CtxChain' =>
                  ChainWalk fuel' CertCtx Issuer CtxChain'
                            (Some (sk_X509_delete_ptr untrusted Issuer))
              end
          end
      end
  end.

(** The loop of one of the two blocks "if (Stack != NULL) { ... }" that
    serialize a stack into an output pair. *)
Definition SerializeBlock (sk : option (list X509)) (OldBuf0 SingleCert0 : ptr)
  : M (leave * locals) :=
  SerializeLoop (stack_fuel sk) (mkLocals false 0 NULL OldBuf0 1 0 SingleCert0 sk).

(** From "if (CtxUntrusted != NULL)" to the return; [l] holds the locals left
    by the block before and [out1] the outputs so far. *)
Definition CertList_unchain (Wrapped : bool) (NewP7Data : ptr) (Advanced : bool)
    (CtxUntrusted : option (list X509)) (l : locals) (out1 : CertListOut)
  : M (bool * CertListOut) :=
  match CtxUntrusted with
  | None =>
      CertList_Error true Wrapped NewP7Data Advanced (SingleCert l) (OldBuf l) (CertBuf l) out1
  | Some _ =>
      r2 <- SerializeBlock CtxUntrusted (OldBuf l) (SingleCert l) ;;
      match r2 with
      | (Goto, l2) =>
          CertList_Error false Wrapped NewP7Data Advanced
            (SingleCert l2) (OldBuf l2) (CertBuf l2) out1
      | (Break, l2) =>
          out2 <- (match CertBuf l2 with
                   | Some _ =>
                       store_bytes (CertBuf l2) 0 [Index l2] ;;
                       ret (mkCertListOut (SignerChainCerts out1) (ChainLength out1)
                                          (Some (CertBuf l2)) (Some (BufferSize l2)))
                   | None => ret out1
                   end) ;;
          CertList_Error true Wrapped NewP7Data Advanced
            (SingleCert l2) (OldBuf l2) (CertBuf l2) out2
      end
  end.

(** From "if (CtxChain != NULL)" to the return. *)
Definition CertList_serialize (Wrapped : bool) (NewP7Data : ptr) (Advanced : bool)
    (CtxChain : list X509) (CtxUntrusted : option (list X509)) : M (bool * CertListOut) :=
  let out0 := mkCertListOut (Some NULL) (Some 0) (Some NULL) (Some 0) in
  r1 <- SerializeBlock (Some CtxChain) NULL NULL ;;
  match r1 with
  | (Goto, l) =>
      CertList_Error false Wrapped NewP7Data Advanced
        (SingleCert l) (OldBuf l) (CertBuf l) out0
  | (Break, l) =>
      out1 <- (match CertBuf l with
               | Some _ =>
                   store_bytes (CertBuf l) 0 [Index l] ;;
                   ret (mkCertListOut (Some (CertBuf l)) (Some (BufferSize l))
                                      (Some NULL) (Some 0))
               | None => ret out0
               end) ;;
      CertList_unchain Wrapped NewP7Data Advanced CtxUntrusted l out1
  end.

(** The decoder is handed the bytes of the envelope.  In C it receives
    [&NewP7Data] and, when it succeeds, leaves that variable behind the bytes
    it has decoded: from there on [Error] passes [Advanced = true]. *)
Definition Pkcs7GetCertificatesList (P7Data : ptr) (P7Length : Z) (out : CertListOut)
  : M (bool * CertListOut) :=
  if negb (notnull P7Data) || negb (notnull (SignerChainCerts out)) ||
     negb (notnull (ChainLength out)) || negb (notnull (UnchainCerts out)) ||
     negb (notnull (UnchainLength out)) || (P7Length >? INT_MAX)
  then ret (false, out) else
  let out0 := mkCertListOut (Some NULL) (Some 0) (Some NULL) (Some 0) in
  w <- WrapPkcs7Data P7Data P7Length ;;
  let Status := w.1 in
  let Wrapped := WrapFlag w.2 in
  let NewP7Data := WrapData w.2 in
  let NewP7Length := WrapDataSize w.2 in
  if negb Status || (NewP7Length >? INT_MAX)
  then CertList_Error Status Wrapped NewP7Data false NULL NULL NULL out0 else
  der <- read_bytes NewP7Data 0 (Z.to_nat NewP7Length) ;;
  match d2i_PKCS7 der with
  | None => CertList_Error Status Wrapped NewP7Data false NULL NULL NULL out0
  | Some Pkcs7 =>
  let Error := CertList_Error Status Wrapped NewP7Data true NULL NULL NULL out0 in
  if negb (type_is_signed Pkcs7) then Error else
  Signers <- PKCS7_get0_signers Pkcs7 ;;
  match Signers with
  | Some [Signer] =>
      ok <- request ;;                      (* X509_STORE_CTX_new *)
      if negb ok then Error else
      ok <- request ;;                      (* X509_STORE_CTX_init *)
      if negb ok then Error else
      let CertCtx := mkCtx Signer (sign_cert Pkcs7) None in
      let CtxCert := ctx_cert CertCtx in
      c <- (match ctx_chain CertCtx with
            | Some chain => ret (Some chain)
            | None =>
                ok <- request ;;            (* sk_X509_new_null *)
                if ok : bool then sk_X509_push [] CtxCert else ret None
            end) ;;
      match c with
      | None => Error
      | Some CtxChain0 =>
          let CtxUntrusted0 :=
            (fun u => sk_X509_delete_ptr u Signer) <$> ctx_untrusted CertCtx in
          r <- ChainWalk (stack_fuel CtxUntrusted0) CertCtx Signer CtxChain0 CtxUntrusted0 ;;
          match r with
          | (WalkError, _, _) => Error
          | (WalkDone, CtxChain, CtxUntrusted) =>
              CertList_serialize Wrapped NewP7Data true CtxChain CtxUntrusted
          end
      end
  | _ => Error
  end
  end.

(** ** Pkcs7Verify *)

Fixpoint requests (n : nat) : M bool :=
  match n with
  | O => ret true
  | S n' => ok <- request ;; if ok : bool then requests n' else ret false
  end.

Definition Pkcs7Verify (P7Data : ptr) (P7Length : Z) (TrustedCert : ptr) (CertLength : Z)
    (InData : ptr) (DataLength : Z) : M bool :=
  if negb (notnull P7Data) || negb (notnull TrustedCert) || negb (notnull InData) ||
     (P7Length >? INT_MAX) || (CertLength >? INT_MAX) || (DataLength >? INT_MAX)
  then ret false else
  (* EVP_add_digest for md5, sha1, sha256, sha384, sha512; EVP_add_digest_alias *)
  registered <- requests 6 ;;
  if negb registered then ret false else
  w <- WrapPkcs7Data P7Data P7Length ;;
  let Wrapped := WrapFlag w.2 in
  let SignedData := WrapData w.2 in
  let SignedDataSize := WrapDataSize w.2 in
  if negb w.1 then ret false else
  let Exit (Status : bool) := when (negb Wrapped) (free SignedData) ;; ret Status in
  if SignedDataSize >? INT_MAX then Exit false else
  der <- read_bytes SignedData 0 (Z.to_nat SignedDataSize) ;;
  match d2i_PKCS7 der with
  | None => Exit false
  | Some Pkcs7 =>
      if negb (type_is_signed Pkcs7) then Exit false else
      root <- read_bytes TrustedCert 0 (Z.to_nat CertLength) ;;
      match d2i_X509 root with
      | None => Exit false
      | Some Cert =>
          ok <- request ;;                  (* X509_STORE_new *)
          if negb ok then Exit false else
          ok <- request ;;                  (* X509_STORE_add_cert *)
          if negb ok then Exit false else
          content <- read_bytes InData 0 (Z.to_nat DataLength) ;;
          ok <- request ;;                  (* BIO_new_mem_buf *)
          if negb ok then Exit false else
          Exit (PKCS7_verify Pkcs7 Cert content)
      end
  end.

(** ** Pkcs7GetSignature *)

Definition Pkcs7GetSignature (P7Data : ptr) (P7Length : Z) (out : SignatureOut)
  : M (bool * SignatureOut) :=
  if negb (notnull P7Data) || (P7Length >? INT_MAX) ||
     (negb (notnull (Signature out)) && negb (notnull (SignatureLength out)))
  then ret (false, out) else
  w <- WrapPkcs7Data P7Data P7Length ;;
  let Wrapped := WrapFlag w.2 in
  let SignedData := WrapData w.2 in
  let SignedDataSize := WrapDataSize w.2 in
  if negb w.1 then ret (false, out) else
  let Exit (Status : bool) (out' : SignatureOut) :=
    when (negb Wrapped) (free SignedData) ;; ret (Status, out') in
  if SignedDataSize >? INT_MAX then Exit false out else
  der <- read_bytes SignedData 0 (Z.to_nat SignedDataSize) ;;
  match d2i_PKCS7 der with
  | None => Exit false out
  | Some Pkcs7 =>
      if negb (type_is_signed Pkcs7) then Exit false out else
      match PKCS7_get_signer_info Pkcs7 with
      | Some [SignInfo] =>
          match enc_digest SignInfo with
          | None => Exit false out
          | Some EncDigest =>
              match SignatureLength out with
              | None => crash (BadPointer NULL)      (* *SignatureLength = ... *)
              | Some _ =>
                  let out' := mkSignatureOut (Signature out)
                                (Some (Z.of_nat (length EncDigest))) in
                  match Signature out with
                  | None => Exit false out'
                  | Some None => Exit false out'
                  | Some (Some dst) =>
                      store_bytes (Some dst) 0 EncDigest ;;
                      Exit true out'
                  end
              end
          end
      | _ => Exit false out
      end
  end.

End Pkcs7.

(** * Specification vocabulary *)

(** ** Allocation plans *)

(** The next allocation request is granted. *)
Definition next_granted (s : state) : Prop := hd true (plan s) = true.

(** Every coming allocation request is granted. *)
Definition all_granted (s : state) : Prop := Forall (fun b => b = true) (plan s).

(** The next [n] allocation requests are granted. *)
Definition granted (n : nat) (pl : list bool) : Prop :=
  Forall (fun b => b = true) (take n pl).

(** ** Byte layouts *)

(** The two bytes of a 16-bit value, most significant first. *)
Definition be16 (v : Z) : list Z := [(v / 256) mod 256; v mod 256].

(** The 19-byte header written in front of a bare SignedData of [L] bytes. *)
Definition wrap_header (L : Z) : list Z :=
  [0x30; 0x82] ++ be16 (L + 15) ++ [0x06; 0x09] ++ mOidValue ++ [0xA0; 0x82] ++ be16 L.

(** The detection rule as the specification words it: bytes 4 and 5 are
    06 09, bytes 6 to 14 are the OID, bytes 15 and 16 are A0 82. *)
Definition is_wrapped (B : list Z) : bool :=
  bool_decide (B !! 4%nat = Some 0x06) && bool_decide (B !! 5%nat = Some 0x09) &&
  bool_decide (take 9 (drop 6 B) = mOidValue) &&
  bool_decide (B !! 15%nat = Some 0xA0) && bool_decide (B !! 16%nat = Some 0x82).

Definition envelope (B : list Z) : list Z :=
  if is_wrapped B then B else wrap_header (Z.of_nat (length B)) ++ B.

(** One record of the serialized list: the UINT32 length, then the DER bytes. *)
Definition cert_record (c : X509) : list Z :=
  le32 (Z.of_nat (length (x_der c))) ++ x_der c.

Definition cert_records (pops : list X509) : list Z := concat (map cert_record pops).

Fixpoint records_size (pops : list X509) : Z :=
  match pops with
  | [] => 0
  | c :: r => (4 + Z.of_nat (length (x_der c))) + records_size r
  end.

(** X509PopCertificate accepts an encoding of 1 to INT_MAX bytes. *)
Definition encodable (c : X509) : Prop :=
  0 < Z.of_nat (length (x_der c)) <= INT_MAX.

Definition sized (c : X509) : Prop := Z.of_nat (length (x_der c)) <= INT_MAX.

(** ** Heap predicates *)

(** The accumulator [cb] holds, after its count byte, the bytes [acc]. *)
Definition holds (s : state) (cb : ptr) (acc : list Z) : Prop :=
  match cb with
  | Some _ => block s cb = Some (0 :: acc)
  | None => acc = []
  end.

Definition release (p : ptr) (h : list (option (list Z))) : list (option (list Z)) :=
  match p with
  | Some q => <[q := None]> h
  | None => h
  end.

(** Blocks other than [but] that exist in [h] are the same in [h']. *)
Definition frame (but : ptr) (h h' : list (option (list Z))) : Prop :=
  (length h <= length h')%nat /\
  forall b, (b < length h)%nat -> Some b <> but -> h' !! b = h !! b.

(** [h'] is [h] but for block [q]. *)
Definition only_at (q : nat) (h h' : list (option (list Z))) : Prop :=
  length h' = length h /\ forall b, b <> q -> h' !! b = h !! b.

(** The output pair [(p, len)] is the serialized list of [certs]: absent with
    length 0 when there is none, else the count byte and the records. *)
Definition listed (s : state) (p : option ptr) (len : option Z) (certs : list X509) : Prop :=
  match certs with
  | [] => p = Some NULL /\ len = Some 0
  | _ => exists q, p = Some (Some q) /\
                   block s (Some q)
                   = Some (UINT8 (Z.of_nat (length certs)) :: cert_records certs) /\
                   len = Some (1 + records_size certs)
  end.

(** ** Memory accounting *)

(** Block [b] of [h] is allocated. *)
Definition live (h : list (option (list Z))) (b : nat) : Prop :=
  exists bs, h !! b = Some (Some bs).

(** [p] is NULL or a block that [h0] does not have. *)
Definition fresh (h0 : list (option (list Z))) (p : ptr) : Prop :=
  forall q, p = Some q -> (length h0 <= q)%nat.

(** [h] is [h0] with blocks added: the blocks of [h0] are as they were, and
    every block beyond them that is still allocated is in [K]. *)
Definition tidy (h0 h : list (option (list Z))) (K : nat -> Prop) : Prop :=
  (length h0 <= length h)%nat /\
  (forall b, (b < length h0)%nat -> h !! b = h0 !! b) /\
  (forall b, (length h0 <= b)%nat -> live h b -> K b).


(** ** Signers and chains *)

(** [c] is the certificate that PKCS7_get0_signers finds for the signer info
    [si] among [certs]. *)
Definition signer_of (certs : list X509) (si : PKCS7_SIGNER_INFO) (c : X509) : Prop :=
  X509_find_by_issuer_and_serial certs (si_issuer si) (si_serial si) = Some c.

(** [l] continues the chain from [c]: each certificate has as subject the
    issuer name of the one before. *)
Fixpoint linked (c : X509) (l : list X509) : Prop :=
  match l with
  | [] => True
  | i :: r => x_subject i = x_issuer c /\ linked i r
  end.

(** The test "X509_STORE_CTX_get1_issuer finds an issuer and X509_cmp finds it
    equal to the certificate" that ends the walk. *)
Definition self_issued (get1 : X509_STORE_CTX -> X509 -> option X509)
    (ctx : X509_STORE_CTX) (c : X509) : bool :=
  match get1 ctx c with
  | Some Issuer => X509_cmp Issuer c =? 0
  | None => false
  end.

(** ** The chain walk and the decoder *)

Section Vocabulary.

Variable d2i_PKCS7 : list Z -> option PKCS7.
Variable X509_STORE_CTX_get1_issuer : X509_STORE_CTX -> X509 -> option X509.

(** The issuers that the walk appends to the chain and the pool it leaves,
    when no push fails. *)
Fixpoint walk_chain (fuel : nat) (CertCtx : X509_STORE_CTX) (Cert : X509) (un : list X509)
  : list X509 * list X509 :=
  match fuel with
  | O => ([], un)
  | S fuel' =>
      if match X509_STORE_CTX_get1_issuer CertCtx Cert with
         | Some Issuer => X509_cmp Issuer Cert =? 0
         | None => false
         end
      then ([], un)
      else match X509_find_by_subject un (x_issuer Cert) with
           | None => ([], un)
           | Some Issuer =>
               let r := walk_chain fuel' CertCtx Issuer (sk_X509_delete_ptr un Issuer) in
               (Issuer :: r.1, r.2)
           end
  end.

(** The decoder hands out stacks of distinct certificate objects, each with an
    encoding of at most INT_MAX bytes, that fit the address space together. *)
Definition decoder_wf : Prop :=
  forall der p7 certs,
    d2i_PKCS7 der = Some p7 -> sign_cert p7 = Some certs ->
    NoDup (map x_ptr certs) /\ Forall sized certs /\ 1 + records_size certs < 2^64.

(** The decoder hands out certificates with encodings of at most INT_MAX
    bytes, and at most INT_MAX signer infos. *)
Definition signers_wf : Prop :=
  forall der p7, d2i_PKCS7 der = Some p7 ->
    (forall certs, sign_cert p7 = Some certs -> Forall sized certs) /\
    (forall sinfos, sign_signer_info p7 = Some sinfos ->
       Z.of_nat (length sinfos) <= INT_MAX).

End Vocabulary.

(** ** Sample inputs

    A decoder for examples: the first content byte of the envelope selects one
    of a few parsed structures.  The issuer lookup has no trusted store, as in
    the call X509_STORE_CTX_init (CertCtx, NULL, Signer, ...). *)

Module Sample.

Definition Leaf := mkX509 101 "CN=Leaf" "CN=Intermediate" 7 [0x30; 0x03; 0x4C; 0x45; 0x41].
Definition Intermediate := mkX509 102 "CN=Intermediate" "CN=Root" 2 [0x30; 0x02; 0x49; 0x4E].
Definition Root := mkX509 103 "CN=Root" "CN=Root" 1 [0x30; 0x01; 0x52].
(** A second object with the encoding of [Leaf]. *)
Definition LeafCopy := mkX509 104 "CN=Leaf" "CN=Intermediate" 7 [0x30; 0x03; 0x4C; 0x45; 0x41].

Definition signer_info := mkSignerInfo "CN=Intermediate" 7 (Some [0xDE; 0xAD; 0xBE; 0xEF]).
Definition other_info := mkSignerInfo "CN=Root" 2 (Some [0xCA; 0xFE]).

Definition signed (certs : list X509) (sinfos : list PKCS7_SIGNER_INFO) : PKCS7 :=
  mkPKCS7 true (Some certs) (Some sinfos).

Definition d2i_PKCS7 (der : list Z) : option PKCS7 :=
  match der !! 19%nat with
  | Some 0 => Some (signed [Intermediate; Leaf; Root] [])
  | Some 1 => Some (signed [Intermediate; Leaf; Root] [signer_info])
  | Some 2 => Some (signed [Intermediate; Leaf; Root] [signer_info; other_info])
  | Some 3 => Some (signed [Leaf] [signer_info])
  | Some 4 => Some (signed [Leaf; LeafCopy] [signer_info])
  | Some 5 => Some (signed [Leaf; Root] [signer_info])
  | _ => None
  end.

Definition get1_issuer (_ : X509_STORE_CTX) (_ : X509) : option X509 := None.

(** A wrapped input of 20 bytes whose content is the one byte [tag]. *)
Definition input (tag : Z) : list Z := wrap_header 1 ++ [tag].

(** A bare input of 17 bytes that starts with [tag]. *)
Definition bare_input (tag : Z) : list Z := tag :: replicate 16 0.

(** The caller's memory: the input at address 0, then [extra] blocks. *)
Definition memory (B : list Z) (extra : list (list Z)) (pl : list bool) : state :=
  mkState (Some B :: map Some extra) pl.

Definition P7Data : ptr := Some 0%nat.

Definition certlist_out : CertListOut := mkCertListOut (Some NULL) (Some 0) (Some NULL) (Some 0).
Definition signers_out : SignersOut := mkSignersOut (Some NULL) (Some 0) (Some NULL) (Some 0).

End Sample.

(** A certificate decoder and a verification primitive for examples: the
    decoder knows the encoding of [Sample.Root]; the primitive accepts the
    content 01 02 03 under a certificate with that encoding. *)

Module SampleVerify.

Definition d2i_X509 (der : list Z) : option X509 :=
  if decide (der = x_der Sample.Root) then Some Sample.Root else None.

Definition PKCS7_verify (p7 : PKCS7) (cert : X509) (content : list Z) : bool :=
  bool_decide (x_der cert = x_der Sample.Root) && bool_decide (content = [1; 2; 3]).

Definition TrustedCert : ptr := Some 1%nat.
Definition InData : ptr := Some 2%nat.

(** The input at address 0, the trusted certificate at 1, the content at 2. *)
Definition memory (tag : Z) (content : list Z) (pl : list bool) : state :=
  Sample.memory (Sample.input tag) [x_der Sample.Root; content] pl.

End SampleVerify.

(** * Properties *)

(** ** The monad and the memory operations *)

Lemma bind_Ret {A B} (c : M A) (k : A -> M B) s a s' :
  c s = Ret (a, s') -> bind c k s = k a s'.
Proof. unfold bind. intros ->. reflexivity. Qed.

Lemma bind_Crash {A B} (c : M A) (k : A -> M B) s f :
  c s = Crash f -> bind c k s = Crash f.
Proof. unfold bind. intros ->. reflexivity. Qed.

Lemma bind_inv {A B} (c : M A) (k : A -> M B) s b s2 :
  bind c k s = Ret (b, s2) ->
  exists a s1, c s = Ret (a, s1) /\ k a s1 = Ret (b, s2).
Proof.
  unfold bind. destruct (c s) as [[a s1]|f]; [|discriminate].
  intros H. exists a, s1. split; [reflexivity|exact H].
Qed.

Lemma all_granted_next s : all_granted s -> next_granted s.
Proof.
  unfold all_granted, next_granted. destruct (plan s) as [|b pl]; [reflexivity|].
  intros H. inversion H; subst. reflexivity.
Qed.

Lemma request_granted s :
  next_granted s -> request s = Ret (true, mkState (heap s) (tl (plan s))).
Proof.
  unfold next_granted, request. destruct s as [h [|b pl]]; simpl.
  - reflexivity.
  - intros ->. reflexivity.
Qed.

Lemma malloc_granted s n :
  next_granted s ->
  malloc n s = Ret (Some (length (heap s)),
                    mkState (heap s ++ [Some (replicate (Z.to_nat n) 0)]) (tl (plan s))).
Proof.
  intros H. unfold malloc. rewrite (bind_Ret _ _ _ _ _ (request_granted s H)).
  reflexivity.
Qed.

Lemma malloc_refused h pl n :
  malloc n (mkState h (false :: pl)) = Ret (NULL, mkState h pl).
Proof. reflexivity. Qed.

Lemma block_last h pl bs : block (mkState (h ++ [Some bs]) pl) (Some (length h)) = Some bs.
Proof.
  unfold block. simpl. rewrite lookup_app_r by lia.
  replace (length h - length h)%nat with 0%nat by lia. reflexivity.
Qed.

Lemma block_app_l h x pl b bs :
  block (mkState h pl) (Some b) = Some bs ->
  block (mkState (h ++ x) pl) (Some b) = Some bs.
Proof.
  unfold block. simpl. intros H.
  destruct (h !! b) as [o|] eqn:E; [|discriminate].
  rewrite (lookup_app_l_Some _ _ _ _ E). exact H.
Qed.

Lemma block_plan h pl pl' p : block (mkState h pl) p = block (mkState h pl') p.
Proof. reflexivity. Qed.

Lemma insert_last {A} (h : list A) x y : <[length h := y]> (h ++ [x]) = h ++ [y].
Proof.
  rewrite insert_app_r_alt by lia.
  replace (length h - length h)%nat with 0%nat by lia. reflexivity.
Qed.

(** Writing [new] right after the bytes written so far, into a block whose
    remainder is still blank. *)
Lemma write_at_fill (written new : list Z) (k off : nat) :
  off = length written -> (length new <= k)%nat ->
  write_at (written ++ replicate k 0) off new
  = (written ++ new) ++ replicate (k - length new) 0.
Proof.
  intros -> Hk. unfold write_at.
  rewrite take_app_length, drop_app_add'.
  - rewrite drop_replicate, <- app_assoc. reflexivity.
  - reflexivity.
Qed.

Lemma store_bytes_fill h pl (written new : list Z) (k off : nat) :
  off = length written -> (length new <= k)%nat ->
  store_bytes (Some (length h)) off new (mkState (h ++ [Some (written ++ replicate k 0)]) pl)
  = Ret (tt, mkState (h ++ [Some ((written ++ new) ++ replicate (k - length new) 0)]) pl).
Proof.
  intros Hoff Hk. unfold store_bytes. rewrite block_last.
  rewrite decide_True.
  - simpl. rewrite insert_last, write_at_fill by assumption. reflexivity.
  - rewrite length_app, length_replicate. lia.
Qed.

Lemma read_bytes_prefix s p bs (n : nat) :
  block s p = Some bs -> (n <= length bs)%nat ->
  read_bytes p 0 n s = Ret (take n bs, s).
Proof.
  intros Hb Hn. unfold read_bytes. rewrite Hb, decide_True by lia. reflexivity.
Qed.

Lemma load_Some s p bs i v :
  block s p = Some bs -> bs !! i = Some v -> load p i s = Ret (v, s).
Proof. intros Hb Hv. unfold load. rewrite Hb, Hv. reflexivity. Qed.

Lemma load_beyond s p bs i :
  block s p = Some bs -> (length bs <= i)%nat -> load p i s = Crash (OutOfBounds p i).
Proof.
  intros Hb Hi. unfold load. rewrite Hb, (lookup_ge_None_2 _ _ Hi). reflexivity.
Qed.

(** ** Machine integers *)

Lemma be16_value v : 0 <= v < 2^16 ->
  exists hi lo, be16 v = [hi; lo] /\ 0 <= hi < 256 /\ 0 <= lo < 256 /\ hi * 256 + lo = v.
Proof.
  intros Hv. exists (v / 256 mod 256), (v mod 256).
  assert (0 <= v / 256 < 256) by (split; [apply Z.div_pos|apply Z.div_lt_upper_bound]; lia).
  rewrite (Z.mod_small (v / 256)) by lia.
  pose proof (Z.div_mod v 256 ltac:(lia)).
  pose proof (Z.mod_pos_bound v 256 ltac:(lia)).
  split; [|lia].
  unfold be16. rewrite (Z.mod_small (v / 256)) by lia. reflexivity.
Qed.

Lemma UINT16_bytes (z : Z) :
  [UINT8 (Z.shiftr (UINT16 z) 8); UINT8 (Z.land (UINT16 z) 0xff)] = be16 z.
Proof.
  unfold UINT8, UINT16, be16.
  rewrite Z.shiftr_div_pow2 by lia.
  change 0xff with (Z.ones 8). rewrite Z.land_ones by lia.
  change (2^8) with 256. change (2^16) with (256 * 256).
  f_equal; [|f_equal].
  - rewrite Z.rem_mul_r by lia.
    rewrite (Z.add_comm (z mod 256)), (Z.mul_comm 256), Z.div_add_l by lia.
    rewrite (Z.div_small (z mod 256)) by (apply Z.mod_pos_bound; lia).
    rewrite Z.add_0_r. apply Z.mod_mod; lia.
  - rewrite Z.mod_mod by lia.
    apply Z.mod_mod_divide. exists 256. lia.
Qed.

Lemma UINT16_UINTN z : UINT16 (UINTN z) = UINT16 z.
Proof.
  unfold UINT16, UINTN. apply Z.mod_mod_divide.
  exists (2^48). reflexivity.
Qed.

(** ** WrapPkcs7Data *)

Lemma wrap_header_length L : length (wrap_header L) = 19%nat.
Proof. reflexivity. Qed.

(** What WrapPkcs7Data does on a buffer that its test finds not wrapped, when
    the allocation is granted. *)
Lemma WrapPkcs7Data_bare s P7Data B :
  block s P7Data = Some B ->
  Z.of_nat (length B) + 19 < 2^64 ->
  DetectWrapped P7Data s = Ret (false, s) ->
  next_granted s ->
  WrapPkcs7Data P7Data (Z.of_nat (length B)) s
  = Ret ((true, mkWrapOut false (Some (length (heap s))) (Z.of_nat (length B) + 19)),
         mkState (heap s ++ [Some (wrap_header (Z.of_nat (length B)) ++ B)]) (tl (plan s))).
Proof.
  intros HB Hlen Hdet Hgr.
  set (L := Z.of_nat (length B)) in *.
  unfold WrapPkcs7Data. rewrite (bind_Ret _ _ _ _ _ Hdet).
  assert (Hsize : UINTN (L + 19) = L + 19) by (apply Z.mod_small; lia).
  cbv zeta. rewrite Hsize.
  rewrite (bind_Ret _ _ _ _ _ (malloc_granted s _ Hgr)).
  replace (Z.to_nat (L + 19)) with (19 + length B)%nat by lia.
  rewrite UINT16_UINTN, !UINT16_bytes.
  replace (L + 19 - 4) with (L + 15) by lia.
  set (h := heap s). set (pl := tl (plan s)).
  pose proof (store_bytes_fill h pl [] [0x30; 0x82] (19 + length B) 0 eq_refl) as E1.
  rewrite (bind_Ret _ _ _ _ _ (E1 ltac:(simpl; lia))). clear E1.
  pose proof (store_bytes_fill h pl ([] ++ [0x30; 0x82]) (be16 (L + 15))
                (19 + length B - 2) 2 eq_refl) as E2.
  rewrite (bind_Ret _ _ _ _ _ (E2 ltac:(simpl; lia))). clear E2.
  pose proof (store_bytes_fill h pl (([] ++ [0x30; 0x82]) ++ be16 (L + 15)) [0x06; 0x09]
                (19 + length B - 2 - 2) 4 eq_refl) as E3.
  rewrite (bind_Ret _ _ _ _ _ (E3 ltac:(simpl; lia))). clear E3.
  pose proof (store_bytes_fill h pl ((([] ++ [0x30; 0x82]) ++ be16 (L + 15)) ++ [0x06; 0x09])
                mOidValue (19 + length B - 2 - 2 - 2) 6 eq_refl) as E4.
  rewrite (bind_Ret _ _ _ _ _ (E4 ltac:(simpl; lia))). clear E4.
  pose proof (store_bytes_fill h pl
                (((([] ++ [0x30; 0x82]) ++ be16 (L + 15)) ++ [0x06; 0x09]) ++ mOidValue)
                [0xA0; 0x82] (19 + length B - 2 - 2 - 2 - 9) 15 eq_refl) as E5.
  rewrite (bind_Ret _ _ _ _ _ (E5 ltac:(simpl; lia))). clear E5.
  pose proof (store_bytes_fill h pl
                ((((([] ++ [0x30; 0x82]) ++ be16 (L + 15)) ++ [0x06; 0x09]) ++ mOidValue)
                   ++ [0xA0; 0x82])
                (be16 L) (19 + length B - 2 - 2 - 2 - 9 - 2) 17 eq_refl) as E6.
  rewrite (bind_Ret _ _ _ _ _ (E6 ltac:(simpl; lia))). clear E6.
  change ((((((([] ++ [0x30; 0x82]) ++ be16 (L + 15)) ++ [0x06; 0x09]) ++ mOidValue)
             ++ [0xA0; 0x82]) ++ be16 L)) with (wrap_header L).
  replace (19 + length B - 2 - 2 - 2 - 9 - 2 - length (be16 L))%nat
    with (length B) by (simpl; lia).
  unfold CopyMem.
  assert (Hrd : read_bytes P7Data 0 (Z.to_nat L)
                  (mkState (h ++ [Some (wrap_header L ++ replicate (length B) 0)]) pl)
                = Ret (B, mkState (h ++ [Some (wrap_header L ++ replicate (length B) 0)]) pl)).
  { destruct P7Data as [b|]; [|discriminate].
    erewrite read_bytes_prefix.
    - subst L. rewrite Nat2Z.id, firstn_all. reflexivity.
    - apply block_app_l. destruct s; exact HB.
    - lia. }
  erewrite bind_Ret; [reflexivity|].
  rewrite (bind_Ret _ _ _ _ _ Hrd).
  rewrite (store_bytes_fill h pl (wrap_header L) B (length B) 19 eq_refl) by lia.
  rewrite Nat.sub_diag. simpl replicate. rewrite app_nil_r. reflexivity.
Qed.

(** C3. A buffer of [L] bytes that the test of WrapPkcs7Data finds not wrapped
    is, when the allocation is granted, copied into a new buffer of [L + 19]
    bytes: 30 82, the two bytes of [L + 15] most significant first, 06 09, the
    nine bytes of the OID, A0 82, the two bytes of [L] most significant first,
    then the [L] bytes of the input unchanged. *)
Theorem WrapPkcs7Data_bare_layout (s : state) (P7Data : ptr) (B : list Z) :
  block s P7Data = Some B ->
  Z.of_nat (length B) + 19 < 2^64 ->
  DetectWrapped P7Data s = Ret (false, s) ->
  next_granted s ->
  let L := Z.of_nat (length B) in
  exists q s',
    WrapPkcs7Data P7Data L s = Ret ((true, mkWrapOut false (Some q) (L + 19)), s') /\
    block s' (Some q)
    = Some ([0x30; 0x82] ++ be16 (L + 15) ++ [0x06; 0x09]
              ++ [0x2A; 0x86; 0x48; 0x86; 0xF7; 0x0D; 0x01; 0x07; 0x02]
              ++ [0xA0; 0x82] ++ be16 L ++ B) /\
    (forall out, block s' (Some q) = Some out -> Z.of_nat (length out) = L + 19).
Proof.
  intros HB Hlen Hdet Hgr L.
  exists (length (heap s)), (mkState (heap s ++ [Some (wrap_header L ++ B)]) (tl (plan s))).
  split; [apply WrapPkcs7Data_bare; assumption|].
  rewrite block_last. split; [reflexivity|].
  intros out [= E]. subst out.
  change (Z.of_nat (length (wrap_header L ++ B)) = L + 19).
  rewrite length_app, wrap_header_length. lia.
Qed.

Lemma WrapPkcs7Data_bare_layout_witness :
  let B := [0x30; 0x03; 0x02; 0x01; 0x01] in
  exists q s',
    WrapPkcs7Data (Some 0%nat) 5 (mkState [Some B] []) = Ret ((true, mkWrapOut false (Some q) 24), s') /\
    block s' (Some q)
    = Some ([0x30; 0x82; 0x00; 0x14; 0x06; 0x09; 0x2A; 0x86; 0x48; 0x86; 0xF7; 0x0D; 0x01;
             0x07; 0x02; 0xA0; 0x82; 0x00; 0x05] ++ B).
Proof.
  intros B.
  destruct (WrapPkcs7Data_bare_layout (mkState [Some B] []) (Some 0%nat) B)
    as (q & s' & H1 & H2 & _).
  - reflexivity.
  - reflexivity.
  - reflexivity.
  - reflexivity.
  - exists q, s'. split; [exact H1|exact H2].
Defined.

(** Detection on a buffer that starts with the synthesized header. *)
Lemma DetectWrapped_header s p L B :
  block s p = Some (wrap_header L ++ B) -> DetectWrapped p s = Ret (true, s).
Proof.
  intros Hb. unfold wrap_header, be16, mOidValue in Hb. simpl in Hb.
  unfold DetectWrapped, CompareMem, mOidValue, bind, load.
  repeat (rewrite Hb; simpl). reflexivity.
Qed.

(** C4. Wrapping is idempotent: WrapPkcs7Data applied to the buffer it
    synthesized for a bare blob reports it as wrapped and returns that same
    buffer and length, allocating nothing and changing nothing. *)
Theorem WrapPkcs7Data_idempotent (s : state) (P7Data : ptr) (B : list Z) :
  block s P7Data = Some B ->
  Z.of_nat (length B) + 19 < 2^64 ->
  DetectWrapped P7Data s = Ret (false, s) ->
  next_granted s ->
  let L := Z.of_nat (length B) in
  exists q s1,
    WrapPkcs7Data P7Data L s = Ret ((true, mkWrapOut false (Some q) (L + 19)), s1) /\
    block s1 (Some q) = Some (wrap_header L ++ B) /\
    WrapPkcs7Data (Some q) (L + 19) s1
    = Ret ((true, mkWrapOut true (Some q) (L + 19)), s1).
Proof.
  intros HB Hlen Hdet Hgr L.
  exists (length (heap s)), (mkState (heap s ++ [Some (wrap_header L ++ B)]) (tl (plan s))).
  split; [apply WrapPkcs7Data_bare; assumption|].
  split; [apply block_last|].
  unfold WrapPkcs7Data.
  rewrite (bind_Ret _ _ _ _ _ (DetectWrapped_header _ _ L B (block_last _ _ _))).
  reflexivity.
Qed.

Lemma WrapPkcs7Data_idempotent_witness :
  let B := [0x30; 0x03; 0x02; 0x01; 0x01] in
  exists q s1,
    WrapPkcs7Data (Some 0%nat) 5 (mkState [Some B] []) = Ret ((true, mkWrapOut false (Some q) 24), s1) /\
    WrapPkcs7Data (Some q) 24 s1 = Ret ((true, mkWrapOut true (Some q) 24), s1).
Proof.
  intros B.
  destruct (WrapPkcs7Data_idempotent (mkState [Some B] []) (Some 0%nat) B)
    as (q & s1 & H1 & _ & H2).
  - reflexivity.
  - reflexivity.
  - reflexivity.
  - reflexivity.
  - exists q, s1. split; [exact H1|exact H2].
Defined.

(** The test reads; it changes nothing. *)
Lemma load_state p i s v s' : load p i s = Ret (v, s') -> s' = s.
Proof.
  unfold load. destruct (block s p) as [bs|]; [|discriminate].
  destruct (bs !! i); [|discriminate]. congruence.
Qed.

Lemma CompareMem_state src : forall p off s v s',
  CompareMem p off src s = Ret (v, s') -> s' = s.
Proof.
  induction src as [|x src IH]; simpl; intros p off s v s' H.
  - inversion H; reflexivity.
  - apply bind_inv in H as (b & s1 & Hl & H). apply load_state in Hl as ->.
    destruct (b =? x); [eapply IH; eassumption|inversion H; reflexivity].
Qed.

Lemma DetectWrapped_state p s b s' : DetectWrapped p s = Ret (b, s') -> s' = s.
Proof.
  unfold DetectWrapped. intros H.
  apply bind_inv in H as (b4 & s1 & Hl & H). apply load_state in Hl as ->.
  destruct (negb (b4 =? 6)); [inversion H; reflexivity|].
  apply bind_inv in H as (b5 & s1 & Hl & H). apply load_state in Hl as ->.
  destruct (negb (b5 =? 9)); [inversion H; reflexivity|].
  apply bind_inv in H as (c & s1 & Hl & H). apply CompareMem_state in Hl as ->.
  destruct (negb (c =? 0)); [inversion H; reflexivity|].
  apply bind_inv in H as (b15 & s1 & Hl & H). apply load_state in Hl as ->.
  destruct (negb (b15 =? 160)); [inversion H; reflexivity|].
  apply bind_inv in H as (b16 & s1 & Hl & H). apply load_state in Hl as ->.
  inversion H; reflexivity.
Qed.

(** WrapPkcs7Data returns FALSE only when the allocation is refused. *)
Lemma WrapPkcs7Data_FALSE s P7Data P7Length w s' :
  WrapPkcs7Data P7Data P7Length s = Ret ((false, w), s') ->
  hd true (plan s) = false /\ w = mkWrapOut false NULL (UINTN (P7Length + 19)).
Proof.
  unfold WrapPkcs7Data. intros H.
  apply bind_inv in H as (Wrapped & s1 & Hdet & H).
  apply DetectWrapped_state in Hdet as ->.
  destruct Wrapped; [discriminate|].
  cbv zeta in H. apply bind_inv in H as (q & s2 & Hm & H).
  destruct q as [q|].
  - exfalso.
    repeat (apply bind_inv in H as (? & ? & _ & H)). discriminate.
  - inversion H; subst. split; [|reflexivity].
    unfold malloc, bind, request, ret in Hm.
    destruct (plan s) as [|[] pl]; simpl in *; try discriminate. reflexivity.
Qed.

(** A buffer of at most four bytes: the first read of the test, at offset 4,
    is out of range. *)
Lemma WrapPkcs7Data_reads_offset_4 s P7Data B P7Length :
  block s P7Data = Some B -> (length B <= 4)%nat ->
  WrapPkcs7Data P7Data P7Length s = Crash (OutOfBounds P7Data 4).
Proof.
  intros HB Hlen. unfold WrapPkcs7Data, DetectWrapped.
  apply bind_Crash, bind_Crash. eapply load_beyond; eassumption.
Qed.

(** C1. Buffers shorter than 17 bytes: a 3-byte buffer makes WrapPkcs7Data read
    offset 4, beyond its end; a 5-byte buffer is accepted and wrapped. *)
Theorem WrapPkcs7Data_short_buffer :
  WrapPkcs7Data (Some 0%nat) 3 (mkState [Some [0x30; 0x01; 0x00]] [])
  = Crash (OutOfBounds (Some 0%nat) 4) /\
  WrapPkcs7Data (Some 0%nat) 5 (mkState [Some [0x30; 0x03; 0x02; 0x01; 0x01]] [])
  = Ret ((true, mkWrapOut false (Some 1%nat) 24),
         mkState [Some [0x30; 0x03; 0x02; 0x01; 0x01];
                  Some [0x30; 0x82; 0x00; 0x14; 0x06; 0x09; 0x2A; 0x86; 0x48; 0x86; 0xF7;
                        0x0D; 0x01; 0x07; 0x02; 0xA0; 0x82; 0x00; 0x05;
                        0x30; 0x03; 0x02; 0x01; 0x01]] []).
Proof. split; vm_compute; reflexivity. Qed.

(** ** The serializer *)

Lemma cert_records_app a b : cert_records (a ++ b) = cert_records a ++ cert_records b.
Proof. unfold cert_records. rewrite map_app, concat_app. reflexivity. Qed.

Lemma records_size_app a b : records_size (a ++ b) = records_size a + records_size b.
Proof. induction a as [|c a IH]; simpl; lia. Qed.

Lemma cert_record_length c : Z.of_nat (length (cert_record c)) = 4 + Z.of_nat (length (x_der c)).
Proof. unfold cert_record. rewrite length_app. simpl. lia. Qed.

Lemma cert_records_length pops : Z.of_nat (length (cert_records pops)) = records_size pops.
Proof.
  induction pops as [|c r IH]; [reflexivity|].
  change (cert_records (c :: r)) with (cert_record c ++ cert_records r).
  rewrite length_app, Nat2Z.inj_add, cert_record_length, IH. reflexivity.
Qed.

Lemma records_size_nonneg pops : 0 <= records_size pops.
Proof. induction pops; simpl; lia. Qed.

Lemma all_granted_tail h pl : all_granted (mkState h pl) -> forall h', all_granted (mkState h' (tl pl)).
Proof.
  unfold all_granted. simpl. intros H h'. destruct pl; [exact H|].
  inversion H; assumption.
Qed.

Lemma sk_X509_pop_app sk c : sk_X509_pop (sk ++ [c]) = Some (c, sk).
Proof. unfold sk_X509_pop. rewrite reverse_snoc, reverse_involutive. reflexivity. Qed.

Lemma INT32_small z : 0 <= z <= INT_MAX -> INT32 z = z.
Proof.
  unfold INT32, UINT32, INT_MAX. intros H. rewrite Z.mod_small by lia.
  destruct (z <? 2 ^ 31) eqn:E; [reflexivity|]. apply Z.ltb_ge in E. lia.
Qed.

Lemma store_bytes_fresh h pl (new : list Z) :
  store_bytes (Some (length h)) 0 new (mkState (h ++ [Some (replicate (length new) 0)]) pl)
  = Ret (tt, mkState (h ++ [Some new]) pl).
Proof.
  pose proof (store_bytes_fill h pl [] new (length new) 0 eq_refl (le_n _)) as E.
  rewrite Nat.sub_diag in E. change (replicate 0 0) with (@nil Z) in E.
  rewrite app_nil_r in E. exact E.
Qed.

Lemma granted_S n pl : granted (S n) pl -> hd true pl = true /\ granted n (tl pl).
Proof.
  unfold granted. destruct pl as [|b pl]; simpl.
  - intros _. split; [reflexivity|]. rewrite take_nil. constructor.
  - intros H. inversion H; subst. split; [reflexivity|assumption].
Qed.

Lemma granted_le n : forall m pl, (n <= m)%nat -> granted m pl -> granted n pl.
Proof.
  unfold granted. induction n as [|n IH]; intros m pl Hle H.
  - rewrite take_0. constructor.
  - destruct m as [|m]; [lia|]. destruct pl as [|b pl]; [constructor|].
    simpl in *. inversion H; subst. constructor; [reflexivity|].
    apply (IH m); [lia|assumption].
Qed.

Lemma all_granted_granted s n : all_granted s -> granted n (plan s).
Proof. unfold all_granted, granted. apply Forall_take. Qed.

Lemma granted_request h pl n :
  granted (S n) pl -> request (mkState h pl) = Ret (true, mkState h (tl pl)).
Proof. intros H. apply request_granted. exact (proj1 (granted_S _ _ H)). Qed.

(** X509PopCertificate on a stack whose top certificate is encodable, with
    its three allocation requests granted. *)
Lemma X509PopCertificate_ok h pl sk c :
  granted 3 pl -> encodable c ->
  X509PopCertificate (Some (sk ++ [c])) (mkState h pl)
  = Ret ((Some sk, Some (Some (length h), Z.of_nat (length (x_der c)))),
         mkState (h ++ [Some (x_der c)]) (tl (tl (tl pl)))).
Proof.
  intros Hg Hc. unfold X509PopCertificate. rewrite sk_X509_pop_app.
  pose proof (proj2 (granted_S _ _ Hg)) as Hg1.
  pose proof (proj2 (granted_S _ _ Hg1)) as Hg2.
  rewrite (bind_Ret _ _ _ _ _ (granted_request h _ _ Hg)). simpl.
  rewrite (bind_Ret _ _ _ _ _ (granted_request h _ _ Hg1)). simpl.
  rewrite (INT32_small _ (conj (Z.lt_le_incl _ _ (proj1 Hc)) (proj2 Hc))).
  destruct (Z.leb_spec (Z.of_nat (length (x_der c))) 0) as [Hle|_];
    [destruct Hc; lia|].
  rewrite (bind_Ret _ _ _ _ _ (malloc_granted (mkState h _) _ (proj1 (granted_S _ _ Hg2)))).
  simpl.
  rewrite Nat2Z.id, firstn_all.
  rewrite (bind_Ret _ _ _ _ _ (store_bytes_fresh h _ (x_der c))).
  rewrite Z.eqb_refl. reflexivity.
Qed.

Lemma X509PopCertificate_empty s :
  X509PopCertificate (Some []) s = Ret ((Some [], None), s).
Proof. reflexivity. Qed.

Lemma store_bytes_fill' h pl (written new : list Z) (k off b : nat) :
  b = length h -> off = length written -> (length new <= k)%nat ->
  store_bytes (Some b) off new (mkState (h ++ [Some (written ++ replicate k 0)]) pl)
  = Ret (tt, mkState (h ++ [Some ((written ++ new) ++ replicate (k - length new) 0)]) pl).
Proof. intros ->. apply store_bytes_fill. Qed.

Lemma free_prefix q h t pl :
  (q < length h)%nat ->
  free (Some q) (mkState (h ++ t) pl) = Ret (tt, mkState (<[q := None]> h ++ t) pl).
Proof. intros Hq. unfold free. simpl. rewrite insert_app_l by exact Hq. reflexivity. Qed.

Lemma block_Some_lt h pl q bs : block (mkState h pl) (Some q) = Some bs -> (q < length h)%nat.
Proof.
  unfold block. simpl. intros H. apply lookup_lt_is_Some.
  destruct (h !! q); [eauto|discriminate].
Qed.

Lemma length_release p h : length (release p h) = length h.
Proof. destruct p; simpl; [apply length_insert|reflexivity]. Qed.

Lemma le32_length v : length (le32 v) = 4%nat.
Proof. reflexivity. Qed.

(** Copying the previous accumulator into the new one and releasing it. *)
Lemma carry_over h pl cb acc mid (k : nat) :
  holds (mkState h pl) cb acc ->
  (match cb with
   | Some _ => CopyMem (Some (S (length h))) 0 cb 0 (Z.of_nat (length (0 :: acc))) ;; free cb
   | None => ret tt
   end) (mkState ((h ++ [mid]) ++ [Some (replicate (length (0 :: acc) + k) 0)]) pl)
  = Ret (tt, mkState ((release cb h ++ [mid]) ++ [Some ((0 :: acc) ++ replicate k 0)]) pl).
Proof.
  intros Hh. destruct cb as [q|]; unfold holds in Hh.
  - unfold CopyMem.
    assert (Hq := block_Some_lt _ _ _ _ Hh).
    assert (Hrd : read_bytes (Some q) 0 (Z.to_nat (Z.of_nat (length (0 :: acc))))
              (mkState ((h ++ [mid]) ++ [Some (replicate (length (0 :: acc) + k) 0)]) pl)
            = Ret (0 :: acc,
                   mkState ((h ++ [mid]) ++ [Some (replicate (length (0 :: acc) + k) 0)]) pl)).
    { erewrite read_bytes_prefix.
      - rewrite Nat2Z.id, firstn_all. reflexivity.
      - apply block_app_l, block_app_l. exact Hh.
      - lia. }
    erewrite bind_Ret.
    2:{ rewrite (bind_Ret _ _ _ _ _ Hrd).
        apply (store_bytes_fill' (h ++ [mid]) pl [] (0 :: acc)).
        - rewrite length_app. simpl. lia.
        - reflexivity.
        - lia. }
    rewrite <- app_assoc, free_prefix by exact Hq.
    rewrite app_assoc. simpl release.
    replace (length (0%Z :: acc) + k - length (0%Z :: acc))%nat with k by lia.
    reflexivity.
  - subst acc. reflexivity.
Qed.

Lemma block_second_last h pl a x : 
  block (mkState ((h ++ [Some a]) ++ [x]) pl) (Some (length h)) = Some a.
Proof.
  unfold block. simpl. rewrite <- app_assoc, lookup_app_r by lia.
  replace (length h - length h)%nat with 0%nat by lia. reflexivity.
Qed.

Lemma SerializeLoop_step fuel l h pl sk c acc :
  Stack l = Some (sk ++ [c]) -> encodable c -> granted 4 pl ->
  holds (mkState h pl) (CertBuf l) acc -> BufferSize l = Z.of_nat (length (0 :: acc)) ->
  BufferSize l + Z.of_nat (length (x_der c)) + 4 < 2^64 ->
  SerializeLoop (S fuel) l (mkState h pl)
  = SerializeLoop fuel
      (mkLocals true (UINT8 (Index l + 1)) (Some (S (length h))) NULL
                (BufferSize l + Z.of_nat (length (x_der c)) + 4) (BufferSize l) NULL (Some sk))
      (mkState ((release (CertBuf l) h ++ [None]) ++ [Some ((0 :: acc) ++ cert_record c)])
               (tl (tl (tl (tl pl))))).
Proof.
  intros Hsk Hc Hg Hh Hsz Hbound.
  cbn [SerializeLoop]. rewrite Hsk.
  assert (Hg3' : granted 3 pl) by (apply (granted_le 3 4); [lia|exact Hg]).
  rewrite (bind_Ret _ _ _ _ _ (X509PopCertificate_ok h pl sk c Hg3' Hc)).
  cbv beta iota zeta.
  assert (Hu : UINTN (BufferSize l + Z.of_nat (length (x_der c)) + 4)
               = BufferSize l + Z.of_nat (length (x_der c)) + 4).
  { apply Z.mod_small. rewrite Hsz in *. lia. }
  rewrite Hu.
  pose proof (proj2 (granted_S _ _ (proj2 (granted_S _ _ (proj2 (granted_S _ _ Hg)))))) as Hg3.
  rewrite (bind_Ret _ _ _ _ _ (malloc_granted (mkState (h ++ [Some (x_der c)]) _) _
                                 (proj1 (granted_S _ _ Hg3)))).
  cbn [heap plan]. rewrite length_app, Nat.add_1_r.
  set (pl4 := tl (tl (tl (tl pl)))).
  replace (Z.to_nat (BufferSize l + Z.of_nat (length (x_der c)) + 4))
    with (length (0%Z :: acc) + (4 + length (x_der c)))%nat by lia.
  rewrite Hsz.
  rewrite (bind_Ret _ _ _ _ _ (carry_over h pl4 (CertBuf l) acc (Some (x_der c)) _ Hh)).
  rewrite Nat2Z.id.
  erewrite bind_Ret.
  2:{ apply (store_bytes_fill' (release (CertBuf l) h ++ [Some (x_der c)]) pl4 (0 :: acc)).
      - rewrite length_app, length_release. simpl. lia.
      - reflexivity.
      - rewrite le32_length. lia. }
  unfold CopyMem.
  erewrite bind_Ret.
  2:{ erewrite bind_Ret.
      2:{ erewrite read_bytes_prefix.
          - rewrite Nat2Z.id, firstn_all. reflexivity.
          - rewrite <- (length_release (CertBuf l) h). apply block_second_last.
          - lia. }
      apply (store_bytes_fill' (release (CertBuf l) h ++ [Some (x_der c)]) pl4).
      - rewrite length_app, length_release. simpl. lia.
      - rewrite length_app, le32_length. simpl. lia.
      - rewrite le32_length. lia. }
  erewrite bind_Ret.
  2:{ rewrite <- app_assoc. rewrite <- (length_release (CertBuf l) h).
      unfold free. cbn [heap plan]. rewrite insert_app_r_alt by lia.
      rewrite Nat.sub_diag. cbn [insert list_insert]. reflexivity. }
  rewrite le32_length.
  replace (4 + length (x_der c) - 4 - length (x_der c))%nat with 0%nat by lia.
  cbn [replicate]. rewrite app_nil_r.
  unfold UINT32, cert_record.
  rewrite (Z.mod_small (Z.of_nat (length (x_der c)))) by (destruct Hc; unfold INT_MAX in *; lia).
  f_equal. f_equal. rewrite <- !app_assoc. reflexivity.
Qed.

Lemma frame_refl but h : frame but h h.
Proof. split; [lia|intros; reflexivity]. Qed.

Lemma frame_step but h x y : frame but h ((release but h ++ [x]) ++ [y]).
Proof.
  split.
  - rewrite !length_app, length_release. lia.
  - intros b Hb Hne. rewrite <- app_assoc, lookup_app_l by (rewrite length_release; lia).
    destruct but as [q|]; [|reflexivity]. simpl.
    apply list_lookup_insert_ne. congruence.
Qed.

Lemma frame_trans but but' h h1 h2 :
  frame but h h1 -> frame but' h1 h2 ->
  (forall q, but' = Some q -> (length h <= q)%nat) ->
  frame but h h2.
Proof.
  intros [L1 F1] [L2 F2] Hfresh. split; [lia|].
  intros b Hb Hne. rewrite F2.
  - apply F1; assumption.
  - lia.
  - intros E. symmetry in E. apply Hfresh in E. lia.
Qed.

Lemma UINT8_succ i n : UINT8 (UINT8 (i + 1) + n) = UINT8 (i + (1 + n)).
Proof. unfold UINT8. rewrite Zplus_mod_idemp_l. f_equal. lia. Qed.

Lemma SerializeLoop_granted pops : forall fuel l h pl acc,
  Stack l = Some (reverse pops) -> (length pops < fuel)%nat ->
  Forall encodable pops -> all_granted (mkState h pl) ->
  holds (mkState h pl) (CertBuf l) acc ->
  BufferSize l = Z.of_nat (length (0 :: acc)) ->
  BufferSize l + records_size pops < 2^64 ->
  OldBuf l = NULL -> SingleCert l = NULL -> 0 <= Index l < 256 ->
  exists l' h' pl',
    SerializeLoop fuel l (mkState h pl) = Ret ((Break, l'), mkState h' pl') /\
    Status l' = false /\
    Index l' = UINT8 (Index l + Z.of_nat (length pops)) /\
    BufferSize l' = BufferSize l + records_size pops /\
    holds (mkState h' pl') (CertBuf l') (acc ++ cert_records pops) /\
    OldBuf l' = NULL /\ SingleCert l' = NULL /\ Stack l' = Some [] /\
    all_granted (mkState h' pl') /\
    (pops = [] -> CertBuf l' = CertBuf l /\ OldSize l' = OldSize l /\ h' = h) /\
    (forall c, last pops = Some c ->
       OldSize l' = BufferSize l' - 4 - Z.of_nat (length (x_der c)) /\
       exists q, CertBuf l' = Some q /\ (length h <= q < length h')%nat) /\
    frame (CertBuf l) h h'.
Proof.
  induction pops as [|c pops IH]; intros fuel l h pl acc Hsk Hfuel Hall Hg Hh Hsz Hb Ho Hs Hi.
  - destruct fuel as [|fuel]; [simpl in Hfuel; lia|].
    cbn [SerializeLoop]. rewrite Hsk.
    exists (mkLocals false (Index l) (CertBuf l) (OldBuf l) (BufferSize l) (OldSize l)
                     (SingleCert l) (Some [])), h, pl.
    split; [reflexivity|]. cbn [Status Index BufferSize CertBuf OldBuf SingleCert Stack].
    rewrite app_nil_r. simpl length. simpl records_size.
    repeat split; try assumption; try lia; try reflexivity; try discriminate.
    unfold UINT8. rewrite Z.add_0_r, Z.mod_small by lia. reflexivity.
  - destruct fuel as [|fuel]; [simpl in Hfuel; lia|].
    rewrite reverse_cons in Hsk. inversion Hall as [|? ? Hc Hall']; subst.
    simpl records_size in Hb. pose proof (records_size_nonneg pops) as Hnn.
    rewrite (SerializeLoop_step fuel l h pl (reverse pops) c acc Hsk Hc
               (all_granted_granted _ 4 Hg) Hh Hsz) by lia.
    set (h1 := (release (CertBuf l) h ++ [None]) ++ [Some ((0 :: acc) ++ cert_record c)]).
    set (pl1 := tl (tl (tl (tl pl)))).
    assert (Hlen1 : length (release (CertBuf l) h ++ [None]) = S (length h))
      by (rewrite length_app, length_release; simpl; lia).
    destruct (IH fuel
                (mkLocals true (UINT8 (Index l + 1)) (Some (S (length h))) NULL
                   (BufferSize l + Z.of_nat (length (x_der c)) + 4) (BufferSize l) NULL
                   (Some (reverse pops)))
                h1 pl1 (acc ++ cert_record c))
      as (l' & h' & pl' & Hrun & HS & HI & HB & HH & HO & HSC & HSK & HG & HE & HL & HF).
    + reflexivity.
    + simpl in Hfuel. lia.
    + assumption.
    + repeat apply all_granted_tail with (h := h). exact Hg.
    + cbn [CertBuf holds]. rewrite <- Hlen1. apply block_last.
    + cbn [BufferSize]. rewrite Hsz. simpl length. rewrite length_app.
      pose proof (cert_record_length c). lia.
    + cbn [BufferSize]. lia.
    + reflexivity.
    + reflexivity.
    + cbn [Index]. unfold UINT8. apply Z.mod_pos_bound. lia.
    + exists l', h', pl'. cbn [Index BufferSize CertBuf OldSize] in *.
      split; [exact Hrun|]. split; [exact HS|].
      split; [rewrite HI, UINT8_succ; f_equal; simpl length; lia|].
      split; [rewrite HB; simpl records_size; lia|].
      split; [change (cert_records (c :: pops)) with (cert_record c ++ cert_records pops);
              rewrite app_assoc; exact HH|].
      split; [exact HO|]. split; [exact HSC|]. split; [exact HSK|]. split; [exact HG|].
      assert (Hfr : frame (CertBuf l) h h').
      { apply (frame_trans _ (Some (S (length h))) _ h1).
        - apply frame_step.
        - exact HF.
        - intros q [= <-]. lia. }
      split; [discriminate|]. split; [|exact Hfr].
      intros cl Hcl. destruct pops as [|c' pops'].
      * injection Hcl as <-. destruct (HE eq_refl) as (HE1 & HE2 & HE3).
        cbn [CertBuf OldSize] in *. split.
        -- rewrite HE2, HB. simpl records_size. lia.
        -- exists (S (length h)). split; [exact HE1|]. subst h'. unfold h1.
           rewrite !length_app, length_release. simpl. lia.
      * change (last (c :: c' :: pops')) with (last (c' :: pops')) in Hcl.
        destruct (HL cl Hcl) as [HL1 (q & HL2 & HL3)]. split; [exact HL1|].
        exists q. split; [exact HL2|]. unfold h1 in HL3.
        rewrite !length_app, length_release in HL3. simpl in HL3. lia.
Qed.

Lemma records_size_bound pops :
  Forall encodable pops -> records_size pops <= Z.of_nat (length pops) * (4 + INT_MAX).
Proof.
  induction 1 as [|c r Hc _ IH]; simpl records_size; simpl length; [lia|].
  destruct Hc. lia.
Qed.

(** CertBuf[0] = Index. *)
Lemma store_count s q acc v :
  block s (Some q) = Some (0 :: acc) ->
  exists s', store_bytes (Some q) 0 [v] s = Ret (tt, s') /\
             block s' (Some q) = Some (v :: acc) /\
             plan s' = plan s /\
             length (heap s') = length (heap s) /\
             forall b, b <> q -> heap s' !! b = heap s !! b.
Proof.
  intros Hb. destruct s as [h pl]. pose proof (block_Some_lt _ _ _ _ Hb) as Hq.
  unfold store_bytes. rewrite Hb. rewrite decide_True by (simpl; lia).
  eexists. split; [reflexivity|]. cbn [heap plan].
  split; [|split; [reflexivity|split; [apply length_insert|]]].
  - unfold block. cbn [heap]. rewrite list_lookup_insert_eq by exact Hq. reflexivity.
  - intros b Hne. apply list_lookup_insert_ne. congruence.
Qed.

(** C5. The serializer loop followed by the write of the count byte, on a
    stack of N certificates (1 <= N <= 255, each with an encoding of 1 to
    INT_MAX bytes) with every allocation granted: the buffer starts with the
    byte N, continues with the records (4-byte length, DER bytes) of the
    certificates in pop order, and has exactly 1 + the sum of (4 + length)
    bytes. *)
Theorem serializer_exact (sk : list X509) (s : state) :
  (1 <= length sk <= 255)%nat -> Forall encodable sk -> all_granted s ->
  let pops := reverse sk in
  exists l s1 q s2,
    SerializeLoop (stack_fuel (Some sk)) (mkLocals false 0 NULL NULL 1 1 NULL (Some sk)) s
    = Ret ((Break, l), s1) /\
    CertBuf l = Some q /\
    store_bytes (CertBuf l) 0 [Index l] s1 = Ret (tt, s2) /\
    BufferSize l = 1 + records_size pops /\
    block s2 (Some q)
    = Some (Z.of_nat (length sk)
              :: concat (map (fun c => le32 (Z.of_nat (length (x_der c))) ++ x_der c) pops)) /\
    (forall out, block s2 (Some q) = Some out -> Z.of_nat (length out) = BufferSize l).
Proof.
  intros HN Hall Hg pops. destruct s as [h pl].
  assert (Hall' : Forall encodable pops) by (apply Forall_reverse; exact Hall).
  assert (Hlen : length pops = length sk) by apply length_reverse.
  pose proof (records_size_bound pops Hall') as Hb. rewrite Hlen in Hb.
  destruct (SerializeLoop_granted pops (stack_fuel (Some sk))
              (mkLocals false 0 NULL NULL 1 1 NULL (Some sk)) h pl [])
    as (l & h' & pl' & Hrun & _ & HI & HB & HH & _ & _ & _ & _ & _ & HL & _).
  - cbn [Stack]. unfold pops. rewrite reverse_involutive. reflexivity.
  - unfold stack_fuel. simpl. lia.
  - exact Hall'.
  - exact Hg.
  - reflexivity.
  - reflexivity.
  - cbn [BufferSize]. unfold INT_MAX in Hb. nia.
  - reflexivity.
  - reflexivity.
  - cbn [Index]. lia.
  - destruct (last pops) as [cl|] eqn:Hlast.
    2:{ apply last_None in Hlast. rewrite Hlast in Hlen. simpl in Hlen. lia. }
    destruct (HL cl eq_refl) as (_ & q & Hq & _).
    rewrite Hq in HH. cbn [holds] in HH. simpl app in HH.
    destruct (store_count _ q _ (Index l) HH) as (s2 & Hst & Hblk & _).
    exists l, (mkState h' pl'), q, s2.
    split; [exact Hrun|]. split; [exact Hq|]. split; [rewrite Hq; exact Hst|].
    cbn [BufferSize Index] in HB, HI. split; [exact HB|].
    assert (HIdx : Index l = Z.of_nat (length sk)).
    { rewrite HI, Hlen. unfold UINT8. apply Z.mod_small. lia. }
    rewrite Hblk, HIdx. split; [reflexivity|].
    intros out [= <-]. simpl length.
    change (concat _) with (cert_records pops).
    rewrite Nat2Z.inj_succ, cert_records_length. lia.
Qed.

Lemma serializer_exact_witness :
  exists l s1 q s2,
    SerializeLoop 3 (mkLocals false 0 NULL NULL 1 1 NULL
                       (Some [mkX509 1 "leaf" "root" 7 [0x30; 0x01; 0x0A];
                              mkX509 2 "root" "root" 1 [0x30; 0x00]]))
                  (mkState [] [])
    = Ret ((Break, l), s1) /\
    CertBuf l = Some q /\
    store_bytes (CertBuf l) 0 [Index l] s1 = Ret (tt, s2) /\
    BufferSize l = 14 /\
    block s2 (Some q)
    = Some [2; 2; 0; 0; 0; 0x30; 0x00; 3; 0; 0; 0; 0x30; 0x01; 0x0A].
Proof.
  destruct (serializer_exact [mkX509 1 "leaf" "root" 7 [0x30; 0x01; 0x0A];
                              mkX509 2 "root" "root" 1 [0x30; 0x00]]
                             (mkState [] []))
    as (l & s1 & q & s2 & H1 & H2 & H3 & H4 & H5 & _).
  - simpl. lia.
  - repeat constructor; unfold INT_MAX; simpl; lia.
  - constructor.
  - exists l, s1, q, s2. repeat split; assumption.
Defined.

(** ** The envelope handed to the decoder *)

Ltac detect_done :=
  unfold is_wrapped, mOidValue; simpl;
  repeat case_bool_decide; simplify_eq; try reflexivity; try contradiction.

Ltac detect_step Hb :=
  rewrite ?Hb; simpl;
  match goal with
  | |- context [Z.eqb ?a ?b] =>
      destruct (Z.eqb_spec a b);
      [subst|try (destruct (Z.eqb_spec (a - b) 0); [lia|]); detect_done]
  end; simpl.

(** On a buffer of at least 17 bytes the test of the code and the rule of the
    specification agree. *)
Lemma DetectWrapped_spec s p B :
  block s p = Some B -> (17 <= length B)%nat ->
  DetectWrapped p s = Ret (is_wrapped B, s).
Proof.
  intros Hb Hlen.
  do 17 (destruct B as [|? B]; [simpl in Hlen; lia|]). clear Hlen.
  unfold DetectWrapped, CompareMem, mOidValue, bind, load, ret.
  do 13 (detect_step Hb).
  reflexivity.
Qed.

Lemma WrapPkcs7Data_envelope s P7Data B :
  block s P7Data = Some B -> (17 <= length B)%nat ->
  Z.of_nat (length B) + 19 < 2^64 -> next_granted s ->
  exists w s1,
    WrapPkcs7Data P7Data (Z.of_nat (length B)) s = Ret ((true, w), s1) /\
    WrapFlag w = is_wrapped B /\
    WrapDataSize w = Z.of_nat (length (envelope B)) /\
    block s1 (WrapData w) = Some (envelope B) /\
    if is_wrapped B
    then s1 = s /\ WrapData w = P7Data
    else s1 = mkState (heap s ++ [Some (envelope B)]) (tl (plan s)) /\
         WrapData w = Some (length (heap s)).
Proof.
  intros HB Hlen Hsz Hg. pose proof (DetectWrapped_spec s P7Data B HB Hlen) as Hdet.
  unfold envelope. destruct (is_wrapped B) eqn:E.
  - exists (mkWrapOut true P7Data (Z.of_nat (length B))), s.
    unfold WrapPkcs7Data. rewrite (bind_Ret _ _ _ _ _ Hdet).
    repeat split; try reflexivity. exact HB.
  - eexists _, _. split; [apply WrapPkcs7Data_bare; assumption|].
    cbn [WrapFlag WrapDataSize WrapData]. repeat split.
    + rewrite length_app, wrap_header_length. lia.
    + apply block_last.
Qed.

Lemma store_bytes_ok s q bs off new :
  block s (Some q) = Some bs -> (off + length new <= length bs)%nat ->
  store_bytes (Some q) off new s
  = Ret (tt, mkState (<[q := Some (write_at bs off new)]> (heap s)) (plan s)).
Proof. intros Hb Hl. unfold store_bytes. rewrite Hb, decide_True by exact Hl. reflexivity. Qed.

Lemma block_insert_eq h pl q x :
  (q < length h)%nat -> block (mkState (<[q := x]> h) pl) (Some q) = x.
Proof. intros Hq. unfold block. cbn [heap]. rewrite list_lookup_insert_eq by exact Hq. reflexivity. Qed.

Lemma block_insert_ne h pl q b x :
  b <> q -> block (mkState (<[q := x]> h) pl) (Some b) = block (mkState h pl) (Some b).
Proof. intros Hq. unfold block. cbn [heap]. rewrite list_lookup_insert_ne by congruence. reflexivity. Qed.

Lemma read_bytes_all s p bs (n : Z) :
  block s p = Some bs -> n = Z.of_nat (length bs) ->
  read_bytes p 0 (Z.to_nat n) s = Ret (bs, s).
Proof.
  intros Hb ->. rewrite Nat2Z.id. erewrite read_bytes_prefix by (try exact Hb; lia).
  rewrite firstn_all. reflexivity.
Qed.

Lemma envelope_length B :
  Z.of_nat (length (envelope B)) <= Z.of_nat (length B) + 19.
Proof.
  unfold envelope. destruct (is_wrapped B); [lia|].
  rewrite length_app, wrap_header_length. lia.
Qed.

Lemma gtb_false a b : a <= b -> (a >? b) = false.
Proof. intros H. rewrite Z.gtb_ltb. apply Z.ltb_ge. exact H. Qed.

(** ** Pkcs7GetSignature *)

Section Signature.

Variable d2i_PKCS7 : list Z -> option PKCS7.

(** C8, as the code has it.  For a well-formed single-signer input
    Pkcs7GetSignature always reports the length of the signer's encrypted
    digest.  With a destination buffer of at least that length it copies the
    signature into the buffer and returns TRUE.  With no destination
    ([Signature] NULL, or [*Signature] NULL) it still reports the length, and
    returns FALSE. *)
Theorem Pkcs7GetSignature_protocol (s : state) (P7Data : ptr) (B : list Z) (p7 : PKCS7)
    (si : PKCS7_SIGNER_INFO) (sig : list Z) (out : SignatureOut) (len0 : Z) :
  block s P7Data = Some B -> (17 <= length B)%nat ->
  Z.of_nat (length B) + 19 <= INT_MAX -> next_granted s ->
  d2i_PKCS7 (envelope B) = Some p7 -> type_is_signed p7 = true ->
  sign_signer_info p7 = Some [si] -> enc_digest si = Some sig ->
  SignatureLength out = Some len0 ->
  let call := Pkcs7GetSignature d2i_PKCS7 P7Data (Z.of_nat (length B)) out s in
  let out' := mkSignatureOut (Signature out) (Some (Z.of_nat (length sig))) in
  match Signature out with
  | Some (Some dst) =>
      forall buf, block s (Some dst) = Some buf -> (length sig <= length buf)%nat ->
      exists s', call = Ret ((true, out'), s') /\
                 block s' (Some dst) = Some (sig ++ drop (length sig) buf)
  | _ => exists s', call = Ret ((false, out'), s')
  end.
Proof.
  intros HB Hlen Hmax Hg Hd Hty Hsi Hsig Hsl call out'.
  assert (Hcall : call = 
    (let w := mkWrapOut (is_wrapped B) (if is_wrapped B then P7Data else Some (length (heap s)))
                 (Z.of_nat (length (envelope B))) in
     let s1 := if is_wrapped B then s else mkState (heap s ++ [Some (envelope B)]) (tl (plan s)) in
     match Signature out with
     | Some (Some dst) =>
         (store_bytes (Some dst) 0 sig ;;
          when (negb (is_wrapped B)) (free (WrapData w)) ;; ret (true, out')) s1
     | _ => (when (negb (is_wrapped B)) (free (WrapData w)) ;; ret (false, out')) s1
     end)).
  { unfold call, Pkcs7GetSignature.
    destruct P7Data as [p|]; [|discriminate]. cbn [notnull negb orb].
    unfold INT_MAX in Hmax.
    rewrite gtb_false by (unfold INT_MAX; lia). rewrite Hsl. cbn [notnull negb andb orb].
    rewrite andb_false_r.
    destruct (WrapPkcs7Data_envelope s (Some p) B HB Hlen ltac:(lia) Hg)
      as (w & s1 & Hw & Hf & Hsz & Hblk & Hcase).
    rewrite (bind_Ret _ _ _ _ _ Hw). cbn [fst snd negb]. cbv zeta.
    pose proof (envelope_length B) as Hel.
    rewrite Hsz, gtb_false by (unfold INT_MAX; lia).
    rewrite (bind_Ret _ _ _ _ _ (read_bytes_all s1 _ _ _ Hblk eq_refl)).
    rewrite Hd, Hty. cbn [negb]. unfold PKCS7_get_signer_info. rewrite Hty, Hsi, Hsig.
    rewrite Hf. destruct (is_wrapped B); destruct Hcase as [-> ->];
      destruct (Signature out) as [[?|]|]; reflexivity. }
  rewrite Hcall. clear Hcall call. cbv zeta.
  destruct (Signature out) as [[dst|]|].
  - intros buf Hbuf Hfit. cbn [WrapData].
    destruct (is_wrapped B).
    + erewrite bind_Ret by (apply (store_bytes_ok s dst buf 0 sig Hbuf); simpl; lia).
      eexists. split; [reflexivity|].
      destruct s as [h pl]. apply block_insert_eq. eapply block_Some_lt; exact Hbuf.
    + destruct s as [h pl]. cbn [heap plan] in *.
      pose proof (block_Some_lt _ _ _ _ Hbuf) as Hdst.
      erewrite bind_Ret
        by (apply (store_bytes_ok _ dst buf 0 sig); [apply block_app_l; exact Hbuf|simpl; lia]).
      eexists. split; [reflexivity|]. cbn [heap plan].
      rewrite block_insert_ne by lia.
      rewrite insert_app_l by exact Hdst.
      erewrite block_app_l; [reflexivity|]. apply block_insert_eq. exact Hdst.
  - destruct (is_wrapped B); eexists; reflexivity.
  - destruct (is_wrapped B); eexists; reflexivity.
Qed.

End Signature.

Lemma Pkcs7GetSignature_protocol_witness :
  exists s',
    Pkcs7GetSignature Sample.d2i_PKCS7 Sample.P7Data 20
      (mkSignatureOut (Some (Some 1%nat)) (Some 0))
      (Sample.memory (Sample.input 1) [[0; 0; 0; 0; 0]] [])
    = Ret ((true, mkSignatureOut (Some (Some 1%nat)) (Some 4)), s') /\
    block s' (Some 1%nat) = Some [0xDE; 0xAD; 0xBE; 0xEF; 0].
Proof.
  refine (Pkcs7GetSignature_protocol Sample.d2i_PKCS7
            (Sample.memory (Sample.input 1) [[0; 0; 0; 0; 0]] []) Sample.P7Data
            (Sample.input 1) _ Sample.signer_info [0xDE; 0xAD; 0xBE; 0xEF]
            (mkSignatureOut (Some (Some 1%nat)) (Some 0)) 0
            _ _ _ _ _ _ _ _ _ [0; 0; 0; 0; 0] _ _).
  - reflexivity.
  - simpl. lia.
  - unfold INT_MAX. simpl. lia.
  - reflexivity.
  - reflexivity.
  - reflexivity.
  - reflexivity.
  - reflexivity.
  - reflexivity.
  - reflexivity.
  - simpl. lia.
Defined.

(** C8, as stated, fails: a call made only to learn the length, on a
    well-formed single-signer input, reports the length 4 and returns FALSE. *)
Lemma Pkcs7GetSignature_length_query_FALSE :
  Pkcs7GetSignature Sample.d2i_PKCS7 Sample.P7Data 20 (mkSignatureOut None (Some 0))
    (Sample.memory (Sample.input 1) [] [])
  = Ret ((false, mkSignatureOut None (Some 4)), Sample.memory (Sample.input 1) [] []).
Proof. reflexivity. Qed.

(** ** The signer-count gate *)

Lemma request_total s : exists ok s', request s = Ret (ok, s') /\ heap s' = heap s.
Proof.
  unfold request. destruct (plan s) as [|b pl]; eexists _, _; split; reflexivity.
Qed.

Lemma sk_X509_push_total sk x s :
  exists r s', sk_X509_push sk x s = Ret (r, s') /\ heap s' = heap s /\
               (r = None \/ r = Some (sk ++ [x])).
Proof.
  unfold sk_X509_push. destruct (request_total s) as (ok & s' & Hr & Hh).
  rewrite (bind_Ret _ _ _ _ _ Hr). destruct ok; eexists _, _; split; eauto.
Qed.

Lemma get0_signers_loop_total sinfos certs : forall signers s,
  exists r s', get0_signers_loop sinfos certs signers s = Ret (r, s') /\
               heap s' = heap s /\
               forall l, r = Some l -> length l = (length signers + length sinfos)%nat.
Proof.
  induction sinfos as [|si rest IH]; intros signers s; simpl.
  - eexists _, _. split; [reflexivity|]. split; [reflexivity|].
    intros l [= <-]. lia.
  - destruct (certs ≫= _) as [signer|].
    2:{ eexists _, _. split; [reflexivity|]. split; [reflexivity|]. discriminate. }
    destruct (sk_X509_push_total signers signer s) as (r & s1 & Hp & Hh & Hr).
    rewrite (bind_Ret _ _ _ _ _ Hp). destruct Hr as [-> | ->].
    + eexists _, _. split; [reflexivity|]. split; [exact Hh|]. discriminate.
    + destruct (IH (signers ++ [signer]) s1) as (r & s2 & Hl & Hh2 & Hlen).
      exists r, s2. split; [exact Hl|]. split; [congruence|].
      intros l Hl'. rewrite (Hlen l Hl'), length_app. simpl. lia.
Qed.

(** PKCS7_get0_signers returns NULL or one certificate per signer info. *)
Lemma PKCS7_get0_signers_total p7 s :
  exists r s', PKCS7_get0_signers p7 s = Ret (r, s') /\ heap s' = heap s /\
    forall l, r = Some l ->
      exists sinfos, sign_signer_info p7 = Some sinfos /\ length l = length sinfos.
Proof.
  unfold PKCS7_get0_signers, PKCS7_get_signer_info.
  destruct (type_is_signed p7); cbn [negb].
  2:{ eexists _, _. split; [reflexivity|]. split; [reflexivity|]. discriminate. }
  destruct (sign_signer_info p7) as [[|si rest]|].
  1,3: eexists _, _; (split; [reflexivity|]); (split; [reflexivity|]); discriminate.
  destruct (request_total s) as ([] & s1 & Hr & Hh); rewrite (bind_Ret _ _ _ _ _ Hr).
  - destruct (get0_signers_loop_total (si :: rest) (sign_cert p7) [] s1)
      as (r & s2 & Hl & Hh2 & Hlen).
    exists r, s2. split; [exact Hl|]. split; [congruence|].
    intros l Hl'. exists (si :: rest). split; [reflexivity|]. apply (Hlen l Hl').
  - eexists _, _. split; [reflexivity|]. split; [exact Hh|]. discriminate.
Qed.

Lemma free_total p s : exists s', free p s = Ret (tt, s') /\ plan s' = plan s.
Proof. destruct p; eexists; split; reflexivity. Qed.

Lemma when_free_total b p s : exists s', when b (free p) s = Ret (tt, s').
Proof. destruct b; [destruct p|]; eexists; reflexivity. Qed.

(** The release of [NewP7Data] at _Error returns on a wrapped input, which
    has nothing to release, and on a pointer that has not moved. *)
Lemma when_free_moved_total W A p s :
  W || negb A = true ->
  exists s', when (negb W && notnull p) (free_moved p A) s = Ret (tt, s') /\
             plan s' = plan s.
Proof.
  intros H. destruct W; cbn [negb andb when]; [eexists; split; reflexivity|].
  destruct A; [discriminate|]. unfold free_moved.
  destruct p; cbn [notnull when]; eexists; split; reflexivity.
Qed.

(** On an input that it had to wrap, once the decoder has moved [NewP7Data],
    the release at _Error is handed a pointer inside the envelope. *)
Lemma when_free_moved_crash q s :
  when (negb false && notnull (Some q)) (free_moved (Some q) true) s
  = @Crash (unit * state) (InvalidFree (Some q)).
Proof. reflexivity. Qed.


Section Gate.

Variable d2i_PKCS7 : list Z -> option PKCS7.
Variable X509_STORE_CTX_get1_issuer : X509_STORE_CTX -> X509 -> option X509.

(** On a wrapped input, Pkcs7GetCertificatesList leaves through _Error with
    the Status of WrapPkcs7Data, TRUE, when the decoded SignedData does not
    have exactly one signer info. *)
Lemma Pkcs7GetCertificatesList_gate s P7Data P7Length w s1 der p7 sinfos a b c d :
  notnull P7Data = true -> P7Length <= INT_MAX ->
  WrapPkcs7Data P7Data P7Length s = Ret ((true, w), s1) ->
  WrapDataSize w <= INT_MAX ->
  read_bytes (WrapData w) 0 (Z.to_nat (WrapDataSize w)) s1 = Ret (der, s1) ->
  WrapFlag w = true ->
  d2i_PKCS7 der = Some p7 -> type_is_signed p7 = true ->
  sign_signer_info p7 = Some sinfos -> length sinfos <> 1%nat ->
  exists s',
    Pkcs7GetCertificatesList d2i_PKCS7 X509_STORE_CTX_get1_issuer P7Data P7Length
      (mkCertListOut (Some a) (Some b) (Some c) (Some d)) s
    = Ret ((true, mkCertListOut (Some NULL) (Some 0) (Some NULL) (Some 0)), s').
Proof.
  intros Hp Hl Hw Hsz Hrd HW Hd Hty Hsi Hn.
  unfold Pkcs7GetCertificatesList. rewrite Hp. cbn [notnull negb orb CertStack
    SignerChainCerts ChainLength UnchainCerts UnchainLength].
  rewrite gtb_false by exact Hl.
  rewrite (bind_Ret _ _ _ _ _ Hw). cbn [fst snd negb orb]. cbv zeta.
  rewrite gtb_false by exact Hsz.
  rewrite (bind_Ret _ _ _ _ _ Hrd), Hd, Hty. cbn [negb].
  destruct (PKCS7_get0_signers_total p7 s1) as (r & s2 & Hg & _ & Hlen).
  rewrite (bind_Ret _ _ _ _ _ Hg).
  assert (HE : exists s', CertList_Error true (WrapFlag w) (WrapData w) true NULL NULL NULL
                 (mkCertListOut (Some NULL) (Some 0) (Some NULL) (Some 0)) s2
               = Ret ((true, mkCertListOut (Some NULL) (Some 0) (Some NULL) (Some 0)), s')).
  { unfold CertList_Error. rewrite HW. cbn [notnull when negb andb].
    eexists. reflexivity. }
  destruct r as [[|x [|y l]]|]; try exact HE.
  exfalso. destruct (Hlen [x] eq_refl) as (sinfos' & Hs' & Hl').
  rewrite Hsi in Hs'. injection Hs' as <-. simpl in Hl'. lia.
Qed.

(** Pkcs7GetSignature returns TRUE only past the test for exactly one signer
    info. *)
Lemma Pkcs7GetSignature_gate s P7Data P7Length out out' s' :
  Pkcs7GetSignature d2i_PKCS7 P7Data P7Length out s = Ret ((true, out'), s') ->
  exists w s1 der p7 si,
    WrapPkcs7Data P7Data P7Length s = Ret ((true, w), s1) /\
    read_bytes (WrapData w) 0 (Z.to_nat (WrapDataSize w)) s1 = Ret (der, s1) /\
    d2i_PKCS7 der = Some p7 /\
    PKCS7_get_signer_info p7 = Some [si].
Proof.
  unfold Pkcs7GetSignature. intros H.
  destruct (_ || _); [discriminate|].
  apply bind_inv in H as ([st w] & s1 & Hw & H). cbn [fst snd] in H.
  destruct st; cbn [negb] in H; [|discriminate].
  assert (Hexit : forall b o s2, (when (negb (WrapFlag w)) (free (WrapData w)) ;; ret (b, o)) s2
                                 = Ret ((true, out'), s') -> b = true).
  { intros b o s2 He. apply bind_inv in He as (? & ? & _ & He). injection He. congruence. }
  cbv zeta in H.
  destruct (WrapDataSize w >? INT_MAX); [apply Hexit in H; discriminate|].
  apply bind_inv in H as (der & s2 & Hrd & H).
  assert (s2 = s1) as ->.
  { unfold read_bytes in Hrd. destruct (block s1 (WrapData w)); [|discriminate].
    destruct (decide _); [|discriminate]. congruence. }
  destruct (d2i_PKCS7 der) as [p7|] eqn:Hd; [|apply Hexit in H; discriminate].
  destruct (type_is_signed p7); cbn [negb] in H; [|apply Hexit in H; discriminate].
  destruct (PKCS7_get_signer_info p7) as [[|si [|? ?]]|] eqn:Hsi;
    try (apply Hexit in H; discriminate).
  exists w, s1, der, p7, si. repeat split; assumption.
Qed.

End Gate.

(** C6. On a SignedData with two signer infos, and on one with none,
    Pkcs7GetSignature returns FALSE, and Pkcs7GetCertificatesList leaves
    through _Error with both lists absent but returns TRUE. *)
Theorem signer_count_gate :
  let out0 := mkCertListOut (Some NULL) (Some 0) (Some NULL) (Some 0) in
  let sig0 := mkSignatureOut (Some (Some 1%nat)) (Some 0) in
  let two := Sample.memory (Sample.input 2) [[0; 0; 0; 0]] [] in
  let none := Sample.memory (Sample.input 0) [[0; 0; 0; 0]] [] in
  Pkcs7GetSignature Sample.d2i_PKCS7 Sample.P7Data 20 sig0 two = Ret ((false, sig0), two) /\
  Pkcs7GetSignature Sample.d2i_PKCS7 Sample.P7Data 20 sig0 none = Ret ((false, sig0), none) /\
  Pkcs7GetCertificatesList Sample.d2i_PKCS7 Sample.get1_issuer Sample.P7Data 20
    Sample.certlist_out two = Ret ((true, out0), two) /\
  Pkcs7GetCertificatesList Sample.d2i_PKCS7 Sample.get1_issuer Sample.P7Data 20
    Sample.certlist_out none = Ret ((true, out0), none).
Proof. repeat split; vm_compute; reflexivity. Qed.

(** ** The serializer loop under any allocation plan *)

Lemma request_eq h pl : request (mkState h pl) = Ret (hd true pl, mkState h (tl pl)).
Proof. destruct pl; reflexivity. Qed.

Lemma malloc_eq h pl n :
  malloc n (mkState h pl)
  = if hd true pl
    then Ret (Some (length h), mkState (h ++ [Some (replicate (Z.to_nat n) 0)]) (tl pl))
    else Ret (NULL, mkState h (tl pl)).
Proof. unfold malloc. rewrite (bind_Ret _ _ _ _ _ (request_eq h pl)). destruct (hd true pl); reflexivity. Qed.

Lemma granted_cons n pl : hd true pl = true -> granted n (tl pl) -> granted (S n) pl.
Proof.
  unfold granted. destruct pl as [|b pl]; simpl.
  - intros _ _. constructor.
  - intros -> H. constructor; [reflexivity|exact H].
Qed.

Lemma granted_0 pl : granted 0 pl.
Proof. unfold granted. rewrite take_0. constructor. Qed.

(** X509PopCertificate on a non-empty stack either returns FALSE, leaving the
    heap as it was, or returns the encoding of the top certificate. *)
Lemma X509PopCertificate_cases h pl sk c :
  Z.of_nat (length (x_der c)) <= INT_MAX ->
  (exists pl', X509PopCertificate (Some (sk ++ [c])) (mkState h pl)
               = Ret ((Some sk, None), mkState h pl')) \/
  (encodable c /\ granted 3 pl).
Proof.
  intros Hmax. unfold X509PopCertificate. rewrite sk_X509_pop_app.
  rewrite (bind_Ret _ _ _ _ _ (request_eq h pl)).
  destruct (hd true pl) eqn:E1; cbn [negb]; [|left; eexists; reflexivity].
  rewrite (bind_Ret _ _ _ _ _ (request_eq h (tl pl))).
  destruct (hd true (tl pl)) eqn:E2; cbn [negb]; [|left; eexists; reflexivity].
  rewrite (INT32_small _ (conj (Nat2Z.is_nonneg _) Hmax)).
  destruct (Z.leb_spec (Z.of_nat (length (x_der c))) 0) as [Hle|Hpos];
    [left; eexists; reflexivity|].
  destruct (hd true (tl (tl pl))) eqn:E3.
  2:{ left. erewrite bind_Ret by (rewrite malloc_eq; cbn [hd tl]; rewrite E3; reflexivity).
      eexists; reflexivity. }
  right. split; [split; assumption|].
  repeat (apply granted_cons; [assumption|]). apply granted_0.
Qed.

Lemma SerializeLoop_total pops : forall fuel l h pl acc,
  Stack l = Some (reverse pops) -> (length pops < fuel)%nat ->
  Forall sized pops ->
  holds (mkState h pl) (CertBuf l) acc ->
  BufferSize l = Z.of_nat (length (0 :: acc)) ->
  BufferSize l + records_size pops < 2^64 ->
  OldBuf l = NULL -> SingleCert l = NULL -> 0 <= Index l < 256 ->
  exists lv l' h' pl',
    SerializeLoop fuel l (mkState h pl) = Ret ((lv, l'), mkState h' pl') /\
    frame (CertBuf l) h h' /\
    match lv with
    | Goto => CertBuf l' = NULL /\ Status l' = true /\
              (all_granted (mkState h pl) -> Forall encodable pops -> False)
    | Break =>
        exists done,
          done `prefix_of` pops /\
          Status l' = false /\
          Index l' = UINT8 (Index l + Z.of_nat (length done)) /\
          BufferSize l' = BufferSize l + records_size done /\
          holds (mkState h' pl') (CertBuf l') (acc ++ cert_records done) /\
          OldBuf l' = NULL /\ SingleCert l' = NULL /\
          (done = [] -> CertBuf l' = CertBuf l /\ h' = h) /\
          (done <> [] -> exists q, CertBuf l' = Some q /\ (length h <= q < length h')%nat) /\
          (all_granted (mkState h pl) -> Forall encodable pops ->
           done = pops /\ all_granted (mkState h' pl'))
    end.
Proof.
  induction pops as [|c pops IH]; intros fuel l h pl acc Hsk Hfuel Hall Hh Hsz Hb Ho Hs Hi.
  - destruct fuel as [|fuel]; [simpl in Hfuel; lia|].
    cbn [SerializeLoop]. rewrite Hsk.
    eexists Break, _, h, pl. split; [reflexivity|]. split; [apply frame_refl|].
    exists []. cbn [Status Index BufferSize CertBuf OldBuf SingleCert Stack].
    rewrite app_nil_r. simpl length. simpl records_size.
    repeat split; try assumption; try lia; try reflexivity; try congruence.
    unfold UINT8. rewrite Z.add_0_r, Z.mod_small by lia. reflexivity.
  - destruct fuel as [|fuel]; [simpl in Hfuel; lia|].
    rewrite reverse_cons in Hsk. inversion Hall as [|? ? Hc Hall']; subst.
    simpl records_size in Hb. pose proof (records_size_nonneg pops) as Hnn.
    destruct (X509PopCertificate_cases h pl (reverse pops) c Hc) as [[pl' Hpop]|[Hen Hg3]].
    + cbn [SerializeLoop]. rewrite Hsk, (bind_Ret _ _ _ _ _ Hpop).
      eexists Break, _, h, pl'. split; [reflexivity|]. split; [apply frame_refl|].
      exists []. cbn [Status Index BufferSize CertBuf OldBuf SingleCert Stack].
      rewrite app_nil_r. simpl length. simpl records_size.
      split; [apply prefix_nil|]. split; [reflexivity|].
      split; [unfold UINT8; rewrite Z.add_0_r, Z.mod_small by lia; reflexivity|].
      split; [lia|]. split; [exact Hh|]. split; [exact Ho|]. split; [exact Hs|].
      split; [intros _; split; reflexivity|]. split; [congruence|].
      intros Hgr Henc. exfalso. inversion Henc as [|? ? Hen _]; subst.
      rewrite (X509PopCertificate_ok h pl (reverse pops) c
                 (all_granted_granted (mkState h pl) 3 Hgr) Hen) in Hpop.
      discriminate.
    + destruct (hd true (tl (tl (tl pl)))) eqn:E4.
      * assert (Hg4 : granted 4 pl).
        { pose proof (granted_S _ _ Hg3) as [G1 Hg2].
          pose proof (granted_S _ _ Hg2) as [G2 Hg1].
          pose proof (granted_S _ _ Hg1) as [G3 _].
          repeat (apply granted_cons; [assumption|]). apply granted_0. }
        rewrite (SerializeLoop_step fuel l h pl (reverse pops) c acc Hsk Hen Hg4 Hh Hsz) by lia.
        set (h1 := (release (CertBuf l) h ++ [None]) ++ [Some ((0 :: acc) ++ cert_record c)]).
        set (pl1 := tl (tl (tl (tl pl)))).
        assert (Hlen1 : length (release (CertBuf l) h ++ [None]) = S (length h))
          by (rewrite length_app, length_release; simpl; lia).
        assert (Hgr1 : all_granted (mkState h pl) -> all_granted (mkState h1 pl1)).
        { intros Hgr. repeat apply all_granted_tail with (h := h). exact Hgr. }
        destruct (IH fuel
                    (mkLocals true (UINT8 (Index l + 1)) (Some (S (length h))) NULL
                       (BufferSize l + Z.of_nat (length (x_der c)) + 4) (BufferSize l) NULL
                       (Some (reverse pops)))
                    h1 pl1 (acc ++ cert_record c))
          as (lv & l' & h' & pl' & Hrun & HF & Hlv).
        -- reflexivity.
        -- simpl in Hfuel. lia.
        -- assumption.
        -- cbn [CertBuf holds]. rewrite <- Hlen1. apply block_last.
        -- cbn [BufferSize]. rewrite Hsz. simpl length. rewrite length_app.
           pose proof (cert_record_length c). lia.
        -- cbn [BufferSize]. lia.
        -- reflexivity.
        -- reflexivity.
        -- cbn [Index]. unfold UINT8. apply Z.mod_pos_bound. lia.
        -- assert (Hfr : frame (CertBuf l) h h').
           { apply (frame_trans _ (Some (S (length h))) _ h1).
             - apply frame_step.
             - exact HF.
             - intros q [= <-]. lia. }
           exists lv, l', h', pl'. split; [exact Hrun|]. split; [exact Hfr|].
           destruct lv.
           2:{ destruct Hlv as (G1 & G2 & G3). split; [exact G1|]. split; [exact G2|].
               intros Hgr Henc. inversion Henc; subst. apply G3; auto. }
           destruct Hlv as (done & Hpre & HS & HI & HB & HH & HO & HSC & HE & HL & HG).
           cbn [Index BufferSize CertBuf OldSize] in *.
           exists (c :: done).
           split; [apply prefix_cons; exact Hpre|]. split; [exact HS|].
           split; [rewrite HI, UINT8_succ; f_equal; simpl length; lia|].
           split; [rewrite HB; simpl records_size; lia|].
           split; [change (cert_records (c :: done)) with (cert_record c ++ cert_records done);
                   rewrite app_assoc; exact HH|].
           split; [exact HO|]. split; [exact HSC|]. split; [discriminate|].
           split.
           ++ intros _. destruct done as [|d done'].
              ** destruct (HE eq_refl) as [HE1 HE2]. exists (S (length h)).
                 split; [exact HE1|]. subst h'. unfold h1.
                 rewrite !length_app, length_release. simpl. lia.
              ** destruct (HL ltac:(discriminate)) as (q & Hq1 & Hq2).
                 exists q. split; [exact Hq1|]. unfold h1 in Hq2.
                 rewrite !length_app, length_release in Hq2. simpl in Hq2. lia.
           ++ intros Hgr Henc. inversion Henc; subst.
              destruct (HG (Hgr1 Hgr) ltac:(assumption)) as [-> Hgr']. split; [reflexivity|exact Hgr'].
      * cbn [SerializeLoop]. rewrite Hsk.
        rewrite (bind_Ret _ _ _ _ _ (X509PopCertificate_ok h pl (reverse pops) c Hg3 Hen)).
        cbv beta iota zeta.
        erewrite bind_Ret by (rewrite malloc_eq; rewrite E4; reflexivity).
        eexists Goto, _, _, _. split; [reflexivity|].
        split; [split; [rewrite length_app; lia|intros b Hlt _; apply lookup_app_l; exact Hlt]|].
        split; [reflexivity|]. split; [reflexivity|].
        intros Hgr _. pose proof (all_granted_granted _ 4 Hgr) as Hg4. cbn [plan] in Hg4.
        pose proof (granted_S _ _ Hg4) as [_ G]. pose proof (granted_S _ _ G) as [_ G'].
        pose proof (granted_S _ _ G') as [_ G'']. pose proof (granted_S _ _ G'') as [G4 _].
        congruence.
Qed.

(** ** The chain walk *)

Lemma X509_find_by_subject_elem sk name c :
  X509_find_by_subject sk name = Some c -> c ∈ sk /\ x_subject c = name.
Proof.
  induction sk as [|a r IH]; simpl; [discriminate|].
  destruct (decide (x_subject a = name)) as [E|_].
  - intros [= <-]. split; [left|exact E].
  - intros H. destruct (IH H). split; [right; assumption|assumption].
Qed.

Lemma X509_find_by_subject_None sk name :
  (forall c, c ∈ sk -> x_subject c <> name) -> X509_find_by_subject sk name = None.
Proof.
  induction sk as [|a r IH]; simpl; [reflexivity|]. intros H.
  destruct (decide (x_subject a = name)) as [E|_].
  - exfalso. exact (H a ltac:(left) E).
  - apply IH. intros c Hc. apply H. right. exact Hc.
Qed.

Lemma X509_find_by_subject_unique sk c :
  NoDup (map x_subject sk) -> c ∈ sk -> X509_find_by_subject sk (x_subject c) = Some c.
Proof.
  induction sk as [|a r IH]; simpl; intros Hnd Hc.
  - inversion Hc.
  - inversion Hnd as [|? ? Hna Hnd']; subst.
    destruct (decide (x_subject a = x_subject c)) as [E|Hne].
    + apply elem_of_cons in Hc as [->|Hc]; [reflexivity|].
      exfalso. apply Hna. rewrite E. apply list_elem_of_fmap. exists c. split; [reflexivity|exact Hc].
    + apply elem_of_cons in Hc as [->|Hc]; [congruence|]. apply IH; assumption.
Qed.

Lemma sk_X509_delete_ptr_perm sk c :
  NoDup (map x_ptr sk) -> c ∈ sk -> sk ≡ₚ c :: sk_X509_delete_ptr sk c.
Proof.
  induction sk as [|a r IH]; simpl; intros Hnd Hc.
  - inversion Hc.
  - inversion Hnd as [|? ? Hna Hnd']; subst.
    destruct (decide (x_ptr a = x_ptr c)) as [E|Hne].
    + apply elem_of_cons in Hc as [->|Hc]; [reflexivity|].
      exfalso. apply Hna. rewrite E. apply list_elem_of_fmap. exists c. split; [reflexivity|exact Hc].
    + apply elem_of_cons in Hc as [->|Hc]; [congruence|].
      rewrite (IH Hnd' Hc) at 1. apply Permutation_swap.
Qed.

Lemma X509_find_by_issuer_and_serial_elem sk name serial c :
  X509_find_by_issuer_and_serial sk name serial = Some c -> c ∈ sk.
Proof.
  induction sk as [|a r IH]; simpl; [discriminate|].
  destruct (decide _).
  - intros [= <-]. left.
  - intros H. right. exact (IH H).
Qed.

Lemma sk_X509_push_eq sk x h pl :
  sk_X509_push sk x (mkState h pl)
  = Ret (if hd true pl then Some (sk ++ [x]) else None, mkState h (tl pl)).
Proof. unfold sk_X509_push. rewrite (bind_Ret _ _ _ _ _ (request_eq h pl)). reflexivity. Qed.

Section Walk.

Variable X509_STORE_CTX_get1_issuer : X509_STORE_CTX -> X509 -> option X509.

(** The walk returns; it appends to the chain the issuers it removes from the
    pool and touches nothing else. *)
Lemma ChainWalk_total fuel : forall CertCtx Cert chain un h pl,
  (length un < fuel)%nat -> NoDup (map x_ptr un) ->
  exists wk issuers un' pl',
    ChainWalk X509_STORE_CTX_get1_issuer fuel CertCtx Cert chain (Some un) (mkState h pl)
    = Ret ((wk, chain ++ issuers, Some un'), mkState h pl') /\
    un ≡ₚ issuers ++ un' /\
    (wk = WalkDone -> (issuers, un') = walk_chain X509_STORE_CTX_get1_issuer fuel CertCtx Cert un) /\
    (all_granted (mkState h pl) -> wk = WalkDone /\ all_granted (mkState h pl')).
Proof.
  induction fuel as [|fuel IH]; intros CertCtx Cert chain un h pl Hfuel Hnd; [lia|].
  cbn [ChainWalk walk_chain].
  destruct (match X509_STORE_CTX_get1_issuer CertCtx Cert with
            | Some Issuer => X509_cmp Issuer Cert =? 0
            | None => false
            end).
  { exists WalkDone, [], un, pl. rewrite app_nil_r. repeat split; auto. }
  destruct (X509_find_by_subject un (x_issuer Cert)) as [Issuer|] eqn:Hfind.
  2:{ exists WalkDone, [], un, pl. rewrite app_nil_r. repeat split; auto. }
  apply X509_find_by_subject_elem in Hfind as [Hin _].
  pose proof (sk_X509_delete_ptr_perm un Issuer Hnd Hin) as Hperm.
  rewrite (bind_Ret _ _ _ _ _ (sk_X509_push_eq chain Issuer h pl)).
  destruct (hd true pl) eqn:E.
  - destruct (IH CertCtx Issuer (chain ++ [Issuer]) (sk_X509_delete_ptr un Issuer) h (tl pl))
      as (wk & issuers & un' & pl' & Hrun & Hp & Hw & Hg).
    + apply Permutation_length in Hperm. simpl in Hperm. lia.
    + assert (Hp2 : map x_ptr un ≡ₚ x_ptr Issuer :: map x_ptr (sk_X509_delete_ptr un Issuer))
        by (rewrite Hperm at 1; reflexivity).
      rewrite Hp2 in Hnd. inversion Hnd; assumption.
    + exists wk, (Issuer :: issuers), un', pl'.
      split; [rewrite Hrun, <- app_assoc; reflexivity|].
      split; [rewrite Hperm at 1; simpl; rewrite Hp; reflexivity|].
      split; [intros Hwk; rewrite <- (Hw Hwk); reflexivity|].
      intros Hall. apply Hg. eapply all_granted_tail. exact Hall.
  - exists WalkError, [], un, (tl pl). rewrite app_nil_r.
    split; [reflexivity|]. split; [reflexivity|]. split; [discriminate|].
    intros Hall. apply all_granted_next in Hall. unfold next_granted in Hall.
    cbn [plan] in Hall. congruence.
Qed.

End Walk.

(** ** The two lists of Pkcs7GetCertificatesList *)

Lemma records_size_reverse l : records_size (reverse l) = records_size l.
Proof.
  induction l as [|c r IH]; [reflexivity|].
  rewrite reverse_cons, records_size_app, IH. simpl. lia.
Qed.

(** The write of the count byte and of the output pair after a loop. *)
Lemma count_update {A} (mk : ptr -> Z -> A) (dflt : A) l h pl done :
  holds (mkState h pl) (CertBuf l) (cert_records done) ->
  (done = [] -> CertBuf l = NULL) ->
  (done <> [] -> exists q, CertBuf l = Some q) ->
  exists h',
    (match CertBuf l with
     | Some _ => store_bytes (CertBuf l) 0 [Index l] ;; ret (mk (CertBuf l) (BufferSize l))
     | None => ret dflt
     end) (mkState h pl)
    = Ret (match done with [] => dflt | _ => mk (CertBuf l) (BufferSize l) end,
           mkState h' pl) /\
    length h' = length h /\
    (forall b, Some b <> CertBuf l -> h' !! b = h !! b) /\
    (forall q, CertBuf l = Some q ->
               block (mkState h' pl) (Some q) = Some (Index l :: cert_records done)).
Proof.
  intros Hh Hnil Hcons. destruct done as [|d done].
  - rewrite (Hnil eq_refl). exists h. repeat split; try reflexivity. discriminate.
  - destruct (Hcons ltac:(discriminate)) as (q & Hq). rewrite Hq in *. cbn [holds] in Hh.
    destruct (store_count _ q _ (Index l) Hh) as ([h' pl'] & Hst & Hblk & Hpl & Hlen & Hoth).
    cbn [plan heap] in *. subst pl'.
    exists h'. rewrite (bind_Ret _ _ _ _ _ Hst).
    split; [reflexivity|]. split; [exact Hlen|]. split.
    + intros b Hb. apply Hoth. congruence.
    + intros q' [= <-]. exact Hblk.
Qed.

Lemma CertList_Error_TRUE W N A cb out h pl :
  W || negb A = true ->
  exists h',
    CertList_Error true W N A NULL NULL cb out (mkState h pl)
    = Ret ((true, out), mkState h' pl) /\
    length h' = length h /\
    forall b, Some b <> N -> h' !! b = h !! b.
Proof.
  intros HWA. unfold CertList_Error. cbn [notnull when negb andb].
  destruct (negb W && notnull N) eqn:E; cbn [when].
  - destruct W; [discriminate|]. destruct A; [discriminate|]. unfold free_moved.
    destruct N as [n|]; [|discriminate].
    exists (<[n := None]> h). split; [reflexivity|]. split; [apply length_insert|].
    intros b Hb. apply list_lookup_insert_ne. congruence.
  - exists h. repeat split; reflexivity.
Qed.

Lemma CertList_Error_FALSE W N A sc ob out s :
  W || negb A = true ->
  exists s', CertList_Error false W N A sc ob NULL out s = Ret ((false, out), s').
Proof.
  intros HWA. unfold CertList_Error. cbn [notnull negb andb].
  destruct (when_free_moved_total W A N s HWA) as (s1 & H1 & _).
  rewrite (bind_Ret _ _ _ _ _ H1).
  destruct (when_free_total (notnull sc) sc s1) as (s2 & H2).
  rewrite (bind_Ret _ _ _ _ _ H2).
  destruct (when_free_total (notnull ob) ob s2) as (s3 & H3).
  rewrite (bind_Ret _ _ _ _ _ H3). eexists. reflexivity.
Qed.

Lemma block_lookup h pl h' pl' q :
  h' !! q = h !! q -> block (mkState h' pl') (Some q) = block (mkState h pl) (Some q).
Proof. unfold block. cbn [heap]. intros ->. reflexivity. Qed.

Lemma listed_keep h pl h' pl' p len certs :
  listed (mkState h pl) p len certs ->
  (forall q, p = Some (Some q) -> h' !! q = h !! q) ->
  listed (mkState h' pl') p len certs.
Proof.
  unfold listed. destruct certs as [|c r]; [auto|].
  intros (q & Hp & Hb & Hl) Hk. exists q. split; [exact Hp|]. split; [|exact Hl].
  rewrite (block_lookup h pl h' pl' q (Hk q Hp)). exact Hb.
Qed.

Lemma CertList_unchain_total W N A un l out1 h pl :
  W || negb A = true ->
  Forall sized (default [] un) -> 1 + records_size (default [] un) < 2^64 ->
  OldBuf l = NULL -> SingleCert l = NULL ->
  (forall n, N = Some n -> (n < length h)%nat) ->
  UnchainCerts out1 = Some NULL -> UnchainLength out1 = Some 0 ->
  exists b out' h' pl',
    CertList_unchain W N A un l out1 (mkState h pl) = Ret ((b, out'), mkState h' pl') /\
    SignerChainCerts out' = SignerChainCerts out1 /\
    ChainLength out' = ChainLength out1 /\
    (b = false ->
       out' = out1 /\
       (all_granted (mkState h pl) -> Forall encodable (default [] un) -> False)) /\
    (b = true ->
       (length h <= length h')%nat /\
       (forall q, (q < length h)%nat -> Some q <> N -> h' !! q = h !! q) /\
       exists done2,
         done2 `prefix_of` reverse (default [] un) /\
         listed (mkState h' pl') (UnchainCerts out') (UnchainLength out') done2 /\
         (all_granted (mkState h pl) -> Forall encodable (default [] un) ->
          done2 = reverse (default [] un))).
Proof.
  intros HWA Hsz Hb Ho Hs HN Hu1 Hu2. unfold CertList_unchain.
  destruct un as [u|]; simpl default in *.
  2:{ rewrite Ho, Hs.
      destruct (CertList_Error_TRUE W N A (CertBuf l) out1 h pl HWA) as (h' & He & Hl & Hk).
      exists true, out1, h', pl. split; [exact He|]. split; [reflexivity|]. split; [reflexivity|].
      split; [discriminate|]. intros _. split; [lia|]. split; [intros; apply Hk; assumption|].
      exists []. split; [apply prefix_nil|]. split; [split; assumption|]. reflexivity. }
  unfold SerializeBlock.
  destruct (SerializeLoop_total (reverse u) (stack_fuel (Some u))
              (mkLocals false 0 NULL (OldBuf l) 1 0 (SingleCert l) (Some u)) h pl [])
    as (lv & l2 & h2 & pl2 & Hrun & HF & Hlv).
  { cbn [Stack]. rewrite reverse_involutive. reflexivity. }
  { unfold stack_fuel. simpl. rewrite length_reverse. lia. }
  { apply Forall_reverse. exact Hsz. }
  { reflexivity. }
  { reflexivity. }
  { cbn [BufferSize]. rewrite records_size_reverse. lia. }
  { exact Ho. }
  { exact Hs. }
  { cbn [Index]. lia. }
  rewrite (bind_Ret _ _ _ _ _ Hrun). destruct lv.
  - destruct Hlv as (done2 & Hpre & _ & HI & HB & HH & HO & HSC & HE & HL & HG).
    cbn [Index BufferSize CertBuf app] in *.
    destruct (count_update
                (fun p n => mkCertListOut (SignerChainCerts out1) (ChainLength out1)
                                          (Some p) (Some n))
                out1 l2 h2 pl2 done2 HH)
      as (h3 & Hup & Hl3 & Hk3 & Hb3).
    { intros E. exact (proj1 (HE E)). }
    { intros E. destruct (HL E) as (q & Hq & _). exists q. exact Hq. }
    rewrite (bind_Ret _ _ _ _ _ Hup). rewrite HO, HSC.
    destruct (CertList_Error_TRUE W N A (CertBuf l2)
                match done2 with
                | [] => out1
                | _ => mkCertListOut (SignerChainCerts out1) (ChainLength out1)
                                     (Some (CertBuf l2)) (Some (BufferSize l2))
                end h3 pl2 HWA) as (h' & He & Hl & Hk).
    eexists true, _, h', pl2. split; [exact He|].
    split; [destruct done2; reflexivity|]. split; [destruct done2; reflexivity|].
    split; [discriminate|]. intros _.
    destruct HF as [HF1 HF2].
    split; [lia|]. split.
    { intros q Hq HqN. rewrite Hk by exact HqN.
      destruct done2 as [|d done2'].
      - destruct (HE eq_refl) as [_ ->].
        rewrite Hk3; [reflexivity|]. rewrite (proj1 (HE eq_refl)). discriminate.
      - destruct (HL ltac:(discriminate)) as (q2 & Hq2 & Hr2).
        rewrite Hk3 by (rewrite Hq2; intros [= ->]; lia).
        apply HF2; [exact Hq|discriminate]. }
    exists done2. split; [exact Hpre|].
    split; [|intros a b; apply (HG a); apply Forall_reverse; exact b].
    destruct done2 as [|d done2'].
    + split; assumption.
    + destruct (HL ltac:(discriminate)) as (q2 & Hq2 & Hr2).
      exists q2. cbn [UnchainCerts UnchainLength]. rewrite Hq2.
      split; [reflexivity|]. split.
      * rewrite (block_lookup h3 pl2 h' pl2 q2).
        -- rewrite (Hb3 q2 Hq2), HI. reflexivity.
        -- apply Hk. intros [= E]. specialize (HN _ (eq_sym E)). lia.
      * rewrite HB. reflexivity.
  - destruct Hlv as (Hcb & _ & HG). rewrite Hcb.
    destruct (CertList_Error_FALSE W N A (SingleCert l2) (OldBuf l2) out1 (mkState h2 pl2) HWA)
      as ([h' pl'] & He).
    exists false, out1, h', pl'. split; [exact He|]. split; [reflexivity|]. split; [reflexivity|].
    split; [|discriminate]. intros _. split; [reflexivity|].
    intros Hgr Henc. apply HG; [exact Hgr|apply Forall_reverse; exact Henc].
Qed.

Lemma CertList_serialize_total W N A chain un h pl :
  W || negb A = true ->
  Forall sized chain -> Forall sized (default [] un) ->
  1 + records_size chain < 2^64 -> 1 + records_size (default [] un) < 2^64 ->
  (forall n, N = Some n -> (n < length h)%nat) ->
  exists b out' h' pl',
    CertList_serialize W N A chain un (mkState h pl) = Ret ((b, out'), mkState h' pl') /\
    (b = false ->
       UnchainCerts out' = Some NULL /\ UnchainLength out' = Some 0 /\
       (all_granted (mkState h pl) -> Forall encodable chain ->
        Forall encodable (default [] un) -> False)) /\
    (b = true ->
       exists done1 done2,
         done1 `prefix_of` reverse chain /\
         done2 `prefix_of` reverse (default [] un) /\
         listed (mkState h' pl') (SignerChainCerts out') (ChainLength out') done1 /\
         listed (mkState h' pl') (UnchainCerts out') (UnchainLength out') done2 /\
         (all_granted (mkState h pl) -> Forall encodable chain ->
          Forall encodable (default [] un) ->
          done1 = reverse chain /\ done2 = reverse (default [] un))).
Proof.
  intros HWA Hsz1 Hsz2 Hb1 Hb2 HN. unfold CertList_serialize, SerializeBlock. cbv zeta.
  set (out0 := mkCertListOut (Some NULL) (Some 0) (Some NULL) (Some 0)).
  destruct (SerializeLoop_total (reverse chain) (stack_fuel (Some chain))
              (mkLocals false 0 NULL NULL 1 0 NULL (Some chain)) h pl [])
    as (lv & l1 & h1 & pl1 & Hrun & HF & Hlv).
  { cbn [Stack]. rewrite reverse_involutive. reflexivity. }
  { unfold stack_fuel. simpl. rewrite length_reverse. lia. }
  { apply Forall_reverse. exact Hsz1. }
  { reflexivity. }
  { reflexivity. }
  { cbn [BufferSize]. rewrite records_size_reverse. lia. }
  { reflexivity. }
  { reflexivity. }
  { cbn [Index]. lia. }
  rewrite (bind_Ret _ _ _ _ _ Hrun). destruct lv.
  2:{ destruct Hlv as (Hcb & _ & HG). rewrite Hcb.
      destruct (CertList_Error_FALSE W N A (SingleCert l1) (OldBuf l1) out0 (mkState h1 pl1)
                  HWA) as ([h' pl'] & He).
      exists false, out0, h', pl'. split; [exact He|]. split; [|discriminate].
      intros _. split; [reflexivity|]. split; [reflexivity|].
      intros Hgr Henc _. apply HG; [exact Hgr|apply Forall_reverse; exact Henc]. }
  destruct Hlv as (done1 & Hpre & _ & HI & HB & HH & HO & HSC & HE & HL & HG).
  cbn [Index BufferSize CertBuf app] in *. destruct HF as [HF1 HF2].
  destruct (count_update
              (fun p n => mkCertListOut (Some p) (Some n) (Some NULL) (Some 0))
              out0 l1 h1 pl1 done1 HH)
    as (h2 & Hup & Hl2 & Hk2 & Hb2').
  { intros E. exact (proj1 (HE E)). }
  { intros E. destruct (HL E) as (q & Hq & _). exists q. exact Hq. }
  rewrite (bind_Ret _ _ _ _ _ Hup).
  set (out1 := match done1 with
               | [] => out0
               | _ => mkCertListOut (Some (CertBuf l1)) (Some (BufferSize l1)) (Some NULL) (Some 0)
               end).
  destruct (CertList_unchain_total W N A un l1 out1 h2 pl1 HWA Hsz2 Hb2 HO HSC)
    as (b & out' & h' & pl' & Hun & Hc1 & Hc2 & Hfalse & Htrue).
  { intros n Hn. specialize (HN n Hn). lia. }
  { unfold out1. destruct done1; reflexivity. }
  { unfold out1. destruct done1; reflexivity. }
  exists b, out', h', pl'. split; [exact Hun|]. split.
  - intros ->. destruct (Hfalse eq_refl) as [-> Hno].
    split; [unfold out1; destruct done1; reflexivity|].
    split; [unfold out1; destruct done1; reflexivity|].
    intros Hgr Henc1 Henc2.
    destruct (HG Hgr (proj2 (Forall_reverse _ _) Henc1)) as [_ Hgr1].
    apply Hno; [exact Hgr1|exact Henc2].
  - intros ->. destruct (Htrue eq_refl) as (Hlen & Hkeep & done2 & Hpre2 & Hlst2 & HG2).
    exists done1, done2. split; [exact Hpre|]. split; [exact Hpre2|]. split; [|split].
    + rewrite Hc1, Hc2. unfold out1. destruct done1 as [|d done1'].
      * split; reflexivity.
      * destruct (HL ltac:(discriminate)) as (q1 & Hq1 & Hr1).
        cbn [SignerChainCerts ChainLength]. exists q1. rewrite Hq1.
        split; [reflexivity|]. split; [|rewrite HB; reflexivity].
        rewrite (block_lookup h2 pl1 h' pl' q1).
        -- rewrite (Hb2' q1 Hq1), HI. reflexivity.
        -- apply Hkeep; [lia|]. intros [= E]. specialize (HN _ (eq_sym E)). lia.
    + exact Hlst2.
    + intros Hgr Henc1 Henc2.
      destruct (HG Hgr (proj2 (Forall_reverse _ _) Henc1)) as [-> Hgr1].
      split; [reflexivity|]. apply HG2; [exact Hgr1|exact Henc2].
Qed.

Lemma all_granted_hd h pl :
  all_granted (mkState h pl) -> hd true pl = true /\ forall h', all_granted (mkState h' (tl pl)).
Proof.
  intros H. split; [exact (all_granted_next _ H)|]. apply all_granted_tail with (h := h). exact H.
Qed.

Lemma records_size_perm l1 l2 : l1 ≡ₚ l2 -> records_size l1 = records_size l2.
Proof. induction 1; simpl; lia. Qed.

Section CertList.

Variable d2i_PKCS7 : list Z -> option PKCS7.
Variable X509_STORE_CTX_get1_issuer : X509_STORE_CTX -> X509 -> option X509.

(** Pkcs7GetCertificatesList once the signer is known: it returns, and what
    it returns is determined by the walk and by the two loops. *)
Lemma CertList_past_gate P7Data P7Length a b c d s w h1 pl1 der p7 Signer h2 pl2 certs :
  notnull P7Data = true -> P7Length <= INT_MAX ->
  WrapPkcs7Data P7Data P7Length s = Ret ((true, w), mkState h1 pl1) ->
  WrapDataSize w <= INT_MAX ->
  WrapFlag w = true ->
  read_bytes (WrapData w) 0 (Z.to_nat (WrapDataSize w)) (mkState h1 pl1)
  = Ret (der, mkState h1 pl1) ->
  d2i_PKCS7 der = Some p7 -> type_is_signed p7 = true ->
  PKCS7_get0_signers p7 (mkState h1 pl1) = Ret (Some [Signer], mkState h2 pl2) ->
  sign_cert p7 = Some certs -> NoDup (map x_ptr certs) -> Forall sized certs ->
  1 + records_size certs < 2^64 -> Signer ∈ certs ->
  (forall n, WrapData w = Some n -> (n < length h1)%nat) ->
  let pool0 := sk_X509_delete_ptr certs Signer in
  let r := walk_chain X509_STORE_CTX_get1_issuer (S (length pool0))
             (mkCtx Signer (Some certs) None) Signer pool0 in
  exists b' out' s',
    Pkcs7GetCertificatesList d2i_PKCS7 X509_STORE_CTX_get1_issuer P7Data P7Length
      (mkCertListOut (Some a) (Some b) (Some c) (Some d)) s = Ret ((b', out'), s') /\
    (b' = false ->
       UnchainCerts out' = Some NULL /\ UnchainLength out' = Some 0 /\
       (all_granted (mkState h2 pl2) -> Forall encodable certs -> False)) /\
    (b' = true ->
       exists done1 done2 issuers un',
         certs ≡ₚ (Signer :: issuers) ++ un' /\
         done1 `prefix_of` reverse (Signer :: issuers) /\
         done2 `prefix_of` reverse un' /\
         listed s' (SignerChainCerts out') (ChainLength out') done1 /\
         listed s' (UnchainCerts out') (UnchainLength out') done2 /\
         (all_granted (mkState h2 pl2) -> Forall encodable certs ->
          (issuers, un') = r /\ done1 = reverse (Signer :: issuers) /\ done2 = reverse un')).
Proof.
  intros Hp Hl Hw Hsz HW Hrd Hd Hty Hsig Hcerts Hnd Hsized Hbound Hin HN pool0 r.
  assert (HWA : WrapFlag w || negb true = true) by (rewrite HW; reflexivity).
  assert (Hh2 : h2 = h1).
  { destruct (PKCS7_get0_signers_total p7 (mkState h1 pl1)) as (r0 & s0 & Hg & Hh & _).
    rewrite Hsig in Hg. injection Hg as <- <-. exact Hh. }
  subst h2.
  pose proof (sk_X509_delete_ptr_perm certs Signer Hnd Hin) as Hperm0. fold pool0 in Hperm0.
  unfold Pkcs7GetCertificatesList. rewrite Hp. cbn [notnull negb orb CertStack
    SignerChainCerts ChainLength UnchainCerts UnchainLength].
  rewrite gtb_false by exact Hl.
  rewrite (bind_Ret _ _ _ _ _ Hw). cbn [fst snd negb orb]. cbv zeta.
  rewrite gtb_false by exact Hsz.
  rewrite (bind_Ret _ _ _ _ _ Hrd), Hd, Hty. cbn [negb].
  rewrite (bind_Ret _ _ _ _ _ Hsig).
  set (out0 := mkCertListOut (Some NULL) (Some 0) (Some NULL) (Some 0)).
  (* every jump to _Error before the lists are built *)
  assert (HErr : forall pl,
            (all_granted (mkState h1 pl2) -> Forall encodable certs -> False) ->
            exists b' out' s',
              CertList_Error true (WrapFlag w) (WrapData w) true NULL NULL NULL out0
                (mkState h1 pl)
              = Ret ((b', out'), s') /\
              (b' = false ->
                 UnchainCerts out' = Some NULL /\ UnchainLength out' = Some 0 /\
                 (all_granted (mkState h1 pl2) -> Forall encodable certs -> False)) /\
              (b' = true ->
                 exists done1 done2 issuers un',
                   certs ≡ₚ (Signer :: issuers) ++ un' /\
                   done1 `prefix_of` reverse (Signer :: issuers) /\
                   done2 `prefix_of` reverse un' /\
                   listed s' (SignerChainCerts out') (ChainLength out') done1 /\
                   listed s' (UnchainCerts out') (UnchainLength out') done2 /\
                   (all_granted (mkState h1 pl2) -> Forall encodable certs ->
                    (issuers, un') = r /\ done1 = reverse (Signer :: issuers) /\
                    done2 = reverse un'))).
  { intros pl Hno.
    destruct (CertList_Error_TRUE (WrapFlag w) (WrapData w) true NULL out0 h1 pl HWA)
      as (h' & He & _).
    exists true, out0, (mkState h' pl). split; [exact He|]. split; [discriminate|].
    intros _. exists [], [], [], pool0. split; [exact Hperm0|].
    split; [apply prefix_nil|]. split; [apply prefix_nil|].
    split; [split; reflexivity|]. split; [split; reflexivity|].
    intros Hgr Henc. exfalso. exact (Hno Hgr Henc). }
  rewrite (bind_Ret _ _ _ _ _ (request_eq h1 pl2)).
  destruct (hd true pl2) eqn:E1; cbn [negb].
  2:{ apply HErr. intros Hgr _. apply all_granted_hd in Hgr as [Hgr _]. congruence. }
  rewrite (bind_Ret _ _ _ _ _ (request_eq h1 (tl pl2))).
  destruct (hd true (tl pl2)) eqn:E2; cbn [negb].
  2:{ apply HErr. intros Hgr _. apply all_granted_hd in Hgr as [_ Hgr].
      specialize (Hgr h1). apply all_granted_hd in Hgr as [Hgr _]. congruence. }
  cbn [ctx_chain ctx_cert ctx_untrusted]. rewrite Hcerts. cbn [fmap option_fmap option_map].
  erewrite bind_Ret.
  2:{ rewrite (bind_Ret _ _ _ _ _ (request_eq h1 (tl (tl pl2)))).
      instantiate (1 := mkState h1 (if hd true (tl (tl pl2)) then tl (tl (tl (tl pl2)))
                                    else tl (tl (tl pl2)))).
      instantiate (1 := if hd true (tl (tl pl2))
                        then (if hd true (tl (tl (tl pl2))) then Some ([] ++ [Signer]) else None)
                        else None).
      destruct (hd true (tl (tl pl2))); [apply sk_X509_push_eq|reflexivity]. }
  destruct (hd true (tl (tl pl2))) eqn:E3.
  2:{ apply HErr. intros Hgr _. apply all_granted_hd in Hgr as [_ Hgr].
      specialize (Hgr h1). apply all_granted_hd in Hgr as [_ Hgr].
      specialize (Hgr h1). apply all_granted_hd in Hgr as [Hgr _]. congruence. }
  destruct (hd true (tl (tl (tl pl2)))) eqn:E4.
  2:{ apply HErr. intros Hgr _. apply all_granted_hd in Hgr as [_ Hgr].
      specialize (Hgr h1). apply all_granted_hd in Hgr as [_ Hgr].
      specialize (Hgr h1). apply all_granted_hd in Hgr as [_ Hgr].
      specialize (Hgr h1). apply all_granted_hd in Hgr as [Hgr _]. congruence. }
  set (pl3 := tl (tl (tl (tl pl2)))).
  assert (Hgr3 : all_granted (mkState h1 pl2) -> all_granted (mkState h1 pl3)).
  { intros Hgr. repeat apply all_granted_tail with (h := h1). exact Hgr. }
  assert (Hnd0 : NoDup (map x_ptr pool0)).
  { assert (Hp2 : map x_ptr certs ≡ₚ x_ptr Signer :: map x_ptr pool0)
      by (rewrite Hperm0 at 1; reflexivity).
    rewrite Hp2 in Hnd. inversion Hnd; assumption. }
  unfold stack_fuel. simpl default. fold pool0.
  destruct (ChainWalk_total X509_STORE_CTX_get1_issuer (S (length pool0))
              (mkCtx Signer (Some certs) None) Signer ([] ++ [Signer]) pool0 h1 pl3
              ltac:(lia) Hnd0)
    as (wk & issuers & un' & pl4 & Hwalk & Hperm & Hwc & Hwg).
  rewrite (bind_Ret _ _ _ _ _ Hwalk).
  assert (Hall : certs ≡ₚ (Signer :: issuers) ++ un').
  { rewrite Hperm0 at 1. simpl. rewrite Hperm. reflexivity. }
  destruct wk.
  2:{ apply HErr. intros Hgr _. destruct (Hwg (Hgr3 Hgr)) as [? _]. discriminate. }
  change (([] ++ [Signer]) ++ issuers) with (Signer :: issuers).
  assert (Hs1 : Forall sized (Signer :: issuers) /\ Forall sized un').
  { rewrite Hall in Hsized. apply Forall_app in Hsized. exact Hsized. }
  assert (Hr : records_size certs = records_size (Signer :: issuers) + records_size un').
  { rewrite (records_size_perm _ _ Hall), records_size_app. reflexivity. }
  pose proof (records_size_nonneg (Signer :: issuers)) as Hnn1.
  pose proof (records_size_nonneg un') as Hnn2.
  destruct (CertList_serialize_total (WrapFlag w) (WrapData w) true (Signer :: issuers)
              (Some un') h1 pl4 HWA (proj1 Hs1) (proj2 Hs1) ltac:(lia)
              ltac:(simpl default; lia) HN)
    as (b' & out' & h' & pl' & Hser & Hfalse & Htrue).
  exists b', out', (mkState h' pl'). split; [exact Hser|].
  assert (Henc : Forall encodable certs ->
                 Forall encodable (Signer :: issuers) /\ Forall encodable un').
  { intros He. rewrite Hall in He. apply Forall_app in He. exact He. }
  split.
  - intros Hb. destruct (Hfalse Hb) as (G1 & G2 & G3). split; [exact G1|]. split; [exact G2|].
    intros Hgr He. destruct (Henc He) as [He1 He2].
    apply G3; [exact (proj2 (Hwg (Hgr3 Hgr)))|exact He1|exact He2].
  - intros Hb. destruct (Htrue Hb) as (done1 & done2 & P1 & P2 & L1 & L2 & G).
    exists done1, done2, issuers, un'.
    split; [exact Hall|]. split; [exact P1|]. split; [exact P2|].
    split; [exact L1|]. split; [exact L2|].
    intros Hgr He. destruct (Henc He) as [He1 He2].
    destruct (G (proj2 (Hwg (Hgr3 Hgr))) He1 He2) as [-> ->].
    split; [apply Hwc; reflexivity|]. split; reflexivity.
Qed.

Lemma read_bytes_state p off n s bs s' : read_bytes p off n s = Ret (bs, s') -> s' = s.
Proof.
  unfold read_bytes. destruct (block s p); [|discriminate].
  destruct (decide _); [|discriminate]. congruence.
Qed.

Lemma read_bytes_block p off n s bs s' :
  read_bytes p off n s = Ret (bs, s') -> exists b, block s p = Some b.
Proof. unfold read_bytes. destruct (block s p); [eauto|discriminate]. Qed.

Lemma get0_signers_loop_elem sinfos certs : forall signers s l s',
  get0_signers_loop sinfos certs signers s = Ret (Some l, s') ->
  forall x, x ∈ l -> x ∈ signers \/ exists cs, certs = Some cs /\ x ∈ cs.
Proof.
  induction sinfos as [|si rest IH]; intros signers s l s' H x Hx; simpl in H.
  - injection H as <- _. left. exact Hx.
  - destruct certs as [cs|]; [|discriminate]. cbn [mbind option_bind] in H.
    destruct (X509_find_by_issuer_and_serial cs _ _) as [signer|] eqn:Hf; [|discriminate].
    apply bind_inv in H as (r & s1 & Hp & H). destruct r as [signers'|]; [|discriminate].
    destruct s as [h pl]. rewrite sk_X509_push_eq in Hp. injection Hp as Hp _.
    destruct (hd true pl); [|discriminate]. injection Hp as <-.
    destruct (IH _ _ _ _ H x Hx) as [Hin|Hin]; [|right; exact Hin].
    apply elem_of_app in Hin as [Hin|Hin]; [left; exact Hin|].
    apply list_elem_of_singleton in Hin as ->. right. exists cs. split; [reflexivity|].
    eapply X509_find_by_issuer_and_serial_elem. exact Hf.
Qed.

Lemma PKCS7_get0_signers_elem p7 s l s' :
  PKCS7_get0_signers p7 s = Ret (Some l, s') ->
  forall x, x ∈ l -> exists cs, sign_cert p7 = Some cs /\ x ∈ cs.
Proof.
  unfold PKCS7_get0_signers. intros H x Hx.
  destruct (negb (type_is_signed p7)); [discriminate|].
  destruct (PKCS7_get_signer_info p7) as [[|si rest]|]; try discriminate.
  apply bind_inv in H as (ok & s1 & _ & H). destruct ok; [|discriminate].
  destruct (get0_signers_loop_elem _ _ _ _ _ _ H x Hx) as [Hin|Hin]; [inversion Hin|exact Hin].
Qed.

(** Once the decoder has moved [NewP7Data], a jump to _Error returns only on
    a wrapped input: on an input that WrapPkcs7Data had to wrap, free is
    handed a pointer inside the envelope. *)
Lemma CertList_Error_crash st q sc ob cb out s :
  CertList_Error st false (Some q) true sc ob cb out s = Crash (InvalidFree (Some q)).
Proof. reflexivity. Qed.

Lemma CertList_Error_moved st W N sc ob cb out s r :
  CertList_Error st W N true sc ob cb out s = Ret r -> W = true \/ N = NULL.
Proof.
  destruct W; [left; reflexivity|]. destruct N as [q|]; [|right; reflexivity].
  rewrite CertList_Error_crash. discriminate.
Qed.

Lemma CertList_unchain_moved W N un l out1 s r :
  CertList_unchain W N true un l out1 s = Ret r -> W = true \/ N = NULL.
Proof.
  unfold CertList_unchain. destruct r as [r0 s0]. intros H.
  destruct un as [u|]; [|exact (CertList_Error_moved _ _ _ _ _ _ _ _ _ H)].
  apply bind_inv in H as ([[] l2] & s2 & _ & H).
  - apply bind_inv in H as (out2 & s3 & _ & H). exact (CertList_Error_moved _ _ _ _ _ _ _ _ _ H).
  - exact (CertList_Error_moved _ _ _ _ _ _ _ _ _ H).
Qed.

Lemma CertList_serialize_moved W N chain un s r :
  CertList_serialize W N true chain un s = Ret r -> W = true \/ N = NULL.
Proof.
  unfold CertList_serialize. cbv zeta. destruct r as [r0 s0]. intros H.
  apply bind_inv in H as ([[] l1] & s1 & _ & H).
  - apply bind_inv in H as (out1 & s2 & _ & H). exact (CertList_unchain_moved _ _ _ _ _ _ _ H).
  - exact (CertList_Error_moved _ _ _ _ _ _ _ _ _ H).
Qed.

(** A call that returns after the decoder has succeeded was made on a
    wrapped input. *)
Lemma Pkcs7GetCertificatesList_decoded_wrapped h pl p7 W N st r :
  (if negb (type_is_signed p7)
   then CertList_Error st W N true NULL NULL NULL
          (mkCertListOut (Some NULL) (Some 0) (Some NULL) (Some 0))
   else
     Signers <- PKCS7_get0_signers p7 ;;
     match Signers with
     | Some [Signer] =>
         ok <- request ;;
         if negb ok
         then CertList_Error st W N true NULL NULL NULL
                (mkCertListOut (Some NULL) (Some 0) (Some NULL) (Some 0)) else
         ok <- request ;;
         if negb ok
         then CertList_Error st W N true NULL NULL NULL
                (mkCertListOut (Some NULL) (Some 0) (Some NULL) (Some 0)) else
         let CertCtx := mkCtx Signer (sign_cert p7) None in
         let CtxCert := ctx_cert CertCtx in
         c <- (match ctx_chain CertCtx with
               | Some chain => ret (Some chain)
               | None =>
                   ok <- request ;;
                   if ok : bool then sk_X509_push [] CtxCert else ret None
               end) ;;
         match c with
         | None => CertList_Error st W N true NULL NULL NULL
                     (mkCertListOut (Some NULL) (Some 0) (Some NULL) (Some 0))
         | Some CtxChain0 =>
             let CtxUntrusted0 :=
               (fun u => sk_X509_delete_ptr u Signer) <$> ctx_untrusted CertCtx in
             r <- ChainWalk X509_STORE_CTX_get1_issuer (stack_fuel CtxUntrusted0) CertCtx
                    Signer CtxChain0 CtxUntrusted0 ;;
             match r with
             | (WalkError, _, _) =>
                 CertList_Error st W N true NULL NULL NULL
                   (mkCertListOut (Some NULL) (Some 0) (Some NULL) (Some 0))
             | (WalkDone, CtxChain, CtxUntrusted) =>
                 CertList_serialize W N true CtxChain CtxUntrusted
             end
         end
     | _ => CertList_Error st W N true NULL NULL NULL
              (mkCertListOut (Some NULL) (Some 0) (Some NULL) (Some 0))
     end) (mkState h pl) = Ret r ->
  W = true \/ N = NULL.
Proof.
  destruct r as [r0 s0]. intros H.
  destruct (negb (type_is_signed p7)); [exact (CertList_Error_moved _ _ _ _ _ _ _ _ _ H)|].
  apply bind_inv in H as (Signers & s2 & _ & H).
  destruct Signers as [[|Signer [|? ?]]|];
    try exact (CertList_Error_moved _ _ _ _ _ _ _ _ _ H).
  apply bind_inv in H as (ok1 & s3 & _ & H).
  destruct (negb ok1); [exact (CertList_Error_moved _ _ _ _ _ _ _ _ _ H)|].
  apply bind_inv in H as (ok2 & s4 & _ & H).
  destruct (negb ok2); [exact (CertList_Error_moved _ _ _ _ _ _ _ _ _ H)|].
  cbv zeta in H. apply bind_inv in H as (c0 & s5 & _ & H).
  destruct c0 as [chain0|]; [|exact (CertList_Error_moved _ _ _ _ _ _ _ _ _ H)].
  apply bind_inv in H as ([[[] chain] un] & s6 & _ & H).
  - exact (CertList_serialize_moved _ _ _ _ _ _ H).
  - exact (CertList_Error_moved _ _ _ _ _ _ _ _ _ H).
Qed.

(** C10, as the code has it.  The signer's certificate and every issuer that
    the walk appends to the chain are removed from the untrusted pool by
    address.  In every successful call the two serialized lists therefore
    hold the records of separate parts of the embedded set of certificate
    objects: no object has its record in both lists, and the signer's object
    has no record in the unchained list.  When the embedded certificates have
    distinct encodings, no record occurs in both lists. *)
Theorem chain_unchain_disjoint (P7Data : ptr) (P7Length : Z) (out out' : CertListOut)
    (s s' : state) :
  decoder_wf d2i_PKCS7 ->
  Pkcs7GetCertificatesList d2i_PKCS7 X509_STORE_CTX_get1_issuer P7Data P7Length out s
  = Ret ((true, out'), s') ->
  exists chain un : list X509,
    listed s' (SignerChainCerts out') (ChainLength out') chain /\
    listed s' (UnchainCerts out') (UnchainLength out') un /\
    (forall w s1 der p7 certs,
       WrapPkcs7Data P7Data P7Length s = Ret ((true, w), s1) ->
       read_bytes (WrapData w) 0 (Z.to_nat (WrapDataSize w)) s1 = Ret (der, s1) ->
       d2i_PKCS7 der = Some p7 -> sign_cert p7 = Some certs ->
       (exists rest, certs ≡ₚ chain ++ un ++ rest) /\
       (NoDup (map x_der certs) -> forall x y, x ∈ chain -> y ∈ un -> x_der x <> x_der y)) /\
    (forall x y, x ∈ chain -> y ∈ un -> x_ptr x <> x_ptr y) /\
    (forall w s1 der p7 Signer s2,
       WrapPkcs7Data P7Data P7Length s = Ret ((true, w), s1) ->
       read_bytes (WrapData w) 0 (Z.to_nat (WrapDataSize w)) s1 = Ret (der, s1) ->
       d2i_PKCS7 der = Some p7 ->
       PKCS7_get0_signers p7 s1 = Ret (Some [Signer], s2) ->
       forall y, y ∈ un -> x_ptr y <> x_ptr Signer).
Proof.
  intros Hwf H.
  set (out0 := mkCertListOut (Some NULL) (Some 0) (Some NULL) (Some 0)).
  assert (Hnone : out' = out0 ->
            exists chain un : list X509,
              listed s' (SignerChainCerts out') (ChainLength out') chain /\
              listed s' (UnchainCerts out') (UnchainLength out') un /\
              (forall w s1 der p7 certs,
                 WrapPkcs7Data P7Data P7Length s = Ret ((true, w), s1) ->
                 read_bytes (WrapData w) 0 (Z.to_nat (WrapDataSize w)) s1 = Ret (der, s1) ->
                 d2i_PKCS7 der = Some p7 -> sign_cert p7 = Some certs ->
                 (exists rest, certs ≡ₚ chain ++ un ++ rest) /\
                 (NoDup (map x_der certs) ->
                  forall x y, x ∈ chain -> y ∈ un -> x_der x <> x_der y)) /\
              (forall x y, x ∈ chain -> y ∈ un -> x_ptr x <> x_ptr y) /\
              (forall w s1 der p7 Signer s2,
                 WrapPkcs7Data P7Data P7Length s = Ret ((true, w), s1) ->
                 read_bytes (WrapData w) 0 (Z.to_nat (WrapDataSize w)) s1 = Ret (der, s1) ->
                 d2i_PKCS7 der = Some p7 ->
                 PKCS7_get0_signers p7 s1 = Ret (Some [Signer], s2) ->
                 forall y, y ∈ un -> x_ptr y <> x_ptr Signer)).
  { intros ->. exists [], []. split; [split; reflexivity|]. split; [split; reflexivity|].
    split.
    { intros ? ? ? ? certs _ _ _ _. split; [exists certs; reflexivity|].
      intros _ x y Hx. inversion Hx. }
    split; [intros x y Hx; inversion Hx|]. intros ? ? ? ? ? ? _ _ _ _ y Hy. inversion Hy. }
  assert (HErr : forall b W N A s0,
            CertList_Error b W N A NULL NULL NULL out0 s0 = Ret ((true, out'), s') ->
            out' = out0).
  { intros b W N A s0 He. unfold CertList_Error in He. cbn [notnull when andb] in He.
    rewrite andb_false_r in He.
    repeat (apply bind_inv in He as (? & ? & _ & He)). injection He. congruence. }
  pose proof H as H'. unfold Pkcs7GetCertificatesList in H'.
  destruct P7Data as [p|]; [|discriminate]. cbn [notnull negb orb] in H'.
  destruct out as [[a|] [b|] [c|] [d|]]; try discriminate H';
    cbn [notnull negb orb SignerChainCerts ChainLength UnchainCerts UnchainLength] in H';
    try discriminate H'.
  destruct (P7Length >? INT_MAX) eqn:EL; [discriminate|].
  apply bind_inv in H' as ([st w] & s1 & Hw & H'). cbn [fst snd] in H'. cbv zeta in H'.
  destruct st; cbn [negb orb] in H'; [|apply Hnone; eapply HErr; exact H'].
  destruct (WrapDataSize w >? INT_MAX) eqn:ES; [apply Hnone; eapply HErr; exact H'|].
  apply bind_inv in H' as (der & s1' & Hrd & H').
  pose proof (read_bytes_state _ _ _ _ _ _ Hrd) as ->.
  destruct (d2i_PKCS7 der) as [p7|] eqn:Hd; [|apply Hnone; eapply HErr; exact H'].
  destruct (type_is_signed p7) eqn:Hty; cbn [negb] in H';
    [|apply Hnone; eapply HErr; exact H'].
  assert (HW : WrapFlag w = true).
  { destruct s1 as [h1 pl1].
    assert (Hty' : negb (type_is_signed p7) = false) by (rewrite Hty; reflexivity).
    pose proof (Pkcs7GetCertificatesList_decoded_wrapped h1 pl1 p7 (WrapFlag w) (WrapData w)
                  true (true, out', s')) as Hm.
    rewrite Hty' in Hm. destruct (Hm H') as [HW|HN]; [exact HW|].
    destruct (read_bytes_block _ _ _ _ _ _ Hrd) as (bs & Hbs).
    rewrite HN in Hbs. discriminate. }
  apply bind_inv in H' as (Signers & s2 & Hsig & H').
  destruct Signers as [[|Signer [|? ?]]|]; try (apply Hnone; eapply HErr; exact H').
  clear H'.
  destruct (PKCS7_get0_signers_elem _ _ _ _ Hsig Signer ltac:(left)) as (certs & Hcerts & Hin).
  destruct (Hwf der p7 certs Hd Hcerts) as (Hnd & Hsized & Hbound).
  destruct s1 as [h1 pl1], s2 as [h2 pl2].
  destruct (CertList_past_gate (Some p) P7Length a b c d s w h1 pl1 der p7 Signer h2 pl2 certs
              eq_refl ltac:(rewrite Z.gtb_ltb in EL; apply Z.ltb_ge in EL; exact EL)
              Hw ltac:(rewrite Z.gtb_ltb in ES; apply Z.ltb_ge in ES; exact ES)
              HW Hrd Hd Hty Hsig Hcerts Hnd Hsized Hbound Hin)
    as (b' & out'' & s'' & Hrun & _ & Htrue).
  { intros n Hn. destruct (read_bytes_block _ _ _ _ _ _ Hrd) as (bs & Hbs).
    rewrite Hn in Hbs. eapply block_Some_lt. exact Hbs. }
  rewrite Hrun in H. injection H as -> -> ->.
  destruct (Htrue eq_refl) as (done1 & done2 & issuers & un' & Hperm & P1 & P2 & L1 & L2 & _).
  exists done1, done2. split; [exact L1|]. split; [exact L2|].
  assert (Hpart : exists rest, certs ≡ₚ done1 ++ done2 ++ rest).
  { destruct P1 as [k1 Hk1], P2 as [k2 Hk2]. exists (k1 ++ k2).
    rewrite Hperm. rewrite <- (reverse_Permutation (Signer :: issuers)), Hk1.
    rewrite <- (reverse_Permutation un'), Hk2.
    rewrite <- !app_assoc. apply Permutation_app_head.
    rewrite !app_assoc. apply Permutation_app_tail. apply Permutation_app_comm. }
  split.
  { intros w' s1' der' p7' certs' Hw' Hrd' Hd' Hc'.
    rewrite Hw in Hw'. injection Hw' as <- <-.
    rewrite Hrd in Hrd'. injection Hrd' as <-.
    rewrite Hd in Hd'. injection Hd' as <-.
    rewrite Hcerts in Hc'. injection Hc' as <-.
    split; [exact Hpart|].
    intros Hder x y Hx Hy E. destruct Hpart as [rest Hrest].
    rewrite Hrest, !map_app in Hder. apply NoDup_app in Hder as (_ & Hdis & _).
    apply (Hdis (x_der x)).
    - apply list_elem_of_fmap. exists x. split; [reflexivity|exact Hx].
    - apply elem_of_app. left. rewrite E.
      apply list_elem_of_fmap. exists y. split; [reflexivity|exact Hy]. }
  assert (Hnd' : NoDup (map x_ptr (Signer :: issuers) ++ map x_ptr un')).
  { rewrite <- map_app. rewrite <- Hperm. exact Hnd. }
  apply NoDup_app in Hnd' as (_ & Hdis & _).
  assert (Hsub1 : forall x, x ∈ done1 -> x ∈ Signer :: issuers).
  { intros x Hx. destruct P1 as [k Hk]. apply elem_of_reverse. rewrite Hk.
    apply elem_of_app. left. exact Hx. }
  assert (Hsub2 : forall y, y ∈ done2 -> y ∈ un').
  { intros y Hy. destruct P2 as [k Hk]. apply elem_of_reverse. rewrite Hk.
    apply elem_of_app. left. exact Hy. }
  split.
  - intros x y Hx Hy E. apply (Hdis (x_ptr x)).
    + apply list_elem_of_fmap. exists x. split; [reflexivity|apply Hsub1; exact Hx].
    + rewrite E. apply list_elem_of_fmap. exists y. split; [reflexivity|apply Hsub2; exact Hy].
  - intros w' s1' der' p7' Signer' s2' Hw' Hrd' Hd' Hsig' y Hy E.
    rewrite Hw in Hw'. injection Hw' as <- <-.
    rewrite Hrd in Hrd'. injection Hrd' as <-.
    rewrite Hd in Hd'. injection Hd' as <-.
    rewrite Hsig in Hsig'. injection Hsig' as <- _.
    apply (Hdis (x_ptr Signer)).
    + apply list_elem_of_fmap. exists Signer. split; [reflexivity|left].
    + rewrite <- E. apply list_elem_of_fmap. exists y. split; [reflexivity|apply Hsub2; exact Hy].
Qed.

End CertList.

Lemma Sample_decoder_wf : decoder_wf Sample.d2i_PKCS7.
Proof.
  intros der p7 certs Hd Hc. unfold Sample.d2i_PKCS7 in Hd.
  destruct (der !! 19%nat) as [tag|]; [|discriminate].
  repeat case_match; simplify_eq.
  all: cbn in Hc; simplify_eq.
  all: split; [apply (bool_decide_unpack _); vm_compute; reflexivity|].
  all: split; [repeat constructor; unfold sized, INT_MAX; simpl; lia|].
  all: simpl; lia.
Qed.

Lemma chain_unchain_disjoint_witness :
  exists out' s',
    Pkcs7GetCertificatesList Sample.d2i_PKCS7 Sample.get1_issuer Sample.P7Data 20
      Sample.certlist_out (Sample.memory (Sample.input 1) [] []) = Ret ((true, out'), s') /\
    exists chain un : list X509,
      listed s' (SignerChainCerts out') (ChainLength out') chain /\
      listed s' (UnchainCerts out') (UnchainLength out') un /\
      (forall x y, x ∈ chain -> y ∈ un -> x_ptr x <> x_ptr y).
Proof.
  eexists _, _.
  assert (Hrun : Pkcs7GetCertificatesList Sample.d2i_PKCS7 Sample.get1_issuer Sample.P7Data 20
                   Sample.certlist_out (Sample.memory (Sample.input 1) [] [])
                 = Ret ((true, _), _)) by (vm_compute; reflexivity).
  split; [exact Hrun|].
  destruct (chain_unchain_disjoint Sample.d2i_PKCS7 Sample.get1_issuer Sample.P7Data 20
              Sample.certlist_out _ (Sample.memory (Sample.input 1) [] []) _
              Sample_decoder_wf Hrun)
    as (chain & un & H1 & H2 & _ & H3 & _).
  exists chain, un. split; [exact H1|]. split; [exact H2|exact H3].
Defined.

(** C10, as stated, fails: with the signer's certificate embedded twice, the
    second copy stays in the pool, and the unchained list holds the very
    record of the chained list. *)
Lemma unchained_holds_signer_copy :
  exists s',
    Pkcs7GetCertificatesList Sample.d2i_PKCS7 Sample.get1_issuer Sample.P7Data 20
      Sample.certlist_out (Sample.memory (Sample.input 4) [] [])
    = Ret ((true, mkCertListOut (Some (Some 2%nat)) (Some 10) (Some (Some 4%nat)) (Some 10)), s') /\
    block s' (Some 2%nat) = Some (1 :: cert_record Sample.Leaf) /\
    block s' (Some 4%nat) = Some (1 :: cert_record Sample.Leaf).
Proof. eexists. split; [vm_compute; reflexivity|]. split; vm_compute; reflexivity. Qed.

(** C7, as stated, fails: the chain list of Leaf -> Intermediate -> Root holds
    the records in pop order, Root first and the signer's certificate last. *)
Lemma chain_list_is_root_first :
  exists s',
    Pkcs7GetCertificatesList Sample.d2i_PKCS7 Sample.get1_issuer Sample.P7Data 20
      Sample.certlist_out (Sample.memory (Sample.input 1) [] [])
    = Ret ((true, mkCertListOut (Some (Some 6%nat)) (Some 25) (Some NULL) (Some 0)), s') /\
    block s' (Some 6%nat)
    = Some (3 :: cert_record Sample.Root ++ cert_record Sample.Intermediate
              ++ cert_record Sample.Leaf) /\
    block s' (Some 6%nat)
    <> Some (3 :: cert_record Sample.Leaf ++ cert_record Sample.Intermediate
               ++ cert_record Sample.Root).
Proof.
  eexists. split; [vm_compute; reflexivity|].
  split; [vm_compute; reflexivity|vm_compute; discriminate].
Qed.

(** PKCS7_get0_signers on a single signer info whose certificate is embedded,
    with its two requests granted. *)
Lemma PKCS7_get0_signers_single p7 si certs Signer h pl :
  type_is_signed p7 = true -> sign_signer_info p7 = Some [si] ->
  sign_cert p7 = Some certs ->
  X509_find_by_issuer_and_serial certs (si_issuer si) (si_serial si) = Some Signer ->
  all_granted (mkState h pl) ->
  PKCS7_get0_signers p7 (mkState h pl) = Ret (Some [Signer], mkState h (tl (tl pl))).
Proof.
  intros Hty Hsi Hc Hf Hg. unfold PKCS7_get0_signers, PKCS7_get_signer_info.
  rewrite Hty, Hsi. cbn [negb].
  destruct (all_granted_hd _ _ Hg) as [G1 Hg1].
  destruct (all_granted_hd _ _ (Hg1 h)) as [G2 _].
  rewrite (bind_Ret _ _ _ _ _ (request_eq h pl)), G1.
  cbn [get0_signers_loop]. rewrite Hc. cbn [mbind option_bind]. rewrite Hf.
  rewrite (bind_Ret _ _ _ _ _ (sk_X509_push_eq [] Signer h (tl pl))), G2. reflexivity.
Qed.

Section Chain.

Variable d2i_PKCS7 : list Z -> option PKCS7.
Variable X509_STORE_CTX_get1_issuer : X509_STORE_CTX -> X509 -> option X509.

Lemma is_wrapped_length B : is_wrapped B = true -> (17 <= length B)%nat.
Proof.
  unfold is_wrapped. intros H. apply andb_true_iff in H as [_ H].
  apply bool_decide_eq_true in H. apply lookup_lt_Some in H. lia.
Qed.

(** Pkcs7GetCertificatesList on a well-formed, wrapped single-signer input
    with every allocation granted: the chain list holds, in pop order, the
    signer's certificate and the issuers found by the walk, the unchained list
    what the walk left in the pool. *)
Lemma CertList_granted s P7Data B p7 si certs Signer a b c d :
  block s P7Data = Some B -> is_wrapped B = true ->
  Z.of_nat (length B) <= INT_MAX -> all_granted s ->
  d2i_PKCS7 B = Some p7 -> type_is_signed p7 = true ->
  sign_signer_info p7 = Some [si] -> sign_cert p7 = Some certs ->
  X509_find_by_issuer_and_serial certs (si_issuer si) (si_serial si) = Some Signer ->
  NoDup (map x_ptr certs) -> Forall encodable certs -> 1 + records_size certs < 2^64 ->
  let pool0 := sk_X509_delete_ptr certs Signer in
  let r := walk_chain X509_STORE_CTX_get1_issuer (S (length pool0))
             (mkCtx Signer (Some certs) None) Signer pool0 in
  exists out' s',
    Pkcs7GetCertificatesList d2i_PKCS7 X509_STORE_CTX_get1_issuer P7Data
      (Z.of_nat (length B)) (mkCertListOut (Some a) (Some b) (Some c) (Some d)) s
    = Ret ((true, out'), s') /\
    listed s' (SignerChainCerts out') (ChainLength out') (reverse (Signer :: r.1)) /\
    listed s' (UnchainCerts out') (UnchainLength out') (reverse r.2).
Proof.
  intros HB HWr Hmax Hg Hd Hty Hsi Hc Hf Hnd Henc Hbound pool0 r.
  pose proof (is_wrapped_length B HWr) as Hlen.
  assert (Henv : envelope B = B) by (unfold envelope; rewrite HWr; reflexivity).
  rewrite <- Henv in Hd.
  destruct P7Data as [p|]; [|discriminate].
  unfold INT_MAX in Hmax.
  destruct (WrapPkcs7Data_envelope s (Some p) B HB Hlen ltac:(lia) (all_granted_next _ Hg))
    as (w & [h1 pl1] & Hw & Hfl & Hsz & Hblk & Hcase).
  rewrite HWr in Hfl.
  assert (Hel : Z.of_nat (length (envelope B)) = Z.of_nat (length B))
    by (rewrite Henv; reflexivity).
  assert (Hg1 : all_granted (mkState h1 pl1)).
  { destruct (is_wrapped B).
    - destruct Hcase as [<- _]. exact Hg.
    - destruct Hcase as [E _]. injection E as -> ->. destruct s as [h pl].
      apply all_granted_tail with (h := h). exact Hg. }
  pose proof (PKCS7_get0_signers_single p7 si certs Signer h1 pl1 Hty Hsi Hc Hf Hg1) as Hsig.
  assert (Hsized : Forall sized certs).
  { eapply Forall_impl; [exact Henc|]. intros x [_ Hx]. exact Hx. }
  destruct (CertList_past_gate d2i_PKCS7 X509_STORE_CTX_get1_issuer (Some p)
              (Z.of_nat (length B)) a b c d s w h1 pl1 (envelope B) p7 Signer h1
              (tl (tl pl1)) certs eq_refl ltac:(unfold INT_MAX; lia) Hw
              ltac:(unfold INT_MAX; lia) Hfl
              (read_bytes_all _ _ _ _ Hblk Hsz) Hd Hty Hsig Hc Hnd Hsized Hbound
              (X509_find_by_issuer_and_serial_elem _ _ _ _ Hf))
    as (b' & out' & s' & Hrun & Hfalse & Htrue).
  { intros n Hn. rewrite Hn in Hblk. eapply block_Some_lt. exact Hblk. }
  assert (Hg2 : all_granted (mkState h1 (tl (tl pl1)))).
  { repeat apply all_granted_tail with (h := h1). exact Hg1. }
  destruct b'.
  2:{ exfalso. destruct (Hfalse eq_refl) as (_ & _ & Hno). exact (Hno Hg2 Henc). }
  destruct (Htrue eq_refl) as (done1 & done2 & issuers & un' & _ & _ & _ & L1 & L2 & HG).
  destruct (HG Hg2 Henc) as (Hr & -> & ->).
  exists out', s'. split; [exact Hrun|].
  fold pool0 in Hr. fold r in Hr. rewrite <- Hr. split; [exact L1|exact L2].
Qed.

(** C7, as the code has it.  On a wrapped input, for a single signer whose
    chain is Leaf -> Intermediate -> Root (self-signed), the three
    certificates being the embedded set, Pkcs7GetCertificatesList returns
    TRUE, a chain list whose records are Root, then Intermediate, then Leaf
    (the order in which the chain stack is popped), and no unchained list. *)
Theorem chain_Leaf_Intermediate_Root (s : state) (P7Data : ptr) (B : list Z) (p7 : PKCS7)
    (si : PKCS7_SIGNER_INFO) (certs : list X509) (Leaf Intermediate Root : X509)
    (a c : ptr) (b d : Z) :
  block s P7Data = Some B -> is_wrapped B = true ->
  Z.of_nat (length B) <= INT_MAX -> all_granted s ->
  d2i_PKCS7 B = Some p7 -> type_is_signed p7 = true ->
  sign_signer_info p7 = Some [si] -> sign_cert p7 = Some certs ->
  certs ≡ₚ [Leaf; Intermediate; Root] ->
  X509_find_by_issuer_and_serial certs (si_issuer si) (si_serial si) = Some Leaf ->
  x_issuer Leaf = x_subject Intermediate ->
  x_issuer Intermediate = x_subject Root ->
  x_issuer Root = x_subject Root ->
  NoDup [x_subject Leaf; x_subject Intermediate; x_subject Root] ->
  NoDup [x_ptr Leaf; x_ptr Intermediate; x_ptr Root] ->
  Forall encodable [Leaf; Intermediate; Root] ->
  (forall ctx x i, x ∈ [Leaf; Intermediate] ->
                   X509_STORE_CTX_get1_issuer ctx x = Some i -> x_der i <> x_der x) ->
  exists q s',
    Pkcs7GetCertificatesList d2i_PKCS7 X509_STORE_CTX_get1_issuer P7Data
      (Z.of_nat (length B)) (mkCertListOut (Some a) (Some b) (Some c) (Some d)) s
    = Ret ((true, mkCertListOut (Some (Some q))
                    (Some (1 + records_size [Root; Intermediate; Leaf]))
                    (Some NULL) (Some 0)), s') /\
    block s' (Some q)
    = Some (3 :: cert_record Root ++ cert_record Intermediate ++ cert_record Leaf).
Proof.
  intros HB Hlen Hmax Hg Hd Hty Hsi Hc Hperm Hf HiL HiI HiR Hsub Hptr Henc Hself.
  assert (Hnd : NoDup (map x_ptr certs)) by (rewrite Hperm; exact Hptr).
  assert (Henc' : Forall encodable certs) by (rewrite Hperm; exact Henc).
  assert (Hbound : 1 + records_size certs < 2^64).
  { rewrite (records_size_perm _ _ Hperm).
    pose proof (records_size_bound _ Henc) as Hb. simpl length in Hb.
    unfold INT_MAX in Hb. lia. }
  destruct (CertList_granted s P7Data B p7 si certs Leaf a b c d HB Hlen Hmax Hg Hd Hty
              Hsi Hc Hf Hnd Henc' Hbound)
    as (out' & s' & Hrun & L1 & L2).
  set (pool0 := sk_X509_delete_ptr certs Leaf) in *.
  (* the pool after the signer is removed, and the walk on it *)
  assert (HinL : Leaf ∈ certs) by (rewrite Hperm; left).
  pose proof (sk_X509_delete_ptr_perm certs Leaf Hnd HinL) as Hp0. fold pool0 in Hp0.
  assert (Hpool0 : pool0 ≡ₚ [Intermediate; Root]).
  { apply (Permutation_cons_inv (a := Leaf)). rewrite <- Hp0. exact Hperm. }
  assert (Hns : forall ctx x, x ∈ [Leaf; Intermediate] ->
            match X509_STORE_CTX_get1_issuer ctx x with
            | Some Issuer => X509_cmp Issuer x =? 0
            | None => false
            end = false).
  { intros ctx x Hx. destruct (X509_STORE_CTX_get1_issuer ctx x) as [i|] eqn:E; [|reflexivity].
    unfold X509_cmp. rewrite decide_False by exact (Hself ctx x i Hx E). reflexivity. }
  inversion Hsub as [|? ? HsL Hsub1]; subst. inversion Hsub1 as [|? ? HsI Hsub2]; subst.
  inversion Hptr as [|? ? HpL Hptr1]; subst.
  assert (Hnd0 : NoDup (map x_ptr pool0)) by (rewrite Hpool0; exact Hptr1).
  assert (Hfind1 : X509_find_by_subject pool0 (x_issuer Leaf) = Some Intermediate).
  { rewrite HiL. apply X509_find_by_subject_unique.
    - rewrite Hpool0. exact Hsub1.
    - rewrite Hpool0. left. }
  assert (HinI : Intermediate ∈ pool0) by (rewrite Hpool0; left).
  pose proof (sk_X509_delete_ptr_perm pool0 Intermediate Hnd0 HinI) as Hp1.
  assert (Hpool1 : sk_X509_delete_ptr pool0 Intermediate = [Root]).
  { apply Permutation_singleton_r. apply (Permutation_cons_inv (a := Intermediate)).
    rewrite <- Hp1. exact Hpool0. }
  assert (Hwalk : walk_chain X509_STORE_CTX_get1_issuer (S (length pool0))
                    (mkCtx Leaf (Some certs) None) Leaf pool0
                  = ([Intermediate; Root], [])).
  { rewrite (Permutation_length Hpool0). simpl length.
    cbn [walk_chain]. rewrite (Hns _ Leaf ltac:(left)), Hfind1, Hpool1.
    rewrite (Hns _ Intermediate ltac:(right; left)).
    cbn [X509_find_by_subject]. rewrite HiI, decide_True by reflexivity.
    cbn [sk_X509_delete_ptr]. rewrite decide_True by reflexivity.
    destruct (match X509_STORE_CTX_get1_issuer _ Root with
              | Some Issuer => X509_cmp Issuer Root =? 0
              | None => false
              end); reflexivity. }
  rewrite Hwalk in L1, L2. cbn [fst snd] in L1, L2.
  change (reverse [Leaf; Intermediate; Root]) with [Root; Intermediate; Leaf] in L1.
  change (reverse []) with (@nil X509) in L2.
  destruct L1 as (q & Hq1 & Hq2 & Hq3). destruct L2 as [Hu1 Hu2].
  exists q, s'. split.
  - rewrite Hrun. destruct out' as [o1 o2 o3 o4].
    cbn [SignerChainCerts ChainLength UnchainCerts UnchainLength] in *. congruence.
  - rewrite Hq2. unfold cert_records. simpl. rewrite app_nil_r. reflexivity.
Qed.

End Chain.

Lemma chain_Leaf_Intermediate_Root_witness :
  exists q s',
    Pkcs7GetCertificatesList Sample.d2i_PKCS7 Sample.get1_issuer Sample.P7Data 20
      Sample.certlist_out (Sample.memory (Sample.input 1) [] [])
    = Ret ((true, mkCertListOut (Some (Some q)) (Some 25) (Some NULL) (Some 0)), s') /\
    block s' (Some q)
    = Some (3 :: cert_record Sample.Root ++ cert_record Sample.Intermediate
              ++ cert_record Sample.Leaf).
Proof.
  refine (chain_Leaf_Intermediate_Root Sample.d2i_PKCS7 Sample.get1_issuer
            (Sample.memory (Sample.input 1) [] []) Sample.P7Data (Sample.input 1)
            (Sample.signed [Sample.Intermediate; Sample.Leaf; Sample.Root] [Sample.signer_info])
            Sample.signer_info [Sample.Intermediate; Sample.Leaf; Sample.Root]
            Sample.Leaf Sample.Intermediate Sample.Root NULL NULL 0 0
            _ _ _ _ _ _ _ _ _ _ _ _ _ _ _ _ _).
  - reflexivity.
  - vm_compute. reflexivity.
  - unfold INT_MAX. simpl. lia.
  - constructor.
  - vm_compute. reflexivity.
  - reflexivity.
  - reflexivity.
  - reflexivity.
  - apply Permutation_swap.
  - vm_compute. reflexivity.
  - reflexivity.
  - reflexivity.
  - reflexivity.
  - apply (bool_decide_unpack _). vm_compute. reflexivity.
  - apply (bool_decide_unpack _). vm_compute. reflexivity.
  - repeat constructor; unfold INT_MAX; simpl; lia.
  - intros ctx x i _ Hi. discriminate Hi.
Defined.

(** ** Zero certificates popped *)

(** sk_X509_pop_free returns, with the state as it was, or releases an
    object a second time. *)
Lemma sk_X509_pop_free_cases sk : forall released s,
  sk_X509_pop_free released sk s = Ret (tt, s) \/
  exists c, c ∈ sk /\ sk_X509_pop_free released sk s = Crash (DoubleFree (x_ptr c)).
Proof.
  induction sk as [|c r IH]; intros released s; cbn [sk_X509_pop_free]; [left; reflexivity|].
  destruct (decide (x_ptr c ∈ map x_ptr released)).
  - right. exists c. split; [left|reflexivity].
  - destruct (IH (c :: released) s) as [H|(x & Hx & H)]; [left; exact H|].
    right. exists x. split; [right; exact Hx|exact H].
Qed.

Lemma sk_X509_pop_free_inv released sk s s' :
  sk_X509_pop_free released sk s = Ret (tt, s') -> s' = s.
Proof.
  destruct (sk_X509_pop_free_cases sk released s) as [H|(c & _ & H)]; rewrite H; [|discriminate].
  intros [= ->]. reflexivity.
Qed.

(** The release of the stack at _Exit of Pkcs7GetSigners, after PKCS7_free. *)
Lemma Exit_pop_free_inv p7 st s s' :
  match st with
  | Some sk => sk_X509_pop_free (PKCS7_free p7) sk
  | None => ret tt
  end s = Ret (tt, s') -> s' = s.
Proof.
  destruct st as [sk|]; [apply sk_X509_pop_free_inv|]. intros [= ->]. reflexivity.
Qed.

Lemma Exit_pop_free_drained p7 st s :
  default [] st = [] ->
  match st with
  | Some sk => sk_X509_pop_free (PKCS7_free p7) sk
  | None => ret tt
  end s = Ret (tt, s).
Proof. destruct st as [sk|]; [|reflexivity]. simpl. intros ->. reflexivity. Qed.

(** _Exit of Pkcs7GetSigners returns when no certificate is left on the
    stack. *)
Lemma GetSigners_Exit_total W P p7 l out s :
  default [] (Stack l) = [] ->
  exists s',
    GetSigners_Exit W P p7 l out s
    = Ret ((Status l,
            if negb (Status l) && notnull (CertBuf l)
            then mkSignersOut (Some NULL) (StackLength out) (TrustedCert out) (CertLength out)
            else out), s').
Proof.
  intros Hdr. unfold GetSigners_Exit. cbv zeta.
  destruct (when_free_total (negb W) P s) as (s1 & H1). rewrite (bind_Ret _ _ _ _ _ H1).
  rewrite (bind_Ret _ _ _ _ _ (Exit_pop_free_drained p7 (Stack l) s1 Hdr)).
  destruct (when_free_total (notnull (SingleCert l)) (SingleCert l) s1) as (s2 & H2).
  rewrite (bind_Ret _ _ _ _ _ H2).
  destruct (negb (Status l) && notnull (CertBuf l)).
  - destruct (free_total (CertBuf l) s2) as (s3 & H3 & _).
    erewrite bind_Ret by (rewrite (bind_Ret _ _ _ _ _ H3); reflexivity).
    destruct (when_free_total (notnull (OldBuf l)) (OldBuf l) s3) as (s4 & H4).
    rewrite (bind_Ret _ _ _ _ _ H4). eexists. reflexivity.
  - rewrite (bind_Ret _ _ _ _ _ eq_refl).
    destruct (when_free_total (notnull (OldBuf l)) (OldBuf l) s2) as (s4 & H4).
    rewrite (bind_Ret _ _ _ _ _ H4). eexists. reflexivity.
Qed.

(** With certificates left on the stack, which are those of the decoded
    structure, _Exit releases the first of them a second time. *)
Lemma GetSigners_Exit_crash W P p7 l out s c r :
  Stack l = Some (c :: r) -> x_ptr c ∈ map x_ptr (PKCS7_free p7) ->
  GetSigners_Exit W P p7 l out s = Crash (DoubleFree (x_ptr c)).
Proof.
  intros Hst Hin. unfold GetSigners_Exit. cbv zeta.
  destruct (when_free_total (negb W) P s) as (s1 & H1). rewrite (bind_Ret _ _ _ _ _ H1).
  rewrite Hst. cbn [sk_X509_pop_free]. rewrite decide_True by exact Hin. reflexivity.
Qed.

Lemma GetSigners_Exit_cases W P p7 l out s :
  (exists s',
     GetSigners_Exit W P p7 l out s
     = Ret ((Status l,
             if negb (Status l) && notnull (CertBuf l)
             then mkSignersOut (Some NULL) (StackLength out) (TrustedCert out) (CertLength out)
             else out), s')) \/
  (exists c, c ∈ default [] (Stack l) /\
             GetSigners_Exit W P p7 l out s = Crash (DoubleFree (x_ptr c))).
Proof.
  unfold GetSigners_Exit. cbv zeta.
  destruct (when_free_total (negb W) P s) as (s1 & H1). rewrite (bind_Ret _ _ _ _ _ H1).
  assert (Hpf : match Stack l with
                | Some sk => sk_X509_pop_free (PKCS7_free p7) sk
                | None => ret tt
                end s1 = Ret (tt, s1) \/
                exists c, c ∈ default [] (Stack l) /\
                  match Stack l with
                  | Some sk => sk_X509_pop_free (PKCS7_free p7) sk
                  | None => ret tt
                  end s1 = Crash (DoubleFree (x_ptr c))).
  { destruct (Stack l) as [sk|]; [apply sk_X509_pop_free_cases|left; reflexivity]. }
  destruct Hpf as [Hpf|(c & Hc & Hpf)].
  2:{ right. exists c. split; [exact Hc|]. unfold bind at 1. rewrite Hpf. reflexivity. }
  left. rewrite (bind_Ret _ _ _ _ _ Hpf).
  destruct (when_free_total (notnull (SingleCert l)) (SingleCert l) s1) as (s2 & H2).
  rewrite (bind_Ret _ _ _ _ _ H2).
  destruct (negb (Status l) && notnull (CertBuf l)).
  - destruct (free_total (CertBuf l) s2) as (s3 & H3 & _).
    erewrite bind_Ret by (rewrite (bind_Ret _ _ _ _ _ H3); reflexivity).
    destruct (when_free_total (notnull (OldBuf l)) (OldBuf l) s3) as (s4 & H4).
    rewrite (bind_Ret _ _ _ _ _ H4). eexists. reflexivity.
  - rewrite (bind_Ret _ _ _ _ _ eq_refl).
    destruct (when_free_total (notnull (OldBuf l)) (OldBuf l) s2) as (s4 & H4).
    rewrite (bind_Ret _ _ _ _ _ H4). eexists. reflexivity.
Qed.

Lemma CertList_Error_total b W N A sc ob cb out s :
  W || negb A = true ->
  exists s',
    CertList_Error b W N A sc ob cb out s
    = Ret ((b, if negb b && notnull cb
               then mkCertListOut (Some NULL) (ChainLength out) (Some NULL) (UnchainLength out)
               else out), s').
Proof.
  intros HWA. unfold CertList_Error.
  destruct (when_free_moved_total W A N s HWA) as (s1 & H1 & _).
  rewrite (bind_Ret _ _ _ _ _ H1).
  destruct (when_free_total (notnull sc) sc s1) as (s2 & H2). rewrite (bind_Ret _ _ _ _ _ H2).
  destruct (when_free_total (notnull ob) ob s2) as (s3 & H3). rewrite (bind_Ret _ _ _ _ _ H3).
  destruct (negb b && notnull cb).
  - destruct (free_total cb s3) as (s4 & H4 & _). rewrite (bind_Ret _ _ _ _ _ H4).
    eexists. reflexivity.
  - eexists. reflexivity.
Qed.

(** C9, as the code has it.  When X509PopCertificate returns FALSE on the
    first turn of a serializer loop, so that zero certificates are popped:
    Pkcs7GetSigners, when the failed pop has left no certificate on the
    stack, returns FALSE and leaves its outputs as they were;
    in Pkcs7GetCertificatesList on a wrapped input the unchained block leaves
    the outputs as they were and the call returns TRUE, and the chain block
    leaves both lists absent with length 0 and goes on to the unchained
    block. *)
Theorem zero_certificates_popped (W A : bool) (P : ptr) (p7 : option PKCS7)
    (sk : list X509) (un sk' : option (list X509)) (l : locals) (sout : SignersOut)
    (cout : CertListOut) (s s1 : state) :
  X509PopCertificate (Some sk) s = Ret ((sk', None), s1) ->
  (default [] sk' = [] ->
   exists s', GetSigners_serialize W P p7 (Some sk) sout s = Ret ((false, sout), s')) /\
  (exists s', CertList_unchain true P A (Some sk) l cout s = Ret ((true, cout), s')) /\
  CertList_serialize W P A sk un s
  = CertList_unchain W P A un (mkLocals false 0 NULL NULL 1 0 NULL sk')
      (mkCertListOut (Some NULL) (Some 0) (Some NULL) (Some 0)) s1.
Proof.
  intros Hpop. split; [|split].
  - intros Hdr. unfold GetSigners_serialize, stack_fuel. cbn [SerializeLoop Stack].
    rewrite (bind_Ret _ _ _ _ _ (bind_Ret _ _ _ _ _ Hpop)). cbn [CertBuf].
    destruct (GetSigners_Exit_total W P p7
                (mkLocals false 0 NULL NULL 1 1 NULL sk') sout s1 Hdr) as (s' & He).
    exists s'. exact He.
  - unfold CertList_unchain, SerializeBlock, stack_fuel. cbn [SerializeLoop Stack].
    rewrite (bind_Ret _ _ _ _ _ (bind_Ret _ _ _ _ _ Hpop)). cbn [CertBuf].
    rewrite (bind_Ret _ _ _ _ _ eq_refl).
    destruct (CertList_Error_total true true P A (SingleCert l) (OldBuf l) NULL cout s1
                eq_refl) as (s' & He).
    exists s'. exact He.
  - unfold CertList_serialize, SerializeBlock, stack_fuel. cbn [SerializeLoop Stack].
    rewrite (bind_Ret _ _ _ _ _ (bind_Ret _ _ _ _ _ Hpop)). cbn [CertBuf].
    rewrite (bind_Ret _ _ _ _ _ eq_refl). reflexivity.
Qed.

Lemma zero_certificates_popped_witness :
  let s := Sample.memory (Sample.input 3) [] [false] in
  let s1 := Sample.memory (Sample.input 3) [] [] in
  let p7 := Some (Sample.signed [Sample.Leaf] [Sample.signer_info]) in
  (exists s', GetSigners_serialize true Sample.P7Data p7 (Some [Sample.Leaf])
                Sample.signers_out s
              = Ret ((false, Sample.signers_out), s')) /\
  (exists s', CertList_unchain true Sample.P7Data true (Some [Sample.Leaf])
                (mkLocals false 0 NULL NULL 1 0 NULL None) Sample.certlist_out s
              = Ret ((true, Sample.certlist_out), s')).
Proof.
  intros s s1 p7.
  destruct (zero_certificates_popped true true Sample.P7Data p7 [Sample.Leaf] None (Some [])
              (mkLocals false 0 NULL NULL 1 0 NULL None) Sample.signers_out
              Sample.certlist_out s s1) as (H1 & H2 & _).
  - vm_compute. reflexivity.
  - split; [exact (H1 eq_refl)|exact H2].
Defined.

(** C9, as stated, fails for Pkcs7GetSigners: when the first pop yields no
    certificate (here its BIO cannot be allocated), the call returns FALSE. *)
Lemma Pkcs7GetSigners_zero_popped_FALSE :
  Pkcs7GetSigners Sample.d2i_PKCS7 Sample.P7Data 20 Sample.signers_out
    (Sample.memory (Sample.input 1) [] [true; true; false])
  = Ret ((false, Sample.signers_out), Sample.memory (Sample.input 1) [] []).
Proof. vm_compute. reflexivity. Qed.

(** ** Outputs on failure *)

Lemma only_at_refl q h : only_at q h h.
Proof. split; [reflexivity|intros; reflexivity]. Qed.

Lemma only_at_trans q h1 h2 h3 : only_at q h1 h2 -> only_at q h2 h3 -> only_at q h1 h3.
Proof.
  intros [L1 F1] [L2 F2]. split; [congruence|].
  intros b Hb. rewrite F2, F1 by exact Hb. reflexivity.
Qed.

Lemma store_bytes_only_at q off new s s' :
  store_bytes (Some q) off new s = Ret (tt, s') ->
  only_at q (heap s) (heap s') /\ plan s' = plan s.
Proof.
  unfold store_bytes. destruct (block s (Some q)); [|discriminate].
  destruct (decide _); [|discriminate]. intros [= <-]. cbn [heap plan].
  split; [|reflexivity]. split; [apply length_insert|].
  intros b Hb. apply list_lookup_insert_ne. congruence.
Qed.

Lemma CopyMem_only_at q doff src soff n s s' :
  CopyMem (Some q) doff src soff n s = Ret (tt, s') ->
  only_at q (heap s) (heap s') /\ plan s' = plan s.
Proof.
  unfold CopyMem. intros H. apply bind_inv in H as (bs & s1 & Hr & H).
  apply read_bytes_state in Hr as ->. exact (store_bytes_only_at _ _ _ _ _ H).
Qed.

(** WrapPkcs7Data leaves the caller's blocks as they are; the buffer it
    synthesizes is a new block. *)
Lemma WrapPkcs7Data_frame P7Data P7Length s st w s1 :
  WrapPkcs7Data P7Data P7Length s = Ret ((st, w), s1) ->
  (length (heap s) <= length (heap s1))%nat /\
  (forall b, (b < length (heap s))%nat -> heap s1 !! b = heap s !! b) /\
  (WrapFlag w = false -> forall q, WrapData w = Some q -> q = length (heap s)).
Proof.
  unfold WrapPkcs7Data. intros H.
  apply bind_inv in H as (Wrapped & s0 & Hdet & H).
  apply DetectWrapped_state in Hdet as ->.
  destruct Wrapped.
  { injection H as <- <- <-. split; [lia|]. split; [reflexivity|]. discriminate. }
  cbv zeta in H. apply bind_inv in H as (q & s2 & Hm & H).
  destruct s as [h pl]. rewrite malloc_eq in Hm.
  destruct (hd true pl); injection Hm as <- <-.
  2:{ injection H as <- <- <-. cbn [heap]. split; [lia|]. split; [reflexivity|]. discriminate. }
  assert (Hacc : only_at (length h) (h ++ [Some (replicate (Z.to_nat (UINTN (P7Length + 19))) 0)])
                   (heap (mkState (h ++ [Some (replicate (Z.to_nat (UINTN (P7Length + 19))) 0)])
                                  (tl pl)))) by apply only_at_refl.
  revert Hacc H.
  generalize (mkState (h ++ [Some (replicate (Z.to_nat (UINTN (P7Length + 19))) 0)]) (tl pl)).
  intros s2 Hacc H.
  repeat match type of H with
         | bind (store_bytes _ _ _) _ _ = _ =>
             let u := fresh "u" in let sx := fresh "sx" in let Hs := fresh "Hs" in
             apply bind_inv in H as (u & sx & Hs & H); destruct u;
             apply store_bytes_only_at in Hs as [Hs _];
             pose proof (only_at_trans _ _ _ _ Hacc Hs) as Hacc'; clear Hacc Hs;
             rename Hacc' into Hacc
         end.
  apply bind_inv in H as (u' & sx' & Hc & H). destruct u'.
  apply CopyMem_only_at in Hc as [Hc _].
  destruct (only_at_trans _ _ _ _ Hacc Hc) as [HL HF].
  injection H as <- <- <-. cbn [heap WrapFlag WrapData] in *.
  rewrite length_app in HL. simpl in HL.
  split; [lia|]. split.
  - intros b Hb. rewrite HF by lia. apply lookup_app_l. exact Hb.
  - intros _ q [= <-]. reflexivity.
Qed.

Lemma GetSigners_Exit_inv W P p7 l out s b out' s' :
  GetSigners_Exit W P p7 l out s = Ret ((b, out'), s') ->
  b = Status l /\
  (out' = out \/
   out' = mkSignersOut (Some NULL) (StackLength out) (TrustedCert out) (CertLength out)).
Proof.
  intros H. destruct (GetSigners_Exit_cases W P p7 l out s) as [(s0 & H0)|(c & _ & H0)];
    rewrite H0 in H; [|discriminate].
  injection H as <- <- _. split; [reflexivity|].
  destruct (_ && _); [right|left]; reflexivity.
Qed.

(** Without a block to release, _Error does not look at [Advanced]. *)
Lemma CertList_Error_NULL b W A sc ob cb out :
  CertList_Error b W NULL A sc ob cb out = CertList_Error b true NULL A sc ob cb out.
Proof. unfold CertList_Error. destruct W; reflexivity. Qed.

Lemma CertList_Error_inv b W N A sc ob cb out s b' out' s' :
  CertList_Error b W N A sc ob cb out s = Ret ((b', out'), s') ->
  b' = b /\
  (out' = out \/
   out' = mkCertListOut (Some NULL) (ChainLength out) (Some NULL) (UnchainLength out)).
Proof.
  intros H.
  assert (Hret : exists s0,
            CertList_Error b W N A sc ob cb out s
            = Ret ((b, if negb b && notnull cb
                       then mkCertListOut (Some NULL) (ChainLength out) (Some NULL)
                              (UnchainLength out)
                       else out), s0)).
  { destruct (W || negb A) eqn:HWA; [apply CertList_Error_total; exact HWA|].
    destruct W; [discriminate|]. destruct A; [|discriminate].
    destruct N as [q|]; [rewrite CertList_Error_crash in H; discriminate|].
    change (@None nat) with NULL. rewrite CertList_Error_NULL.
    apply CertList_Error_total. reflexivity. }
  destruct Hret as (s0 & H0).
  rewrite H0 in H. injection H as <- <- _. split; [reflexivity|].
  destruct (_ && _); [right|left]; reflexivity.
Qed.

Lemma GetSigners_serialize_FALSE W P p7 st out s out' s' :
  GetSigners_serialize W P p7 st out s = Ret ((false, out'), s') ->
  (CertStack out' = CertStack out \/ CertStack out' = Some NULL) /\
  StackLength out' = StackLength out /\
  (TrustedCert out' = TrustedCert out \/ TrustedCert out' = Some NULL).
Proof.
  unfold GetSigners_serialize. intros H.
  apply bind_inv in H as ([lv l] & s1 & _ & H).
  assert (Hexit : forall o s0,
            GetSigners_Exit W P p7 l o s0 = Ret ((false, out'), s') ->
            (CertStack out' = CertStack o \/ CertStack out' = Some NULL) /\
            StackLength out' = StackLength o /\ TrustedCert out' = TrustedCert o).
  { intros o s0 He. apply GetSigners_Exit_inv in He as [_ [-> | ->]]; auto. }
  destruct lv.
  - destruct (CertBuf l) as [cb|] eqn:Hcb.
    + apply bind_inv in H as (u & s2 & _ & H).
      apply bind_inv in H as (tc & s3 & _ & H).
      destruct tc as [t|].
      * apply bind_inv in H as (u' & s4 & _ & H).
        apply GetSigners_Exit_inv in H as [H _]. discriminate H.
      * apply Hexit in H as (H1 & H2 & H3). cbn [CertStack StackLength TrustedCert] in *.
        split; [exact H1|]. split; [exact H2|]. right. exact H3.
    + apply Hexit in H as (H1 & H2 & H3). split; [exact H1|]. split; [exact H2|]. left. exact H3.
  - apply Hexit in H as (H1 & H2 & H3). split; [exact H1|]. split; [exact H2|]. left. exact H3.
Qed.

Lemma CertList_serialize_FALSE W N A chain un s out' s' :
  CertList_serialize W N A chain un s = Ret ((false, out'), s') ->
  UnchainCerts out' = Some NULL /\ UnchainLength out' = Some 0.
Proof.
  unfold CertList_serialize. cbv zeta. intros H.
  apply bind_inv in H as ([lv l] & s1 & _ & H).
  assert (Herr : forall b sc ob cb o s0,
            UnchainCerts o = Some NULL -> UnchainLength o = Some 0 ->
            CertList_Error b W N A sc ob cb o s0 = Ret ((false, out'), s') ->
            UnchainCerts out' = Some NULL /\ UnchainLength out' = Some 0).
  { intros b sc ob cb o s0 Ho1 Ho2 He.
    apply CertList_Error_inv in He as [_ [-> | ->]]; auto. }
  destruct lv; [|eapply Herr; [| |exact H]; reflexivity].
  apply bind_inv in H as (out1 & s2 & Ho & H).
  assert (Hout1 : UnchainCerts out1 = Some NULL /\ UnchainLength out1 = Some 0).
  { destruct (CertBuf l).
    - apply bind_inv in Ho as (u & s3 & _ & Ho). injection Ho as <- _. split; reflexivity.
    - injection Ho as <- _. split; reflexivity. }
  destruct Hout1 as [Hu1 Hu2]. unfold CertList_unchain in H.
  destruct un as [u|].
  2:{ apply CertList_Error_inv in H as [H _]. discriminate H. }
  apply bind_inv in H as ([lv2 l2] & s3 & _ & H).
  destruct lv2; [|eapply Herr; [exact Hu1|exact Hu2|exact H]].
  apply bind_inv in H as (out2 & s4 & _ & H).
  apply CertList_Error_inv in H as [H _]. discriminate H.
Qed.

Section Failure.

Variable d2i_PKCS7 : list Z -> option PKCS7.
Variable X509_STORE_CTX_get1_issuer : X509_STORE_CTX -> X509 -> option X509.

Lemma Pkcs7GetSigners_FALSE P7Data P7Length out s out' s' :
  Pkcs7GetSigners d2i_PKCS7 P7Data P7Length out s = Ret ((false, out'), s') ->
  (CertStack out' = CertStack out \/ CertStack out' = Some NULL) /\
  StackLength out' = StackLength out /\
  (TrustedCert out' = TrustedCert out \/ TrustedCert out' = Some NULL).
Proof.
  unfold Pkcs7GetSigners. intros H.
  assert (Hsame : out' = out ->
            (CertStack out' = CertStack out \/ CertStack out' = Some NULL) /\
            StackLength out' = StackLength out /\
            (TrustedCert out' = TrustedCert out \/ TrustedCert out' = Some NULL))
    by (intros ->; auto).
  assert (Hexit : forall W P p7 l s0,
            GetSigners_Exit W P p7 l out s0 = Ret ((false, out'), s') ->
            (CertStack out' = CertStack out \/ CertStack out' = Some NULL) /\
            StackLength out' = StackLength out /\
            (TrustedCert out' = TrustedCert out \/ TrustedCert out' = Some NULL)).
  { intros W P p7 l s0 He. apply GetSigners_Exit_inv in He as [_ [-> | ->]]; auto. }
  destruct (_ || _); [apply Hsame; injection H as <- _; reflexivity|].
  apply bind_inv in H as ([st w] & s1 & _ & H). cbn [fst snd] in H. cbv zeta in H.
  destruct st; cbn [negb] in H; [|apply Hsame; injection H as <- _; reflexivity].
  destruct (_ >? _); [eapply Hexit; exact H|].
  apply bind_inv in H as (der & s2 & _ & H).
  destruct (d2i_PKCS7 der) as [p7|]; [|eapply Hexit; exact H].
  destruct (negb (type_is_signed p7)); [eapply Hexit; exact H|].
  apply bind_inv in H as (st0 & s3 & _ & H).
  destruct st0 as [sk|]; [|eapply Hexit; exact H].
  eapply GetSigners_serialize_FALSE. exact H.
Qed.

Lemma Pkcs7GetCertificatesList_FALSE P7Data P7Length out s out' s' :
  Pkcs7GetCertificatesList d2i_PKCS7 X509_STORE_CTX_get1_issuer P7Data P7Length out s
  = Ret ((false, out'), s') ->
  out' = out \/ (UnchainCerts out' = Some NULL /\ UnchainLength out' = Some 0).
Proof.
  unfold Pkcs7GetCertificatesList. intros H.
  destruct (_ || _); [left; injection H as <- _; reflexivity|]. right. cbv zeta in H.
  apply bind_inv in H as ([st w] & s1 & _ & H). cbn [fst snd] in H.
  assert (Herr : forall b A s0,
            CertList_Error b (WrapFlag w) (WrapData w) A NULL NULL NULL
              (mkCertListOut (Some NULL) (Some 0) (Some NULL) (Some 0)) s0
            = Ret ((false, out'), s') ->
            UnchainCerts out' = Some NULL /\ UnchainLength out' = Some 0).
  { intros b A s0 He. apply CertList_Error_inv in He as [_ [-> | ->]]; auto. }
  destruct (_ || _); [eapply Herr; exact H|].
  apply bind_inv in H as (der & s2 & _ & H).
  destruct (d2i_PKCS7 der) as [p7|]; [|eapply Herr; exact H].
  destruct (negb (type_is_signed p7)); [eapply Herr; exact H|].
  apply bind_inv in H as (Signers & s3 & _ & H).
  destruct Signers as [[|Signer [|? ?]]|]; try (eapply Herr; exact H).
  apply bind_inv in H as (ok1 & s4 & _ & H).
  destruct (negb ok1); [eapply Herr; exact H|].
  apply bind_inv in H as (ok2 & s5 & _ & H).
  destruct (negb ok2); [eapply Herr; exact H|].
  apply bind_inv in H as (c0 & s6 & _ & H).
  destruct c0 as [chain0|]; [|eapply Herr; exact H].
  apply bind_inv in H as ([[wk chain] un] & s7 & _ & H).
  destruct wk; [|eapply Herr; exact H].
  eapply CertList_serialize_FALSE. exact H.
Qed.

Lemma Pkcs7GetSignature_FALSE P7Data P7Length out s out' s' :
  Pkcs7GetSignature d2i_PKCS7 P7Data P7Length out s = Ret ((false, out'), s') ->
  Signature out' = Signature out /\
  forall b, (b < length (heap s))%nat -> block s' (Some b) = block s (Some b).
Proof.
  unfold Pkcs7GetSignature. intros H.
  destruct (_ || _); [injection H as <- <-; split; reflexivity|].
  apply bind_inv in H as ([st w] & s1 & Hw & H). cbn [fst snd] in H. cbv zeta in H.
  destruct (WrapPkcs7Data_frame _ _ _ _ _ _ Hw) as (HL & HF & HQ).
  assert (Hkeep1 : forall b, (b < length (heap s))%nat -> block s1 (Some b) = block s (Some b)).
  { intros b Hb. unfold block. rewrite (HF b Hb). reflexivity. }
  destruct st; cbn [negb] in H; [|injection H as <- <-; split; [reflexivity|exact Hkeep1]].
  assert (Hexit : forall o,
            Signature o = Signature out ->
            (when (negb (WrapFlag w)) (free (WrapData w)) ;; ret (false, o)) s1
            = Ret ((false, out'), s') ->
            Signature out' = Signature out /\
            forall b, (b < length (heap s))%nat -> block s' (Some b) = block s (Some b)).
  { clear H. intros o Ho He. apply bind_inv in He as (u & s2 & Hf & He). injection He as <- <-.
    split; [exact Ho|]. intros b Hb. rewrite <- (Hkeep1 b Hb).
    destruct (WrapFlag w) eqn:EW; cbn [negb when] in Hf.
    - injection Hf as E. subst s2. reflexivity.
    - destruct (WrapData w) as [q|] eqn:EQ; [|injection Hf as E; subst s2; reflexivity].
      injection Hf as E. subst s2. pose proof (HQ eq_refl q eq_refl) as ->.
      unfold block. cbn [heap]. rewrite list_lookup_insert_ne by lia. reflexivity. }
  destruct (_ >? _); [apply (Hexit out eq_refl H)|].
  apply bind_inv in H as (der & s2 & Hrd & H). apply read_bytes_state in Hrd as ->.
  destruct (d2i_PKCS7 der) as [p7|]; [|apply (Hexit out eq_refl H)].
  destruct (negb (type_is_signed p7)); [apply (Hexit out eq_refl H)|].
  destruct (PKCS7_get_signer_info p7) as [[|si [|? ?]]|];
    try apply (Hexit out eq_refl H).
  destruct (enc_digest si) as [sig|]; [|apply (Hexit out eq_refl H)].
  destruct (SignatureLength out); [|discriminate].
  destruct (Signature out) as [[dst|]|] eqn:ES.
  - exfalso. apply bind_inv in H as (u & s2 & _ & H).
    apply bind_inv in H as (u' & s3 & _ & H). discriminate.
  - refine (Hexit _ _ H). reflexivity.
  - refine (Hexit _ _ H). reflexivity.
Qed.

End Failure.

(** C2, as the code has it.  On a FALSE return:
    WrapPkcs7Data leaves [*WrapData] NULL and [*WrapFlag] FALSE, [*WrapDataSize]
    holding the size it asked for;
    Pkcs7GetSigners leaves [*CertStack] and [*TrustedCert] each NULL or as at
    entry, and [*StackLength] as at entry;
    Pkcs7GetCertificatesList leaves its outputs as at entry, or the unchained
    list NULL with length 0;
    Pkcs7GetSignature leaves [*Signature] and every block of the caller, the
    destination included, as at entry.  Pkcs7Verify has no output. *)
Theorem outputs_on_failure :
  (forall P7Data P7Length s w s',
     WrapPkcs7Data P7Data P7Length s = Ret ((false, w), s') ->
     WrapData w = NULL /\ WrapFlag w = false /\ WrapDataSize w = UINTN (P7Length + 19)) /\
  (forall d2i P7Data P7Length out s out' s',
     Pkcs7GetSigners d2i P7Data P7Length out s = Ret ((false, out'), s') ->
     (CertStack out' = CertStack out \/ CertStack out' = Some NULL) /\
     StackLength out' = StackLength out /\
     (TrustedCert out' = TrustedCert out \/ TrustedCert out' = Some NULL)) /\
  (forall d2i get1 P7Data P7Length out s out' s',
     Pkcs7GetCertificatesList d2i get1 P7Data P7Length out s = Ret ((false, out'), s') ->
     out' = out \/ (UnchainCerts out' = Some NULL /\ UnchainLength out' = Some 0)) /\
  (forall d2i P7Data P7Length out s out' s',
     Pkcs7GetSignature d2i P7Data P7Length out s = Ret ((false, out'), s') ->
     Signature out' = Signature out /\
     forall b, (b < length (heap s))%nat -> block s' (Some b) = block s (Some b)).
Proof.
  split; [|split; [|split]].
  - intros P7Data P7Length s w s' H.
    destruct (WrapPkcs7Data_FALSE _ _ _ _ _ H) as [_ ->]. repeat split.
  - apply Pkcs7GetSigners_FALSE.
  - apply Pkcs7GetCertificatesList_FALSE.
  - apply Pkcs7GetSignature_FALSE.
Qed.

Lemma outputs_on_failure_witness :
  (exists w s',
     WrapPkcs7Data Sample.P7Data 17 (Sample.memory (Sample.bare_input 1) [] [false])
     = Ret ((false, w), s') /\
     WrapData w = NULL /\ WrapFlag w = false /\ WrapDataSize w = 36) /\
  (exists out' s',
     Pkcs7GetSigners Sample.d2i_PKCS7 Sample.P7Data 20 Sample.signers_out
       (Sample.memory (Sample.input 1) [] [true; true; true; true; true; true; false])
     = Ret ((false, out'), s') /\
     (CertStack out' = Some NULL \/ CertStack out' = Some NULL) /\
     StackLength out' = Some 0 /\
     (TrustedCert out' = Some NULL \/ TrustedCert out' = Some NULL)) /\
  (exists out' s',
     Pkcs7GetCertificatesList Sample.d2i_PKCS7 Sample.get1_issuer Sample.P7Data 20
       Sample.certlist_out (Sample.memory (Sample.input 1) [] (replicate 11 true ++ [false]))
     = Ret ((false, out'), s') /\
     (out' = Sample.certlist_out \/
      (UnchainCerts out' = Some NULL /\ UnchainLength out' = Some 0))) /\
  (exists out' s',
     Pkcs7GetSignature Sample.d2i_PKCS7 Sample.P7Data 20 (mkSignatureOut (Some NULL) (Some 7))
       (Sample.memory (Sample.input 1) [[0; 0; 0; 0]] [])
     = Ret ((false, out'), s') /\
     Signature out' = Some NULL /\
     block s' (Some 1%nat) = Some [0; 0; 0; 0]).
Proof.
  destruct outputs_on_failure as (H1 & H2 & H3 & H4).
  split; [|split; [|split]].
  - eexists _, _.
    assert (Hrun : WrapPkcs7Data Sample.P7Data 17
                     (Sample.memory (Sample.bare_input 1) [] [false]) = Ret ((false, _), _))
      by (vm_compute; reflexivity).
    split; [exact Hrun|]. exact (H1 _ _ _ _ _ Hrun).
  - eexists _, _.
    assert (Hrun : Pkcs7GetSigners Sample.d2i_PKCS7 Sample.P7Data 20 Sample.signers_out
                     (Sample.memory (Sample.input 1) []
                        [true; true; true; true; true; true; false])
                   = Ret ((false, _), _)) by (vm_compute; reflexivity).
    split; [exact Hrun|]. exact (H2 _ _ _ _ _ _ _ Hrun).
  - eexists _, _.
    assert (Hrun : Pkcs7GetCertificatesList Sample.d2i_PKCS7 Sample.get1_issuer Sample.P7Data 20
                     Sample.certlist_out
                     (Sample.memory (Sample.input 1) [] (replicate 11 true ++ [false]))
                   = Ret ((false, _), _)) by (vm_compute; reflexivity).
    split; [exact Hrun|]. exact (H3 _ _ _ _ _ _ _ _ Hrun).
  - eexists _, _.
    assert (Hrun : Pkcs7GetSignature Sample.d2i_PKCS7 Sample.P7Data 20
                     (mkSignatureOut (Some NULL) (Some 7))
                     (Sample.memory (Sample.input 1) [[0; 0; 0; 0]] [])
                   = Ret ((false, _), _)) by (vm_compute; reflexivity).
    split; [exact Hrun|].
    destruct (H4 _ _ _ _ _ _ _ Hrun) as [G1 G2]. split; [exact G1|].
    apply (G2 1%nat). simpl. lia.
Defined.

(** C2, as stated, fails: Pkcs7GetSignature, called with [*Signature] NULL and
    [*SignatureLength] 7, returns FALSE with [*SignatureLength] 4, neither 0
    nor its value at entry; Pkcs7GetSigners, when the allocation of
    TrustedCert is refused, returns FALSE with [*CertLength] 5. *)
Lemma failure_changes_output_length :
  (exists out' s',
     Pkcs7GetSignature Sample.d2i_PKCS7 Sample.P7Data 20 (mkSignatureOut (Some NULL) (Some 7))
       (Sample.memory (Sample.input 1) [] [])
     = Ret ((false, out'), s') /\
     ~ (SignatureLength out' = Some 7 \/ SignatureLength out' = Some 0)) /\
  (exists out' s',
     Pkcs7GetSigners Sample.d2i_PKCS7 Sample.P7Data 20 Sample.signers_out
       (Sample.memory (Sample.input 1) [] [true; true; true; true; true; true; false])
     = Ret ((false, out'), s') /\
     CertLength Sample.signers_out = Some 0 /\ CertLength out' = Some 5).
Proof.
  split.
  - eexists _, _. split; [vm_compute; reflexivity|].
    cbn [SignatureLength]. intros [E|E]; discriminate E.
  - eexists _, _. split; [vm_compute; reflexivity|]. split; reflexivity.
Qed.

(** On the failure of the unchained list, the chain list already stored in
    the outputs stays there: the test before the reset reads CertBuf, which
    the failed allocation has just set to NULL. *)
Lemma unchained_failure_keeps_chain_outputs :
  exists s',
    Pkcs7GetCertificatesList Sample.d2i_PKCS7 Sample.get1_issuer Sample.P7Data 20
      Sample.certlist_out (Sample.memory (Sample.input 5) [] (replicate 13 true ++ [false]))
    = Ret ((false, mkCertListOut (Some (Some 2%nat)) (Some 10) (Some NULL) (Some 0)), s') /\
    block s' (Some 2%nat) = Some (1 :: cert_record Sample.Leaf).
Proof. eexists. split; vm_compute; reflexivity. Qed.

(** Pkcs7GetSigners leaves by [goto _Exit] with Status still TRUE when the
    allocation of the accumulator is refused. *)
Lemma Pkcs7GetSigners_accumulator_refused :
  Pkcs7GetSigners Sample.d2i_PKCS7 Sample.P7Data 20 Sample.signers_out
    (Sample.memory (Sample.input 1) [] [true; true; true; true; true; false])
  = Ret ((true, Sample.signers_out),
         mkState [Some (Sample.input 1); None] []).
Proof. vm_compute. reflexivity. Qed.

(** * Memory, termination and the remaining paths *)

(** ** Accounting for the blocks a call allocates *)

Ltac pick := solve [congruence | left; pick | right; pick].

Ltac sets :=
  let b := fresh "b" in let Hb := fresh "Hb" in
  intros b Hb; cbv beta in Hb |- *; unfold NULL, ptr in *; intuition pick.

Lemma fresh_NULL h0 : fresh h0 NULL.
Proof. intros q. discriminate. Qed.

Lemma tidy_refl h K : tidy h h K.
Proof.
  split; [lia|]. split; [reflexivity|].
  intros b Hb [bs Hl]. apply lookup_lt_Some in Hl. lia.
Qed.

Lemma tidy_weaken h0 h (K K' : nat -> Prop) :
  (forall b, K b -> K' b) -> tidy h0 h K -> tidy h0 h K'.
Proof. intros HK (L & F & V). split; [exact L|]. split; [exact F|]. intros b Hb Hl. apply HK, V; assumption. Qed.

Lemma request_heap s ok s' : request s = Ret (ok, s') -> heap s' = heap s.
Proof. destruct s as [h pl]. rewrite request_eq. intros [= _ <-]. reflexivity. Qed.

Lemma tidy_malloc h0 K n s p s' :
  malloc n s = Ret (p, s') -> tidy h0 (heap s) K ->
  fresh h0 p /\ tidy h0 (heap s') (fun b => K b \/ Some b = p).
Proof.
  destruct s as [h pl]. rewrite malloc_eq. intros H (L & F & V). cbn [heap] in *.
  destruct (hd true pl); injection H as <- <-; cbn [heap].
  - split; [intros q [= <-]; exact L|].
    split; [rewrite length_app; lia|]. split.
    + intros b Hb. rewrite lookup_app_l by lia. apply F. exact Hb.
    + intros b Hb [bs Hl]. destruct (decide (b = length h)) as [->|Hne]; [right; reflexivity|].
      left. apply V; [exact Hb|]. exists bs.
      assert (b < length h)%nat.
      { apply lookup_lt_Some in Hl. rewrite length_app in Hl. simpl in Hl. lia. }
      rewrite lookup_app_l in Hl by lia. exact Hl.
  - split; [apply fresh_NULL|]. split; [exact L|]. split; [exact F|].
    intros b Hb Hl. left. apply V; assumption.
Qed.

Lemma tidy_free h0 K p s u s' :
  free p s = Ret (u, s') -> fresh h0 p -> tidy h0 (heap s) K ->
  tidy h0 (heap s') (fun b => K b /\ Some b <> p).
Proof.
  unfold free. intros H Hp (L & F & V). destruct p as [q|]; injection H as _ <-; cbn [heap].
  - pose proof (Hp q eq_refl) as Hq.
    split; [rewrite length_insert; exact L|]. split.
    + intros b Hb. rewrite list_lookup_insert_ne by lia. apply F. exact Hb.
    + intros b Hb [bs Hl]. destruct (decide (b = q)) as [->|Hne].
      * exfalso. assert (q < length (heap s))%nat.
        { apply lookup_lt_Some in Hl. rewrite length_insert in Hl. exact Hl. }
        rewrite list_lookup_insert_eq in Hl by assumption. discriminate.
      * rewrite list_lookup_insert_ne in Hl by congruence.
        split; [apply V; [exact Hb|exists bs; exact Hl]|congruence].
  - split; [exact L|]. split; [exact F|]. intros b Hb Hl. split; [apply V; assumption|discriminate].
Qed.

Lemma tidy_store h0 K p off new s u s' :
  store_bytes p off new s = Ret (u, s') -> fresh h0 p -> tidy h0 (heap s) K ->
  tidy h0 (heap s') K.
Proof.
  unfold store_bytes. intros H Hp (L & F & V). destruct p as [q|]; [|discriminate].
  destruct (block s (Some q)) as [bs0|] eqn:Hb0; [|discriminate].
  destruct (decide _); [|discriminate]. injection H as _ <-. cbn [heap].
  pose proof (Hp q eq_refl) as Hq.
  split; [rewrite length_insert; exact L|]. split.
  - intros b Hb. rewrite list_lookup_insert_ne by lia. apply F. exact Hb.
  - intros b Hb [bs Hl]. apply V; [exact Hb|].
    destruct (decide (b = q)) as [->|Hne].
    + exists bs0. unfold block in Hb0. destruct (heap s !! q) as [[x|]|]; simpl in Hb0; congruence.
    + rewrite list_lookup_insert_ne in Hl by congruence. exists bs. exact Hl.
Qed.

Lemma tidy_CopyMem h0 K p doff src soff n s u s' :
  CopyMem p doff src soff n s = Ret (u, s') -> fresh h0 p -> tidy h0 (heap s) K ->
  tidy h0 (heap s') K.
Proof.
  unfold CopyMem. intros H. apply bind_inv in H as (bs & s1 & Hr & H).
  apply read_bytes_state in Hr as ->. eapply tidy_store. exact H.
Qed.

Lemma tidy_when_free h0 K (c : bool) p s u s' :
  when c (free p) s = Ret (u, s') -> (c = true -> fresh h0 p) -> tidy h0 (heap s) K ->
  tidy h0 (heap s') (fun b => K b /\ (c = true -> Some b <> p)).
Proof.
  destruct c; cbn [when]; intros H Hp HT.
  - eapply tidy_weaken; [|exact (tidy_free h0 _ _ _ _ _ H (Hp eq_refl) HT)]. sets.
  - injection H as _ <-. eapply tidy_weaken; [|exact HT]. sets.
Qed.

Lemma tidy_store_old h0 K q off new s u s' :
  store_bytes (Some q) off new s = Ret (u, s') -> (q < length h0)%nat ->
  tidy h0 (heap s) K ->
  exists x, tidy (<[q := x]> h0) (heap s') K.
Proof.
  unfold store_bytes. intros H Hq (L & F & V).
  destruct (block s (Some q)) as [bs0|]; [|discriminate].
  destruct (decide _); [|discriminate]. injection H as _ <-. cbn [heap].
  exists (Some (write_at bs0 off new)). unfold tidy. rewrite !length_insert.
  split; [exact L|]. split.
  - intros b Hb. destruct (decide (b = q)) as [->|Hne].
    + rewrite !list_lookup_insert_eq by lia. reflexivity.
    + rewrite !list_lookup_insert_ne by congruence. apply F. exact Hb.
  - intros b Hb [bs Hl]. rewrite list_lookup_insert_ne in Hl by lia.
    apply V; [exact Hb|exists bs; exact Hl].
Qed.

Lemma requests_heap n : forall s b s', requests n s = Ret (b, s') -> heap s' = heap s.
Proof.
  induction n as [|n IH]; intros s b s' H; simpl in H.
  - injection H as _ <-. reflexivity.
  - apply bind_inv in H as (ok & s1 & Hr & H). apply request_heap in Hr.
    destruct ok; [rewrite (IH _ _ _ H); exact Hr|injection H as _ <-; exact Hr].
Qed.

Lemma PKCS7_get0_signers_heap p7 s r s' :
  PKCS7_get0_signers p7 s = Ret (r, s') -> heap s' = heap s.
Proof.
  intros H. destruct (PKCS7_get0_signers_total p7 s) as (r0 & s0 & Hg & Hh & _).
  rewrite Hg in H. injection H as _ <-. exact Hh.
Qed.



Lemma WrapPkcs7Data_tidy h0 K P7Data P7Length s st w s' :
  WrapPkcs7Data P7Data P7Length s = Ret ((st, w), s') -> tidy h0 (heap s) K ->
  (WrapFlag w = true -> st = true /\ WrapData w = P7Data /\ WrapDataSize w = P7Length /\ s' = s) /\
  (WrapFlag w = false -> fresh h0 (WrapData w)) /\
  (st = false -> WrapFlag w = false /\ WrapData w = NULL) /\
  tidy h0 (heap s') (fun b => K b \/ (WrapFlag w = false /\ Some b = WrapData w)).
Proof.
  unfold WrapPkcs7Data. intros H HT.
  apply bind_inv in H as (Wrapped & s0 & Hdet & H).
  apply DetectWrapped_state in Hdet as ->.
  destruct Wrapped.
  { injection H as <- <- <-. cbn [WrapFlag WrapData WrapDataSize].
    split; [auto|]. split; [discriminate|]. split; [discriminate|].
    eapply tidy_weaken; [|exact HT]. auto. }
  cbv zeta in H. apply bind_inv in H as (q & s2 & Hm & H).
  destruct (tidy_malloc h0 K _ _ _ _ Hm HT) as [Hq HT2].
  destruct q as [q|].
  2:{ injection H as <- <- <-. cbn [WrapFlag WrapData WrapDataSize].
      split; [discriminate|]. split; [intros _; apply fresh_NULL|]. split; [auto|].
      eapply tidy_weaken; [|exact HT2]. intros b [Hb|Hb]; [left; exact Hb|discriminate]. }
  cbv beta iota in H.
  repeat match type of H with
         | bind (store_bytes _ _ _) _ _ = _ =>
             let u := fresh "u" in let sx := fresh "sx" in let Hs := fresh "Hs" in
             apply bind_inv in H as (u & sx & Hs & H);
             let HT' := fresh "HT" in
             pose proof (tidy_store h0 _ _ _ _ _ _ _ Hs Hq HT2) as HT';
             clear HT2 Hs; rename HT' into HT2
         end.
  apply bind_inv in H as (u' & sx' & Hc & H).
  apply (fun H => tidy_CopyMem h0 _ _ _ _ _ _ _ _ _ H Hq HT2) in Hc.
  injection H as <- <- <-. cbn [WrapFlag WrapData WrapDataSize].
  split; [discriminate|]. split; [intros _; exact Hq|]. split; [discriminate|].
  eapply tidy_weaken; [|exact Hc]. intros b [Hb|Hb]; [left; exact Hb|right; auto].
Qed.

Lemma X509PopCertificate_tidy h0 K st s st' r s' :
  X509PopCertificate st s = Ret ((st', r), s') -> tidy h0 (heap s) K ->
  match r with
  | None => tidy h0 (heap s') K
  | Some (p, n) => fresh h0 p /\ tidy h0 (heap s') (fun b => K b \/ Some b = p)
  end.
Proof.
  unfold X509PopCertificate. intros H HT.
  destruct st as [sk|]; [|injection H as <- <- <-; exact HT].
  destruct (sk_X509_pop sk) as [[c sk']|]; [|injection H as <- <- <-; exact HT].
  apply bind_inv in H as (ok1 & s1 & Hr1 & H). apply request_heap in Hr1.
  destruct ok1; cbn [negb] in H; [|injection H as <- <- <-; rewrite Hr1; exact HT].
  apply bind_inv in H as (ok2 & s2 & Hr2 & H). apply request_heap in Hr2.
  destruct ok2; cbn [negb] in H; [|injection H as <- <- <-; rewrite Hr2, Hr1; exact HT].
  cbv zeta in H.
  destruct (_ <=? 0); [injection H as <- <- <-; rewrite Hr2, Hr1; exact HT|].
  apply bind_inv in H as (q & s3 & Hm & H).
  rewrite <- Hr1, <- Hr2 in HT.
  destruct (tidy_malloc h0 K _ _ _ _ Hm HT) as [Hq HT3].
  destruct q as [q|].
  2:{ injection H as <- <- <-. eapply tidy_weaken; [|exact HT3].
      intros b [Hb|Hb]; [exact Hb|discriminate]. }
  cbv beta iota in H.
  apply bind_inv in H as (u & s4 & Hs & H).
  apply (fun H => tidy_store h0 _ _ _ _ _ _ _ H Hq HT3) in Hs.
  destruct (negb _).
  - apply bind_inv in H as (u' & s5 & Hf & H).
    apply (fun H => tidy_free h0 _ _ _ _ _ H Hq Hs) in Hf.
    injection H as <- <- <-. eapply tidy_weaken; [|exact Hf].
    intros b [[Hb|Hb] Hne]; [exact Hb|contradiction].
  - injection H as <- <- <-. split; [exact Hq|exact Hs].
Qed.

Lemma SerializeLoop_tidy h0 K fuel : forall l s lv l' s',
  SerializeLoop fuel l s = Ret ((lv, l'), s') ->
  OldBuf l = NULL -> SingleCert l = NULL -> fresh h0 (CertBuf l) ->
  tidy h0 (heap s) (fun b => K b \/ Some b = CertBuf l) ->
  fresh h0 (CertBuf l') /\ fresh h0 (OldBuf l') /\ fresh h0 (SingleCert l') /\
  tidy h0 (heap s')
    (fun b => K b \/ Some b = CertBuf l' \/ Some b = OldBuf l' \/ Some b = SingleCert l') /\
  match lv with
  | Break => Status l' = false /\ OldBuf l' = NULL /\ SingleCert l' = NULL
  | Goto => Status l' = true /\ CertBuf l' = NULL
  end.
Proof.
  induction fuel as [|fuel IH]; intros l s lv l' s' H HO HS HC HT; [discriminate|].
  cbn [SerializeLoop] in H.
  apply bind_inv in H as ([Stack' r] & s1 & Hpop & H).
  pose proof (X509PopCertificate_tidy h0 _ _ _ _ _ _ Hpop HT) as HP.
  destruct r as [[sc n]|].
  2:{ injection H as <- <- <-. cbn [CertBuf OldBuf SingleCert Status].
      rewrite HO, HS.
      refine (conj HC (conj (fresh_NULL _) (conj (fresh_NULL _) (conj _ _)))); [|auto].
      eapply tidy_weaken; [|exact HP]. sets. }
  destruct HP as [Hsc HT1]. cbv zeta in H.
  apply bind_inv in H as (cb & s2 & Hm & H).
  destruct (tidy_malloc h0 _ _ _ _ _ Hm HT1) as [Hcb HT2].
  destruct cb as [q|].
  2:{ injection H as <- <- <-. cbn [CertBuf OldBuf SingleCert Status].
      refine (conj (fresh_NULL _) (conj HC (conj Hsc (conj _ _)))); [|auto].
      eapply tidy_weaken; [|exact HT2]. sets. }
  cbv beta iota in H.
  apply bind_inv in H as (u0 & s3 & Hcarry & H).
  assert (HT3 : tidy h0 (heap s3) (fun b => K b \/ Some b = sc \/ b = q)).
  { destruct (CertBuf l) as [ob|] eqn:EC.
    - apply bind_inv in Hcarry as (u1 & s31 & Hcp & Hfr).
      pose proof (tidy_CopyMem h0 _ _ _ _ _ _ _ _ _ Hcp Hcb HT2) as HT31.
      pose proof (tidy_free h0 _ _ _ _ _ Hfr HC HT31) as HT32.
      eapply tidy_weaken; [|exact HT32].
      sets.
    - injection Hcarry as _ <-. eapply tidy_weaken; [|exact HT2].
      sets. }
  apply bind_inv in H as (u1 & s4 & Hst & H).
  pose proof (tidy_store h0 _ _ _ _ _ _ _ Hst Hcb HT3) as HT4.
  apply bind_inv in H as (u2 & s5 & Hcp & H).
  pose proof (tidy_CopyMem h0 _ _ _ _ _ _ _ _ _ Hcp Hcb HT4) as HT5.
  apply bind_inv in H as (u3 & s6 & Hfr & H).
  pose proof (tidy_free h0 _ _ _ _ _ Hfr Hsc HT5) as HT6.
  apply (IH _ _ _ _ _ H); cbn [CertBuf OldBuf SingleCert]; try reflexivity; try exact Hcb.
  eapply tidy_weaken; [|exact HT6].
  sets.
Qed.

Lemma GetSigners_Exit_tidy h0 (X : nat -> Prop) W P p7 l out s b out' s' :
  GetSigners_Exit W P p7 l out s = Ret ((b, out'), s') ->
  (W = false -> fresh h0 P) -> fresh h0 (CertBuf l) -> fresh h0 (OldBuf l) ->
  fresh h0 (SingleCert l) ->
  tidy h0 (heap s)
    (fun q => X q \/ (W = false /\ Some q = P) \/ Some q = CertBuf l \/
              Some q = OldBuf l \/ Some q = SingleCert l) ->
  b = Status l /\
  out' = (if negb (Status l) && notnull (CertBuf l)
          then mkSignersOut (Some NULL) (StackLength out) (TrustedCert out) (CertLength out)
          else out) /\
  tidy h0 (heap s') (fun q => X q \/ (Status l = true /\ Some q = CertBuf l)).
Proof.
  unfold GetSigners_Exit. intros H HP HC HO HS HT. cbv zeta in H.
  apply bind_inv in H as (u1 & s1 & H1 & H).
  pose proof (tidy_when_free h0 _ _ _ _ _ _ H1
                ltac:(intros E; apply HP; destruct W; [discriminate|reflexivity]) HT) as HT1.
  apply bind_inv in H as ([] & s10 & Hpf & H). apply Exit_pop_free_inv in Hpf as ->.
  apply bind_inv in H as (u2 & s2 & H2 & H).
  pose proof (tidy_when_free h0 _ _ _ _ _ _ H2 ltac:(intros _; exact HS) HT1) as HT2.
  apply bind_inv in H as (o & s3 & H3 & H).
  apply bind_inv in H as (u4 & s4 & H4 & H). injection H as <- <- <-.
  split; [reflexivity|].
  destruct (Status l) eqn:ES; cbn [negb andb] in *.
  - injection H3 as <- <-. split; [reflexivity|].
    pose proof (tidy_when_free h0 _ _ _ _ _ _ H4 ltac:(intros _; exact HO) HT2) as HT4.
    eapply tidy_weaken; [|exact HT4].
    intros q Hq. cbv beta in Hq. destruct W, (OldBuf l), (SingleCert l); cbn in Hq;
      unfold NULL in *; intuition congruence.
  - destruct (CertBuf l) as [cb|] eqn:EC; cbn [notnull] in *.
    + apply bind_inv in H3 as (u3 & s31 & Hf & H3). injection H3 as <- <-.
      split; [reflexivity|].
      pose proof (tidy_free h0 _ _ _ _ _ Hf HC HT2) as HT3.
      pose proof (tidy_when_free h0 _ _ _ _ _ _ H4 ltac:(intros _; exact HO) HT3) as HT4.
      eapply tidy_weaken; [|exact HT4].
      intros q Hq. cbv beta in Hq. destruct W, (OldBuf l), (SingleCert l); cbn in Hq;
        unfold NULL in *; intuition congruence.
    + injection H3 as <- <-. split; [reflexivity|].
      pose proof (tidy_when_free h0 _ _ _ _ _ _ H4 ltac:(intros _; exact HO) HT2) as HT4.
      eapply tidy_weaken; [|exact HT4].
      intros q Hq. cbv beta in Hq. destruct W, (OldBuf l), (SingleCert l); cbn in Hq;
        unfold NULL in *; intuition congruence.
Qed.

Lemma GetSigners_serialize_tidy h0 W P p7 st out s b out' s' :
  GetSigners_serialize W P p7 st out s = Ret ((b, out'), s') ->
  (W = false -> fresh h0 P) ->
  tidy h0 (heap s) (fun q => W = false /\ Some q = P) ->
  tidy h0 (heap s')
    (fun q => b = true /\
              (CertStack out' = Some (Some q) \/ TrustedCert out' = Some (Some q))) /\
  (forall q, CertStack out' = Some (Some q) ->
             CertStack out = Some (Some q) \/ (length h0 <= q)%nat) /\
  (forall q, TrustedCert out' = Some (Some q) ->
             TrustedCert out = Some (Some q) \/ (length h0 <= q)%nat).
Proof.
  unfold GetSigners_serialize. intros H HP HT.
  apply bind_inv in H as ([lv l] & s1 & Hloop & H).
  destruct (SerializeLoop_tidy h0 (fun q => W = false /\ Some q = P) _ _ _ _ _ _ Hloop
              eq_refl eq_refl (fresh_NULL _)) as (HC & HO & HS & HT1 & Hlv).
  { eapply tidy_weaken; [|exact HT]. sets. }
  assert (Hsame : forall q : nat, CertStack out = Some (Some q) ->
                    CertStack out = Some (Some q) \/ (length h0 <= q)%nat) by auto.
  assert (Hsame' : forall q : nat, TrustedCert out = Some (Some q) ->
                     TrustedCert out = Some (Some q) \/ (length h0 <= q)%nat) by auto.
  destruct lv.
  - destruct Hlv as (ES & EO & ESC).
    destruct (CertBuf l) as [cb|] eqn:EC.
    + apply bind_inv in H as (u & s2 & Hst & H).
      pose proof (tidy_store h0 _ _ _ _ _ _ _ Hst HC HT1) as HT2.
      cbv zeta in H. apply bind_inv in H as (t & s3 & Hm & H).
      destruct (tidy_malloc h0 _ _ _ _ _ Hm HT2) as [Ht HT3].
      destruct t as [t|].
      * apply bind_inv in H as (u' & s4 & Hcp & H).
        pose proof (tidy_CopyMem h0 _ _ _ _ _ _ _ _ _ Hcp Ht HT3) as HT4.
        destruct (GetSigners_Exit_tidy h0 (fun q => q = t) _ _ _ _ _ _ _ _ _ H HP)
          as (-> & -> & HT5); cbn [with_status CertBuf OldBuf SingleCert Status];
          try assumption.
        { rewrite EC. exact HC. }
        { eapply tidy_weaken; [|exact HT4]. rewrite EO, ESC. sets. }
        cbn [with_status CertBuf OldBuf SingleCert Status negb andb CertStack TrustedCert] in *.
        split; [eapply tidy_weaken; [|exact HT5]; sets|].
        split; intros q [= <-]; right; [apply (HC cb); reflexivity|apply (Ht t); reflexivity].
      * destruct (GetSigners_Exit_tidy h0 (fun q => False) _ _ _ _ _ _ _ _ _ H HP)
          as (-> & -> & HT5); try assumption.
        { rewrite EC. exact HC. }
        { eapply tidy_weaken; [|exact HT3]. rewrite EC, EO, ESC. sets. }
        rewrite ES, EC. cbn [negb andb notnull CertStack TrustedCert].
        split; [eapply tidy_weaken; [|exact HT5]; rewrite ES; sets|].
        split; intros q; discriminate.
    + destruct (GetSigners_Exit_tidy h0 (fun q => False) _ _ _ _ _ _ _ _ _ H HP)
        as (-> & -> & HT5); try assumption.
      { rewrite EC. exact HC. }
      { eapply tidy_weaken; [|exact HT1]. rewrite EC, EO, ESC. sets. }
      rewrite ES, EC. cbn [negb andb notnull].
      split; [eapply tidy_weaken; [|exact HT5]; rewrite ES; sets|].
      split; assumption.
  - destruct Hlv as (ES & EC).
    destruct (GetSigners_Exit_tidy h0 (fun q => False) _ _ _ _ _ _ _ _ _ H HP)
      as (-> & -> & HT5); try assumption.
    { eapply tidy_weaken; [|exact HT1]. sets. }
    rewrite ES, EC. cbn [negb andb notnull].
    split; [eapply tidy_weaken; [|exact HT5]; rewrite EC; sets|].
    split; assumption.
Qed.




(** ** WrapPkcs7Data on buffers of at least 17 bytes *)

Lemma WrapPkcs7Data_cases (s : state) (P7Data : ptr) (B : list Z) :
  block s P7Data = Some B -> (17 <= length B)%nat -> Z.of_nat (length B) + 19 < 2^64 ->
  let L := Z.of_nat (length B) in
  WrapPkcs7Data P7Data L s
  = if is_wrapped B then Ret ((true, mkWrapOut true P7Data L), s)
    else if hd true (plan s)
         then Ret ((true, mkWrapOut false (Some (length (heap s))) (L + 19)),
                   mkState (heap s ++ [Some (wrap_header L ++ B)]) (tl (plan s)))
         else Ret ((false, mkWrapOut false NULL (L + 19)), mkState (heap s) (tl (plan s))).
Proof.
  intros HB Hlen Hsz L. pose proof (DetectWrapped_spec s P7Data B HB Hlen) as Hdet.
  destruct (is_wrapped B) eqn:E.
  - unfold WrapPkcs7Data. rewrite (bind_Ret _ _ _ _ _ Hdet). reflexivity.
  - destruct (hd true (plan s)) eqn:Hg.
    + apply WrapPkcs7Data_bare; assumption.
    + unfold WrapPkcs7Data. rewrite (bind_Ret _ _ _ _ _ Hdet). cbv zeta.
      destruct s as [h pl]. cbn [plan heap] in *.
      erewrite bind_Ret by (rewrite malloc_eq, Hg; reflexivity).
      unfold UINTN. rewrite (Z.mod_small (L + 19)) by (unfold L; lia). reflexivity.
Qed.

(** X1. On a buffer of at least 17 bytes WrapPkcs7Data does not fault and has
    one of three outcomes.  A buffer that carries the ContentInfo pattern
    (06 09 at offsets 4 and 5, the OID at 6 to 14, A0 82 at 15 and 16) is handed
    back as it is, with WrapFlag TRUE and nothing allocated.  Any other buffer
    is copied behind the 19-byte header into a new block when the allocation
    is granted.  When the allocation is refused the call returns FALSE with
    [*WrapData] NULL and the heap as it was. *)
Theorem WrapPkcs7Data_classifies (s : state) (P7Data : ptr) (B : list Z) :
  block s P7Data = Some B -> (17 <= length B)%nat -> Z.of_nat (length B) + 19 < 2^64 ->
  let L := Z.of_nat (length B) in
  WrapPkcs7Data P7Data L s
  = if is_wrapped B then Ret ((true, mkWrapOut true P7Data L), s)
    else if hd true (plan s)
         then Ret ((true, mkWrapOut false (Some (length (heap s))) (L + 19)),
                   mkState (heap s ++ [Some (wrap_header L ++ B)]) (tl (plan s)))
         else Ret ((false, mkWrapOut false NULL (L + 19)), mkState (heap s) (tl (plan s))).
Proof. exact (WrapPkcs7Data_cases s P7Data B). Qed.

Lemma WrapPkcs7Data_classifies_witness :
  WrapPkcs7Data Sample.P7Data 17 (Sample.memory (Sample.bare_input 1) [] [false])
  = Ret ((false, mkWrapOut false NULL 36), mkState [Some (Sample.bare_input 1)] []) /\
  WrapPkcs7Data Sample.P7Data 20 (Sample.memory (Sample.input 1) [] [false])
  = Ret ((true, mkWrapOut true Sample.P7Data 20), Sample.memory (Sample.input 1) [] [false]).
Proof.
  split.
  - apply (WrapPkcs7Data_classifies (Sample.memory (Sample.bare_input 1) [] [false])
             Sample.P7Data (Sample.bare_input 1)); [reflexivity|simpl; lia|simpl; lia].
  - apply (WrapPkcs7Data_classifies (Sample.memory (Sample.input 1) [] [false])
             Sample.P7Data (Sample.input 1)); [reflexivity|simpl; lia|simpl; lia].
Defined.

Lemma be16_decode v :
  0 <= v -> exists hi lo, be16 v = [hi; lo] /\ 256 * hi + lo = v mod 2^16.
Proof.
  intros Hv. exists (v / 256 mod 256), (v mod 256). split; [reflexivity|].
  change (2^16) with (256 * 256). rewrite Z.rem_mul_r by lia. lia.
Qed.

(** X2. The two length fields of the synthesized header are 16 bits wide:
    bytes 2 and 3 hold [L + 15] and bytes 17 and 18 hold [L], both modulo 2^16,
    most significant byte first.  They state the real lengths (the size of the
    new buffer minus 4, and [L]) exactly when the input has at most 65520
    bytes. *)
Theorem WrapPkcs7Data_length_fields (s : state) (P7Data : ptr) (B : list Z) :
  block s P7Data = Some B -> (17 <= length B)%nat -> Z.of_nat (length B) + 19 < 2^64 ->
  is_wrapped B = false -> next_granted s ->
  let L := Z.of_nat (length B) in
  exists q s' out b2 b3 b17 b18,
    WrapPkcs7Data P7Data L s = Ret ((true, mkWrapOut false (Some q) (L + 19)), s') /\
    block s' (Some q) = Some out /\
    out !! 2%nat = Some b2 /\ out !! 3%nat = Some b3 /\
    out !! 17%nat = Some b17 /\ out !! 18%nat = Some b18 /\
    256 * b2 + b3 = (L + 15) mod 2^16 /\
    256 * b17 + b18 = L mod 2^16 /\
    (256 * b2 + b3 = Z.of_nat (length out) - 4 /\ 256 * b17 + b18 = L <-> L <= 65520).
Proof.
  intros HB Hlen Hsz Hw Hg L.
  pose proof (WrapPkcs7Data_cases s P7Data B HB Hlen Hsz) as Hrun. cbv zeta in Hrun.
  rewrite Hw in Hrun. unfold next_granted in Hg. rewrite Hg in Hrun. fold L in Hrun.
  destruct (be16_decode (L + 15) ltac:(lia)) as (b2 & b3 & E1 & D1).
  destruct (be16_decode L ltac:(lia)) as (b17 & b18 & E2 & D2).
  exists (length (heap s)), (mkState (heap s ++ [Some (wrap_header L ++ B)]) (tl (plan s))),
         (wrap_header L ++ B), b2, b3, b17, b18.
  split; [exact Hrun|]. split; [apply block_last|].
  unfold wrap_header. rewrite E1, E2.
  split; [reflexivity|]. split; [reflexivity|]. split; [reflexivity|]. split; [reflexivity|].
  split; [exact D1|]. split; [exact D2|].
  rewrite D1, D2, length_app. simpl length.
  pose proof (Z.mod_pos_bound (L + 15) (2^16) ltac:(lia)).
  pose proof (Z.mod_pos_bound L (2^16) ltac:(lia)).
  split.
  - intros [F1 F2]. lia.
  - intros Hle. rewrite !Z.mod_small by lia. lia.
Qed.

Lemma WrapPkcs7Data_length_fields_witness :
  exists q s' out b2 b3 b17 b18,
    WrapPkcs7Data Sample.P7Data 17 (Sample.memory (Sample.bare_input 1) [] [])
    = Ret ((true, mkWrapOut false (Some q) 36), s') /\
    block s' (Some q) = Some out /\
    out !! 2%nat = Some b2 /\ out !! 3%nat = Some b3 /\
    out !! 17%nat = Some b17 /\ out !! 18%nat = Some b18 /\
    256 * b2 + b3 = 32 /\ 256 * b17 + b18 = 17.
Proof.
  destruct (WrapPkcs7Data_length_fields (Sample.memory (Sample.bare_input 1) [] [])
              Sample.P7Data (Sample.bare_input 1))
    as (q & s' & out & b2 & b3 & b17 & b18 & H1 & H2 & H3 & H4 & H5 & H6 & H7 & H8 & _).
  - reflexivity.
  - simpl. lia.
  - simpl. lia.
  - reflexivity.
  - reflexivity.
  - exists q, s', out, b2, b3, b17, b18. repeat (split; [assumption|]). exact H8.
Defined.

Lemma block_heap s s' p : heap s' = heap s -> block s' p = block s p.
Proof. unfold block. intros ->. reflexivity. Qed.

Lemma read_bytes_inv p off n s bs s' b :
  read_bytes p off n s = Ret (bs, s') -> block s p = Some b ->
  bs = take n (drop off b) /\ s' = s.
Proof.
  unfold read_bytes. intros H Hb. rewrite Hb in H.
  destruct (decide _); [|discriminate]. injection H as <- <-. auto.
Qed.

(** WrapPkcs7Data, when it returns TRUE on a buffer of at least 17 bytes, hands
    over the envelope and keeps the caller's blocks. *)
Lemma WrapPkcs7Data_TRUE_inv s P7Data B w s1 :
  block s P7Data = Some B -> (17 <= length B)%nat -> Z.of_nat (length B) + 19 < 2^64 ->
  WrapPkcs7Data P7Data (Z.of_nat (length B)) s = Ret ((true, w), s1) ->
  WrapFlag w = is_wrapped B /\
  WrapDataSize w = Z.of_nat (length (envelope B)) /\
  block s1 (WrapData w) = Some (envelope B) /\
  (forall p bs, block s p = Some bs -> block s1 p = Some bs) /\
  (WrapFlag w = false -> WrapData w = Some (length (heap s)) /\
                         heap s1 = heap s ++ [Some (envelope B)]) /\
  (WrapFlag w = true -> s1 = s).
Proof.
  intros HB Hlen Hsz H.
  rewrite (WrapPkcs7Data_cases s P7Data B HB Hlen Hsz) in H.
  unfold envelope. destruct (is_wrapped B).
  - injection H as <- <-. cbn [WrapFlag WrapData WrapDataSize].
    split; [reflexivity|]. split; [reflexivity|]. split; [exact HB|].
    split; [auto|]. split; [discriminate|reflexivity].
  - destruct (hd true (plan s)); [|discriminate]. injection H as <- <-.
    cbn [WrapFlag WrapData WrapDataSize heap].
    split; [reflexivity|]. split; [rewrite length_app, wrap_header_length; lia|].
    split; [apply block_last|]. split; [|split; [auto|discriminate]].
    intros [p|] bs Hp; [|discriminate]. destruct s as [h pl].
    rewrite (block_plan _ _ pl). apply block_app_l. exact Hp.
Qed.

(** ** X509PopCertificate and the serializer loop *)

(** X3. X509PopCertificate on a non-empty stack always removes the top
    certificate, whether it succeeds or not.  It returns the encoding in a new
    block, with its length, exactly when the encoding has 1 to INT_MAX bytes
    and its three allocation requests (BIO_new, i2d_X509_bio, malloc) are
    granted; otherwise it returns FALSE and leaves the heap as it was. *)
Theorem X509PopCertificate_pops (s : state) (sk : list X509) (c : X509) :
  sized c ->
  exists r s',
    X509PopCertificate (Some (sk ++ [c])) s = Ret ((Some sk, r), s') /\
    match r with
    | Some (p, n) =>
        encodable c /\ granted 3 (plan s) /\
        p = Some (length (heap s)) /\ n = Z.of_nat (length (x_der c)) /\
        heap s' = heap s ++ [Some (x_der c)]
    | None => heap s' = heap s /\ ~ (encodable c /\ granted 3 (plan s))
    end.
Proof.
  intros Hc. destruct s as [h pl]. cbn [heap plan].
  destruct (X509PopCertificate_cases h pl sk c Hc) as [[pl' Hrun]|[He Hg]].
  - exists None, (mkState h pl'). split; [exact Hrun|]. split; [reflexivity|].
    intros [He Hg]. rewrite (X509PopCertificate_ok h pl sk c Hg He) in Hrun. discriminate.
  - eexists (Some (_, _)), _. split; [apply X509PopCertificate_ok; assumption|].
    split; [exact He|]. split; [exact Hg|]. repeat split.
Qed.

Lemma X509PopCertificate_pops_witness :
  exists r s',
    X509PopCertificate (Some ([Sample.Root] ++ [Sample.Leaf])) (mkState [] [true; false])
    = Ret ((Some [Sample.Root], r), s') /\
    r = None /\ heap s' = [].
Proof.
  destruct (X509PopCertificate_pops (mkState [] [true; false]) [Sample.Root] Sample.Leaf)
    as (r & s' & Hrun & Hr).
  - unfold sized, INT_MAX. simpl. lia.
  - exists r, s'. split; [exact Hrun|].
    assert (E : X509PopCertificate (Some ([Sample.Root] ++ [Sample.Leaf]))
                  (mkState [] [true; false]) = Ret ((Some [Sample.Root], None), mkState [] []))
      by (vm_compute; reflexivity).
    rewrite E in Hrun. injection Hrun as <- <-. split; reflexivity.
Defined.

(** X4. Whatever the allocations do, the serializer loop returns.  When it
    leaves by [break], the accumulator holds the records of a prefix, in pop
    order, of the stack; [Index] is their number modulo 256, [BufferSize] is 1
    plus their sizes, and the accumulator is NULL exactly when nothing was
    popped.  When it leaves by [goto], the allocation of the accumulator having
    been refused, [CertBuf] is NULL and [Status] is TRUE. *)
Theorem serializer_consistent (sk : list X509) (s : state) :
  Forall sized sk -> 1 + records_size sk < 2^64 ->
  exists lv l s',
    SerializeLoop (stack_fuel (Some sk)) (mkLocals false 0 NULL NULL 1 1 NULL (Some sk)) s
    = Ret ((lv, l), s') /\
    match lv with
    | Break =>
        exists done,
          done `prefix_of` reverse sk /\
          Index l = UINT8 (Z.of_nat (length done)) /\
          BufferSize l = 1 + records_size done /\
          holds s' (CertBuf l) (cert_records done) /\
          (CertBuf l = NULL <-> done = [])
    | Goto => CertBuf l = NULL /\ Status l = true
    end.
Proof.
  intros Hall Hb. destruct s as [h pl].
  destruct (SerializeLoop_total (reverse sk) (stack_fuel (Some sk))
              (mkLocals false 0 NULL NULL 1 1 NULL (Some sk)) h pl [])
    as (lv & l & h' & pl' & Hrun & _ & Hlv).
  - cbn [Stack]. rewrite reverse_involutive. reflexivity.
  - unfold stack_fuel. rewrite length_reverse. simpl. lia.
  - apply Forall_reverse. exact Hall.
  - reflexivity.
  - reflexivity.
  - cbn [BufferSize]. rewrite records_size_reverse. lia.
  - reflexivity.
  - reflexivity.
  - cbn [Index]. lia.
  - exists lv, l, (mkState h' pl'). split; [exact Hrun|].
    destruct lv.
    + destruct Hlv as (done & Hp & _ & HI & HB & HH & _ & _ & H0 & H1 & _).
      exists done. cbn [Index BufferSize CertBuf] in *. simpl app in HH.
      split; [exact Hp|]. split; [exact HI|]. split; [exact HB|]. split; [exact HH|].
      split.
      * intros EN. destruct done as [|x done]; [reflexivity|].
        destruct (H1 ltac:(discriminate)) as (q & Hq & _). rewrite Hq in EN. discriminate.
      * intros ->. apply (H0 eq_refl).
    + destruct Hlv as (HC & HS & _). split; assumption.
Qed.

Lemma serializer_consistent_witness :
  exists lv l s',
    SerializeLoop 3 (mkLocals false 0 NULL NULL 1 1 NULL (Some [Sample.Root; Sample.Leaf]))
      (mkState [] [true; true; true; true; true; true; false])
    = Ret ((lv, l), s').
Proof.
  destruct (serializer_consistent [Sample.Root; Sample.Leaf]
              (mkState [] [true; true; true; true; true; true; false]))
    as (lv & l & s' & Hrun & _).
  - repeat constructor; unfold sized, INT_MAX; simpl; lia.
  - simpl. lia.
  - exists lv, l, s'. exact Hrun.
Defined.

Lemma granted_app_true n pl : granted n (replicate n true ++ pl).
Proof.
  unfold granted. rewrite take_app_length' by (symmetry; apply length_replicate).
  apply Forall_forall. intros x Hx. apply elem_of_replicate in Hx as [-> _]. reflexivity.
Qed.

Lemma tl4_replicate n pl :
  tl (tl (tl (tl (replicate (4 * S n) true ++ pl)))) = replicate (4 * n) true ++ pl.
Proof. replace (4 * S n)%nat with (S (S (S (S (4 * n))))) by lia. reflexivity. Qed.

Lemma SerializeLoop_refused good : forall fuel l h pl0 acc rest bad,
  Stack l = Some ((rest ++ [bad]) ++ reverse good) -> (length good < fuel)%nat ->
  Forall encodable good ->
  holds (mkState h (replicate (4 * length good) true ++ false :: pl0)) (CertBuf l) acc ->
  BufferSize l = Z.of_nat (length (0 :: acc)) ->
  BufferSize l + records_size good < 2^64 ->
  0 <= Index l < 256 ->
  exists l' h',
    SerializeLoop fuel l (mkState h (replicate (4 * length good) true ++ false :: pl0))
    = Ret ((Break, l'), mkState h' pl0) /\
    Stack l' = Some rest /\
    Index l' = UINT8 (Index l + Z.of_nat (length good)) /\
    BufferSize l' = BufferSize l + records_size good /\
    holds (mkState h' pl0) (CertBuf l') (acc ++ cert_records good) /\
    (good <> [] -> exists q, CertBuf l' = Some q).
Proof.
  induction good as [|c good IH]; intros fuel l h pl0 acc rest bad Hsk Hfuel Hall Hh Hsz Hb Hi.
  - destruct fuel as [|fuel]; [simpl in Hfuel; lia|].
    cbn [SerializeLoop]. cbn [reverse] in Hsk. rewrite app_nil_r in Hsk. rewrite Hsk.
    simpl replicate. cbn [app].
    assert (Hpop : X509PopCertificate (Some (rest ++ [bad])) (mkState h (false :: pl0))
                   = Ret ((Some rest, None), mkState h pl0)).
    { unfold X509PopCertificate. rewrite sk_X509_pop_app. reflexivity. }
    rewrite (bind_Ret _ _ _ _ _ Hpop).
    eexists _, h. split; [reflexivity|]. cbn [Stack Index BufferSize CertBuf].
    simpl length. simpl records_size. rewrite app_nil_r.
    split; [reflexivity|]. split; [unfold UINT8; rewrite Z.add_0_r, Z.mod_small by lia; reflexivity|].
    split; [lia|]. split; [destruct (CertBuf l); exact Hh|]. intros []; reflexivity.
  - destruct fuel as [|fuel]; [simpl in Hfuel; lia|].
    rewrite reverse_cons, app_assoc in Hsk. inversion Hall as [|? ? Hc Hall']; subst.
    simpl records_size in Hb. pose proof (records_size_nonneg good) as Hnn.
    simpl length in *.
    rewrite (SerializeLoop_step fuel l h _ _ c acc Hsk Hc
               (granted_le 4 (4 * S (length good)) _ ltac:(lia) (granted_app_true _ _)) Hh Hsz) by lia.
    rewrite tl4_replicate.
    set (h1 := (release (CertBuf l) h ++ [None]) ++ [Some ((0 :: acc) ++ cert_record c)]).
    assert (Hlen1 : length (release (CertBuf l) h ++ [None]) = S (length h))
      by (rewrite length_app, length_release; simpl; lia).
    destruct (IH fuel
                (mkLocals true (UINT8 (Index l + 1)) (Some (S (length h))) NULL
                   (BufferSize l + Z.of_nat (length (x_der c)) + 4) (BufferSize l) NULL
                   (Some ((rest ++ [bad]) ++ reverse good)))
                h1 pl0 (acc ++ cert_record c) rest bad)
      as (l' & h' & Hrun & HS & HI & HB & HH & HQ).
    + reflexivity.
    + lia.
    + assumption.
    + cbn [CertBuf holds]. rewrite <- Hlen1. apply block_last.
    + cbn [BufferSize]. rewrite Hsz. simpl length. rewrite length_app.
      pose proof (cert_record_length c). lia.
    + cbn [BufferSize]. lia.
    + cbn [Index]. unfold UINT8. apply Z.mod_pos_bound. lia.
    + exists l', h'. cbn [Index BufferSize CertBuf] in *.
      split; [exact Hrun|]. split; [exact HS|].
      split; [rewrite HI, UINT8_succ; f_equal; lia|].
      split; [rewrite HB; simpl records_size; lia|].
      split; [change (cert_records (c :: good)) with (cert_record c ++ cert_records good);
              rewrite app_assoc; exact HH|].
      intros _. destruct good as [|c' good'].
      * cbn [SerializeLoop] in Hrun. destruct fuel; [lia|]. cbn [SerializeLoop Stack] in Hrun.
        cbn [reverse] in Hrun. rewrite app_nil_r in Hrun.
        simpl replicate in Hrun. cbn [app] in Hrun.
        assert (Hpop : X509PopCertificate (Some (rest ++ [bad])) (mkState h1 (false :: pl0))
                       = Ret ((Some rest, None), mkState h1 pl0)).
        { unfold X509PopCertificate. rewrite sk_X509_pop_app. reflexivity. }
        rewrite (bind_Ret _ _ _ _ _ Hpop) in Hrun. injection Hrun as <- _.
        eexists; reflexivity.
      * apply HQ. discriminate.
Qed.

(** X5. The loop takes a failed pop for the end of the stack.  When BIO_new
    is refused at the pop of a certificate, after the certificates [good] have
    been popped and serialized, the loop breaks with the records of [good]
    alone: the certificate is consumed, and those under it stay on the stack
    and are not serialized. *)
Theorem serializer_stops_at_refused_pop (rest good : list X509) (bad : X509)
    (h : list (option (list Z))) (pl0 : list bool) :
  Forall encodable good -> 1 + records_size good < 2^64 ->
  let sk := (rest ++ [bad]) ++ reverse good in
  exists l h',
    SerializeLoop (stack_fuel (Some sk)) (mkLocals false 0 NULL NULL 1 1 NULL (Some sk))
      (mkState h (replicate (4 * length good) true ++ false :: pl0))
    = Ret ((Break, l), mkState h' pl0) /\
    Stack l = Some rest /\
    Index l = UINT8 (Z.of_nat (length good)) /\
    BufferSize l = 1 + records_size good /\
    holds (mkState h' pl0) (CertBuf l) (cert_records good).
Proof.
  intros Hall Hb sk.
  destruct (SerializeLoop_refused good (stack_fuel (Some sk))
              (mkLocals false 0 NULL NULL 1 1 NULL (Some sk)) h pl0 [] rest bad)
    as (l & h' & Hrun & HS & HI & HB & HH & _); try reflexivity; try assumption.
  - subst sk. unfold stack_fuel. simpl. rewrite !length_app, length_reverse. simpl. lia.
  - cbn [Index]. lia.
  - exists l, h'. split; [exact Hrun|]. split; [exact HS|]. split; [exact HI|].
    split; [exact HB|exact HH].
Qed.

Lemma serializer_stops_at_refused_pop_witness :
  exists l h',
    SerializeLoop 4 (mkLocals false 0 NULL NULL 1 1 NULL
                       (Some [Sample.Root; Sample.Intermediate; Sample.Leaf]))
      (mkState [] [true; true; true; true; false])
    = Ret ((Break, l), mkState h' []) /\
    Stack l = Some [Sample.Root] /\ Index l = 1 /\ BufferSize l = 10 /\
    holds (mkState h' []) (CertBuf l) (cert_record Sample.Leaf).
Proof.
  destruct (serializer_stops_at_refused_pop [Sample.Root] [Sample.Leaf] Sample.Intermediate
              [] []) as (l & h' & H1 & H2 & H3 & H4 & H5).
  - repeat constructor; unfold INT_MAX; simpl; lia.
  - simpl. lia.
  - exists l, h'. split; [exact H1|]. split; [exact H2|]. split; [exact H3|].
    split; [exact H4|]. rewrite <- (app_nil_r (cert_record Sample.Leaf)). exact H5.
Defined.

(** ** Pkcs7GetSigners and Pkcs7FreeSigners *)

Lemma get0_signers_loop_granted certs sinfos : forall found signers h pl,
  Forall2 (signer_of certs) sinfos found ->
  all_granted (mkState h pl) ->
  exists pl',
    get0_signers_loop sinfos (Some certs) signers (mkState h pl)
    = Ret (Some (signers ++ found), mkState h pl') /\
    all_granted (mkState h pl').
Proof.
  induction sinfos as [|si rest IH]; intros found signers h pl HF Hg.
  - inversion HF; subst. exists pl. rewrite app_nil_r. split; [reflexivity|exact Hg].
  - inversion HF as [|? c ? found' Hc HF']; subst. cbn [get0_signers_loop mbind option_bind].
    unfold signer_of in Hc. rewrite Hc.
    rewrite (bind_Ret _ _ _ _ _ (sk_X509_push_eq signers c h pl)).
    destruct (all_granted_hd h pl Hg) as [-> Hg'].
    destruct (IH found' (signers ++ [c]) h (tl pl) HF' (Hg' h)) as (pl' & Hrun & Hg2).
    exists pl'. rewrite Hrun, <- app_assoc. split; [reflexivity|exact Hg2].
Qed.

Lemma PKCS7_get0_signers_granted p7 sinfos certs found h pl :
  type_is_signed p7 = true -> sign_signer_info p7 = Some sinfos -> sinfos <> [] ->
  sign_cert p7 = Some certs -> Forall2 (signer_of certs) sinfos found ->
  all_granted (mkState h pl) ->
  exists pl',
    PKCS7_get0_signers p7 (mkState h pl) = Ret (Some found, mkState h pl') /\
    all_granted (mkState h pl').
Proof.
  intros Hty Hsi Hne Hc HF Hg. unfold PKCS7_get0_signers, PKCS7_get_signer_info.
  rewrite Hty, Hsi. cbn [negb]. destruct sinfos as [|si rest]; [contradiction|].
  rewrite (bind_Ret _ _ _ _ _ (request_eq h pl)).
  destruct (all_granted_hd h pl Hg) as [-> Hg']. rewrite Hc.
  destruct (get0_signers_loop_granted certs (si :: rest) found [] h (tl pl) HF (Hg' h))
    as (pl' & Hrun & Hg2).
  exists pl'. split; [exact Hrun|exact Hg2].
Qed.

Lemma cert_records_snoc l c :
  cert_records (l ++ [c]) = (cert_records l ++ le32 (Z.of_nat (length (x_der c)))) ++ x_der c.
Proof.
  rewrite cert_records_app. change (cert_records [c]) with (cert_record c ++ []).
  rewrite app_nil_r. unfold cert_record. rewrite app_assoc. reflexivity.
Qed.

Lemma GetSigners_serialize_granted W N p7 first tail out h pl :
  Forall encodable (first :: tail) -> 1 + records_size (first :: tail) < 2^64 ->
  all_granted (mkState h pl) ->
  (W = false -> exists n, N = Some n /\ (n < length h)%nat) ->
  exists q t s',
    GetSigners_serialize W N p7 (Some (first :: tail)) out (mkState h pl)
    = Ret ((true, mkSignersOut (Some (Some q)) (Some (1 + records_size (first :: tail)))
                    (Some (Some t)) (Some (Z.of_nat (length (x_der first))))), s') /\
    block s' (Some q)
    = Some (UINT8 (Z.of_nat (length (first :: tail))) :: cert_records (reverse (first :: tail))) /\
    block s' (Some t) = Some (x_der first).
Proof.
  intros Henc Hb Hg HN. set (found := first :: tail) in *.
  set (pops := reverse found).
  assert (Hpops : pops = reverse tail ++ [first]) by (unfold pops, found; apply reverse_cons).
  assert (Henc' : Forall encodable pops) by (apply Forall_reverse; exact Henc).
  assert (Hrs : records_size pops = records_size found) by apply records_size_reverse.
  unfold GetSigners_serialize.
  destruct (SerializeLoop_granted pops (stack_fuel (Some found))
              (mkLocals false 0 NULL NULL 1 1 NULL (Some found)) h pl [])
    as (l & h' & pl' & Hrun & HS & HI & HB & HH & HO & HSC & HStk & Hg' & _ & HL & HF).
  { cbn [Stack]. unfold pops. rewrite reverse_involutive. reflexivity. }
  { unfold stack_fuel, pops. rewrite length_reverse. simpl. lia. }
  { exact Henc'. }
  { exact Hg. }
  { reflexivity. }
  { reflexivity. }
  { cbn [BufferSize]. lia. }
  { reflexivity. }
  { reflexivity. }
  { cbn [Index]. lia. }
  rewrite (bind_Ret _ _ _ _ _ Hrun).
  assert (Hdr : default [] (Stack (with_status true l)) = [])
    by (cbn [with_status Stack]; rewrite HStk; reflexivity).
  destruct (HL first) as (HOS & q & Hq & Hql & Hqu).
  { rewrite Hpops. apply last_snoc. }
  cbn [Index BufferSize] in HI, HB. simpl app in HH.
  rewrite Hq in *. cbn [holds] in HH.
  destruct (store_count _ q _ (Index l) HH) as ([h2 pl2] & Hst & Hblk & Hpl & Hlen2 & Hoth).
  cbn [heap plan] in Hpl, Hlen2, Hoth. subst pl2.
  rewrite (bind_Ret _ _ _ _ _ Hst). cbv zeta.
  assert (Hfirst : 0 < Z.of_nat (length (x_der first)) <= INT_MAX).
  { inversion Henc; assumption. }
  assert (HCL : UINTN (BufferSize l - OldSize l - 4) = Z.of_nat (length (x_der first))).
  { rewrite HOS. unfold UINTN. rewrite Z.mod_small; unfold INT_MAX in *; lia. }
  rewrite HCL.
  assert (Hg2 : all_granted (mkState h2 pl')) by exact Hg'.
  rewrite (bind_Ret _ _ _ _ _ (malloc_granted _ _ (all_granted_next _ Hg2))).
  cbn [heap plan]. rewrite Nat2Z.id.
  assert (Hoff : Z.to_nat (OldSize l + 4)
                 = length (Index l :: cert_records (reverse tail)
                             ++ le32 (Z.of_nat (length (x_der first))))).
  { rewrite HOS, HB, Hrs. unfold found. simpl records_size. simpl length.
    rewrite length_app, le32_length.
    pose proof (cert_records_length (reverse tail)) as E.
    rewrite records_size_reverse in E. lia. }
  assert (Hbs : Index l :: cert_records pops
                = (Index l :: cert_records (reverse tail)
                     ++ le32 (Z.of_nat (length (x_der first)))) ++ x_der first).
  { rewrite Hpops, cert_records_snoc. reflexivity. }
  assert (Hblk' : block (mkState h2 (tl pl')) (Some q) = Some (Index l :: cert_records pops))
    by (rewrite (block_plan _ _ pl'); exact Hblk).
  unfold CopyMem. rewrite ?Nat2Z.id.
  assert (Hrd : read_bytes (Some q) (Z.to_nat (OldSize l + 4)) (length (x_der first))
                  (mkState (h2 ++ [Some (replicate (length (x_der first)) 0)]) (tl pl'))
                = Ret (x_der first,
                       mkState (h2 ++ [Some (replicate (length (x_der first)) 0)]) (tl pl'))).
  { unfold read_bytes. rewrite (block_app_l _ _ _ _ _ Hblk'), Hbs, Hoff.
    rewrite decide_True by (rewrite length_app; lia).
    rewrite drop_app_length, firstn_all. reflexivity. }
  erewrite bind_Ret by (rewrite (bind_Ret _ _ _ _ _ Hrd); apply store_bytes_fresh).
  set (s4 := mkState (h2 ++ [Some (x_der first)]) (tl pl')).
  match goal with
  | |- context [GetSigners_Exit W N p7 ?l0 ?o ?s0] =>
      destruct (GetSigners_Exit_total W N p7 l0 o s0 Hdr) as (s' & He)
  end.
  assert (Hs' : heap s' = heap s4 \/
                exists n, (n < length h)%nat /\ heap s' = <[n := None]> (heap s4)).
  { unfold GetSigners_Exit in He.
    cbn [with_status SingleCert OldBuf CertBuf Status Stack] in He.
    rewrite HSC, HO, HStk in He. cbn [notnull when negb andb sk_X509_pop_free] in He.
    destruct W; cbn [negb when] in He.
    - injection He as <-. left. reflexivity.
    - destruct (HN eq_refl) as (n & -> & Hn). injection He as <-. right.
      exists n. split; [exact Hn|reflexivity]. }
  exists q, (length h2), s'.
  rewrite He. cbn [with_status Status negb andb]. rewrite HB, Hrs.
  split; [reflexivity|].
  assert (Hq4 : block s4 (Some q)
                = Some (UINT8 (Z.of_nat (length found)) :: cert_records pops)).
  { unfold s4. rewrite (block_app_l _ _ _ _ _ Hblk'), HI. unfold pops.
    rewrite length_reverse. reflexivity. }
  assert (Ht4 : block s4 (Some (length h2)) = Some (x_der first)) by apply block_last.
  destruct Hs' as [E|(n & Hn & E)].
  - unfold block in *. rewrite E. split; [exact Hq4|exact Ht4].
  - unfold block in *. rewrite E, !list_lookup_insert_ne by lia. split; [exact Hq4|exact Ht4].
Qed.

Section Signers.

Variable d2i_PKCS7 : list Z -> option PKCS7.

(** X6. Pkcs7GetSigners on a well-formed input whose signer infos each match
    an embedded certificate, with every allocation granted, returns TRUE.
    [*CertStack] is a buffer of [*StackLength] bytes, 1 plus 4 and the length
    for each signer, that holds the number of signers modulo 256 and then the
    signers' records in pop order, the certificate of the last signer info
    first.  [*TrustedCert] is another buffer, which holds the encoding of the
    certificate of the first signer info, the last record of the list, and
    [*CertLength] is its length. *)
Theorem Pkcs7GetSigners_layout (s : state) (P7Data : ptr) (B : list Z) (p7 : PKCS7)
    (sinfos : list PKCS7_SIGNER_INFO) (certs : list X509) (first : X509) (tail : list X509)
    (a c : ptr) (b d : Z) :
  block s P7Data = Some B -> (17 <= length B)%nat ->
  Z.of_nat (length B) + 19 <= INT_MAX -> all_granted s ->
  d2i_PKCS7 (envelope B) = Some p7 -> type_is_signed p7 = true ->
  sign_signer_info p7 = Some sinfos -> sign_cert p7 = Some certs ->
  Forall2 (signer_of certs) sinfos (first :: tail) ->
  Forall encodable (first :: tail) -> 1 + records_size (first :: tail) < 2^64 ->
  exists q t s',
    Pkcs7GetSigners d2i_PKCS7 P7Data (Z.of_nat (length B))
      (mkSignersOut (Some a) (Some b) (Some c) (Some d)) s
    = Ret ((true, mkSignersOut (Some (Some q)) (Some (1 + records_size (first :: tail)))
                    (Some (Some t)) (Some (Z.of_nat (length (x_der first))))), s') /\
    block s' (Some q)
    = Some (UINT8 (Z.of_nat (length (first :: tail)))
              :: cert_records (reverse (first :: tail))) /\
    block s' (Some t) = Some (x_der first).
Proof.
  intros HB Hlen Hmax Hg Hd Hty Hsi Hc HF Henc Hbound.
  destruct P7Data as [p|]; [|discriminate].
  unfold INT_MAX in Hmax.
  destruct (WrapPkcs7Data_envelope s (Some p) B HB Hlen ltac:(lia) (all_granted_next _ Hg))
    as (w & [h1 pl1] & Hw & Hfl & Hsz & Hblk & Hcase).
  pose proof (envelope_length B) as Hel.
  assert (Hg1 : all_granted (mkState h1 pl1)).
  { destruct (is_wrapped B).
    - destruct Hcase as [<- _]. exact Hg.
    - destruct Hcase as [E _]. injection E as -> ->. destruct s as [h pl].
      apply all_granted_tail with (h := h). exact Hg. }
  assert (HN : WrapFlag w = false -> exists n, WrapData w = Some n /\ (n < length h1)%nat).
  { intros EW. rewrite Hfl in EW. rewrite EW in Hcase. destruct Hcase as [E ->].
    injection E as -> _. eexists. split; [reflexivity|]. rewrite length_app. simpl. lia. }
  assert (Hne : sinfos <> []) by (intros ->; inversion HF).
  destruct (PKCS7_get0_signers_granted p7 sinfos certs (first :: tail) h1 pl1
              Hty Hsi Hne Hc HF Hg1) as (pl2 & Hsig & Hg2).
  destruct (GetSigners_serialize_granted (WrapFlag w) (WrapData w) (Some p7) first tail
              (mkSignersOut (Some a) (Some b) (Some c) (Some d)) h1 pl2 Henc Hbound Hg2 HN)
    as (q & t & s' & Hrun & Hq & Ht).
  exists q, t, s'. split; [|split; assumption].
  unfold Pkcs7GetSigners. cbn [notnull negb orb CertStack StackLength TrustedCert CertLength].
  rewrite gtb_false by (unfold INT_MAX; lia).
  rewrite (bind_Ret _ _ _ _ _ Hw). cbn [fst snd negb]. cbv zeta.
  rewrite Hsz, gtb_false by (unfold INT_MAX; lia).
  rewrite <- Hsz.
  rewrite (bind_Ret _ _ _ _ _ (read_bytes_all _ _ _ _ Hblk Hsz)).
  rewrite Hd, Hty. cbn [negb].
  rewrite (bind_Ret _ _ _ _ _ Hsig). exact Hrun.
Qed.

End Signers.

Lemma Pkcs7GetSigners_layout_witness :
  exists q t s',
    Pkcs7GetSigners Sample.d2i_PKCS7 Sample.P7Data 20 Sample.signers_out
      (Sample.memory (Sample.input 1) [] [])
    = Ret ((true, mkSignersOut (Some (Some q)) (Some 10) (Some (Some t)) (Some 5)), s') /\
    block s' (Some q) = Some (1 :: cert_record Sample.Leaf) /\
    block s' (Some t) = Some (x_der Sample.Leaf).
Proof.
  destruct (Pkcs7GetSigners_layout Sample.d2i_PKCS7 (Sample.memory (Sample.input 1) [] [])
              Sample.P7Data (Sample.input 1)
              (Sample.signed [Sample.Intermediate; Sample.Leaf; Sample.Root] [Sample.signer_info])
              [Sample.signer_info] [Sample.Intermediate; Sample.Leaf; Sample.Root]
              Sample.Leaf [] NULL NULL 0 0) as (q & t & s' & H1 & H2 & H3).
  - reflexivity.
  - simpl. lia.
  - unfold INT_MAX. simpl. lia.
  - constructor.
  - vm_compute. reflexivity.
  - reflexivity.
  - reflexivity.
  - reflexivity.
  - repeat constructor.
  - repeat constructor; unfold INT_MAX; simpl; lia.
  - simpl. lia.
  - exists q, t, s'. split; [exact H1|]. split; [|exact H3].
    rewrite H2. vm_compute. reflexivity.
Defined.

(** X7. When the allocation of the accumulator is refused inside the loop of
    Pkcs7GetSigners, the function leaves by [goto _Exit] with [Status] still
    TRUE from X509PopCertificate.  If the certificate just popped was the last
    of the stack, the call returns TRUE, and the four outputs are as the
    caller had them.  If certificates are left on the stack, _Exit releases
    the first of them a second time: PKCS7_free releases the certificates of
    the decoded structure, from which the stack of PKCS7_get0_signers borrows
    its own, and sk_X509_pop_free (Stack, X509_free) releases what the stack
    still holds. *)
Theorem accumulator_refusal_at_Exit (W : bool) (P : ptr) (p7 : option PKCS7)
    (st : option (list X509)) (out : SignersOut) (s s1 : state) (l : locals) :
  SerializeLoop (stack_fuel st) (mkLocals false 0 NULL NULL 1 1 NULL st) s
  = Ret ((Goto, l), s1) ->
  match default [] (Stack l) with
  | [] => exists s', GetSigners_serialize W P p7 st out s = Ret ((true, out), s')
  | c :: _ =>
      x_ptr c ∈ map x_ptr (PKCS7_free p7) ->
      GetSigners_serialize W P p7 st out s = Crash (DoubleFree (x_ptr c))
  end.
Proof.
  intros Hloop. unfold GetSigners_serialize. rewrite (bind_Ret _ _ _ _ _ Hloop).
  destruct (SerializeLoop_tidy (heap s) (fun _ => False) _ _ _ _ _ _ Hloop
              eq_refl eq_refl (fresh_NULL _)) as (_ & _ & _ & _ & ES & EC).
  { eapply tidy_weaken; [|apply (tidy_refl _ (fun _ => False))]. sets. }
  destruct (default [] (Stack l)) as [|c r] eqn:Hst.
  - destruct (GetSigners_Exit_total W P p7 l out s1 Hst) as (s' & He).
    exists s'. rewrite He, ES, EC. reflexivity.
  - intros Hin. apply (GetSigners_Exit_crash W P p7 l out s1 c r); [|exact Hin].
    destruct (Stack l) as [sk|]; [|discriminate]. simpl in Hst. rewrite Hst. reflexivity.
Qed.

Lemma accumulator_refusal_witness :
  let p7 := Some (Sample.signed [Sample.Intermediate; Sample.Leaf; Sample.Root]
                    [Sample.signer_info]) in
  (exists s',
     GetSigners_serialize true NULL p7 (Some [Sample.Leaf]) Sample.signers_out
       (mkState [] [true; true; true; false])
     = Ret ((true, Sample.signers_out), s')) /\
  GetSigners_serialize true NULL p7 (Some [Sample.Leaf; Sample.Intermediate])
    Sample.signers_out (mkState [] [true; true; true; false])
  = Crash (DoubleFree (x_ptr Sample.Leaf)).
Proof.
  intros p7.
  assert (Hrun : SerializeLoop (stack_fuel (Some [Sample.Leaf]))
                   (mkLocals false 0 NULL NULL 1 1 NULL (Some [Sample.Leaf]))
                   (mkState [] [true; true; true; false]) = Ret ((Goto, _), _))
    by (vm_compute; reflexivity).
  assert (Hrun2 : SerializeLoop (stack_fuel (Some [Sample.Leaf; Sample.Intermediate]))
                    (mkLocals false 0 NULL NULL 1 1 NULL
                       (Some [Sample.Leaf; Sample.Intermediate]))
                    (mkState [] [true; true; true; false]) = Ret ((Goto, _), _))
    by (vm_compute; reflexivity).
  split.
  - exact (accumulator_refusal_at_Exit true NULL p7 (Some [Sample.Leaf]) Sample.signers_out
             _ _ _ Hrun).
  - apply (accumulator_refusal_at_Exit true NULL p7 (Some [Sample.Leaf; Sample.Intermediate])
             Sample.signers_out _ _ _ Hrun2).
    apply (bool_decide_unpack _). vm_compute. reflexivity.
Defined.

Section MemorySigners.

Variable d2i_PKCS7 : list Z -> option PKCS7.

Lemma Pkcs7GetSigners_tidy P7Data P7Length out s b out' s' :
  Pkcs7GetSigners d2i_PKCS7 P7Data P7Length out s = Ret ((b, out'), s') ->
  tidy (heap s) (heap s')
    (fun q => b = true /\
              (CertStack out' = Some (Some q) \/ TrustedCert out' = Some (Some q))) /\
  (forall q, CertStack out' = Some (Some q) ->
             CertStack out = Some (Some q) \/ (length (heap s) <= q)%nat) /\
  (forall q, TrustedCert out' = Some (Some q) ->
             TrustedCert out = Some (Some q) \/ (length (heap s) <= q)%nat).
Proof.
  unfold Pkcs7GetSigners. intros H.
  assert (Hsame : forall q : nat, CertStack out = Some (Some q) ->
                    CertStack out = Some (Some q) \/ (length (heap s) <= q)%nat) by auto.
  assert (Hsame' : forall q : nat, TrustedCert out = Some (Some q) ->
                     TrustedCert out = Some (Some q) \/ (length (heap s) <= q)%nat) by auto.
  destruct (_ || _).
  { injection H as <- <- <-. split; [|split; assumption].
    eapply tidy_weaken; [|apply (tidy_refl _ (fun _ => False))]. sets. }
  apply bind_inv in H as ([st w] & s1 & Hw & H). cbn [fst snd] in H. cbv zeta in H.
  destruct (WrapPkcs7Data_tidy (heap s) _ _ _ _ _ _ _ Hw (tidy_refl _ (fun _ => False)))
    as (_ & Hfr & Hfalse & HT1).
  destruct st; cbn [negb] in H.
  2:{ injection H as <- <- <-. destruct (Hfalse eq_refl) as [_ EN].
      split; [|split; assumption].
      eapply tidy_weaken; [|exact HT1]. rewrite EN. sets. }
  assert (Hexit : forall p7 s2, heap s2 = heap s1 ->
            GetSigners_Exit (WrapFlag w) (WrapData w) p7
              (mkLocals false 0 NULL NULL 0 0 NULL None) out s2 = Ret ((b, out'), s') ->
            tidy (heap s) (heap s')
              (fun q => b = true /\
                 (CertStack out' = Some (Some q) \/ TrustedCert out' = Some (Some q))) /\
            (forall q, CertStack out' = Some (Some q) ->
                       CertStack out = Some (Some q) \/ (length (heap s) <= q)%nat) /\
            (forall q, TrustedCert out' = Some (Some q) ->
                       TrustedCert out = Some (Some q) \/ (length (heap s) <= q)%nat)).
  { clear H. intros p7 s2 Hs2 He. rewrite <- Hs2 in HT1.
    destruct (GetSigners_Exit_tidy (heap s) (fun q => False) _ _ _ _ _ _ _ _ _ He Hfr)
      as (-> & -> & HT5); cbn [CertBuf OldBuf SingleCert Status]; try apply fresh_NULL.
    { eapply tidy_weaken; [|exact HT1]. sets. }
    cbn [CertBuf OldBuf SingleCert Status negb andb notnull] in *.
    split; [|split; assumption]. eapply tidy_weaken; [|exact HT5]. sets. }
  destruct (_ >? _); [exact (Hexit _ _ eq_refl H)|].
  apply bind_inv in H as (der & s2 & Hrd & H). apply read_bytes_state in Hrd as ->.
  destruct (d2i_PKCS7 der) as [p7|]; [|exact (Hexit _ _ eq_refl H)].
  destruct (negb (type_is_signed p7)); [exact (Hexit _ _ eq_refl H)|].
  apply bind_inv in H as (st0 & s3 & Hg & H). apply PKCS7_get0_signers_heap in Hg.
  destruct st0 as [sk|]; [|exact (Hexit _ _ Hg H)].
  rewrite <- Hg in HT1.
  apply (GetSigners_serialize_tidy (heap s) _ _ _ _ _ _ _ _ _ H Hfr).
  eapply tidy_weaken; [|exact HT1]. sets.
Qed.

(** X8. Pkcs7GetSigners neither changes nor releases a block that existed at
    the call.  Of the blocks it allocates, the only ones still allocated at the
    return are, on TRUE, those it hands out through [*CertStack] and
    [*TrustedCert].  An output pointer is what the caller had there or a block
    allocated by the call. *)
Theorem Pkcs7GetSigners_memory (P7Data : ptr) (P7Length : Z) (out out' : SignersOut)
    (s s' : state) (b : bool) :
  Pkcs7GetSigners d2i_PKCS7 P7Data P7Length out s = Ret ((b, out'), s') ->
  tidy (heap s) (heap s')
    (fun q => b = true /\
              (CertStack out' = Some (Some q) \/ TrustedCert out' = Some (Some q))) /\
  (forall q, CertStack out' = Some (Some q) ->
             CertStack out = Some (Some q) \/ (length (heap s) <= q)%nat) /\
  (forall q, TrustedCert out' = Some (Some q) ->
             TrustedCert out = Some (Some q) \/ (length (heap s) <= q)%nat).
Proof. apply Pkcs7GetSigners_tidy. Qed.

(** X9. After any return of Pkcs7GetSigners called with [*CertStack] and
    [*TrustedCert] NULL, passing the two outputs to Pkcs7FreeSigners releases
    all that the call allocated and touches nothing else; Pkcs7FreeSigners
    accepts the NULL that a failed call leaves there. *)
Theorem Pkcs7FreeSigners_releases P7Data P7Length out s b out' s1 :
  CertStack out = Some NULL -> TrustedCert out = Some NULL ->
  Pkcs7GetSigners d2i_PKCS7 P7Data P7Length out s = Ret ((b, out'), s1) ->
  exists s2,
    (Pkcs7FreeSigners (default NULL (CertStack out')) ;;
     Pkcs7FreeSigners (default NULL (TrustedCert out'))) s1 = Ret (tt, s2) /\
    tidy (heap s) (heap s2) (fun _ => False).
Proof.
  intros E1 E2 H. destruct (Pkcs7GetSigners_tidy _ _ _ _ _ _ _ H) as (HT & F1 & F2).
  assert (Hfree : forall p, Pkcs7FreeSigners p = free p) by (intros [?|]; reflexivity).
  rewrite !Hfree.
  destruct (free_total (default NULL (CertStack out')) s1) as (s2 & Hf1 & _).
  destruct (free_total (default NULL (TrustedCert out')) s2) as (s3 & Hf2 & _).
  exists s3. split; [rewrite (bind_Ret _ _ _ _ _ Hf1); exact Hf2|].
  assert (N1 : fresh (heap s) (default NULL (CertStack out'))).
  { intros q Eq. destruct (CertStack out') as [[c|]|]; try discriminate.
    injection Eq as ->. destruct (F1 q eq_refl) as [E|E]; [rewrite E1 in E; discriminate E|exact E]. }
  assert (N2 : fresh (heap s) (default NULL (TrustedCert out'))).
  { intros q Eq. destruct (TrustedCert out') as [[c|]|]; try discriminate.
    injection Eq as ->. destruct (F2 q eq_refl) as [E|E]; [rewrite E2 in E; discriminate E|exact E]. }
  pose proof (tidy_free _ _ _ _ _ _ Hf1 N1 HT) as HT2.
  pose proof (tidy_free _ _ _ _ _ _ Hf2 N2 HT2) as HT3.
  eapply tidy_weaken; [|exact HT3].
  cbv beta. intros q [[[_ [E|E]] Hn1] Hn2]; [apply Hn1|apply Hn2]; rewrite E; reflexivity.
Qed.

End MemorySigners.

Lemma Pkcs7GetSigners_memory_witness :
  exists b out' s',
    Pkcs7GetSigners Sample.d2i_PKCS7 Sample.P7Data 17 Sample.signers_out
      (Sample.memory (Sample.bare_input 1) [] []) = Ret ((b, out'), s') /\
    tidy [Some (Sample.bare_input 1)] (heap s')
      (fun q => b = true /\
                (CertStack out' = Some (Some q) \/ TrustedCert out' = Some (Some q))).
Proof.
  eexists _, _, _.
  assert (Hrun : Pkcs7GetSigners Sample.d2i_PKCS7 Sample.P7Data 17 Sample.signers_out
                   (Sample.memory (Sample.bare_input 1) [] []) = Ret ((_, _), _))
    by (vm_compute; reflexivity).
  split; [exact Hrun|].
  exact (proj1 (Pkcs7GetSigners_memory Sample.d2i_PKCS7 _ _ _ _ _ _ _ Hrun)).
Defined.

Lemma Pkcs7FreeSigners_releases_witness :
  exists s2,
    (Pkcs7FreeSigners (Some 3%nat) ;; Pkcs7FreeSigners (Some 4%nat))
      (mkState [Some (Sample.bare_input 1); None; None; Some (1 :: cert_record Sample.Leaf);
                Some (x_der Sample.Leaf)] [])
    = Ret (tt, s2) /\
    tidy [Some (Sample.bare_input 1)] (heap s2) (fun _ => False).
Proof.
  assert (Hrun : Pkcs7GetSigners Sample.d2i_PKCS7 Sample.P7Data 17 Sample.signers_out
                   (Sample.memory (Sample.bare_input 1) [] [])
                 = Ret ((true, mkSignersOut (Some (Some 3%nat)) (Some 10) (Some (Some 4%nat))
                                 (Some 5)),
                        mkState [Some (Sample.bare_input 1); None; None;
                                 Some (1 :: cert_record Sample.Leaf);
                                 Some (x_der Sample.Leaf)] []))
    by (vm_compute; reflexivity).
  exact (Pkcs7FreeSigners_releases Sample.d2i_PKCS7 Sample.P7Data 17 Sample.signers_out
           _ _ _ _ eq_refl eq_refl Hrun).
Defined.

(** ** Pkcs7GetCertificatesList *)

Lemma sk_X509_delete_ptr_length sk c :
  c ∈ sk -> S (length (sk_X509_delete_ptr sk c)) = length sk.
Proof.
  induction sk as [|a sk IH]; intros Hc; [inversion Hc|]. simpl.
  destruct (decide (x_ptr a = x_ptr c)) as [E|Hne]; [reflexivity|].
  simpl. f_equal. apply IH. apply elem_of_cons in Hc as [->|Hc]; [congruence|exact Hc].
Qed.

Lemma sk_X509_delete_ptr_subset sk c x : x ∈ sk_X509_delete_ptr sk c -> x ∈ sk.
Proof.
  induction sk as [|a sk IH]; simpl; [auto|].
  destruct (decide (x_ptr a = x_ptr c)); intros Hx.
  - right. exact Hx.
  - apply elem_of_cons in Hx as [->|Hx]; [left|right; apply IH; exact Hx].
Qed.

Lemma ChainWalk_fuel get1 fuel : forall ctx Cert chain un s,
  (length un < fuel)%nat ->
  exists wk issuers un' s',
    ChainWalk get1 fuel ctx Cert chain (Some un) s
    = Ret ((wk, chain ++ issuers, Some un'), s') /\
    heap s' = heap s /\
    (length issuers + length un')%nat = length un /\
    linked Cert issuers /\
    (forall x, x ∈ issuers ++ un' -> x ∈ un).
Proof.
  induction fuel as [|fuel IH]; intros ctx Cert chain un s Hfuel; [lia|].
  cbn [ChainWalk]. cbv zeta.
  destruct (match get1 ctx Cert with Some _ => _ | None => _ end).
  { exists WalkDone, [], un, s. rewrite app_nil_r. repeat split; auto. }
  destruct (X509_find_by_subject un (x_issuer Cert)) as [Issuer|] eqn:Hfind.
  2:{ exists WalkDone, [], un, s. rewrite app_nil_r. repeat split; auto. }
  apply X509_find_by_subject_elem in Hfind as [Hin Hsub].
  pose proof (sk_X509_delete_ptr_length un Issuer Hin) as Hlen.
  destruct s as [h pl]. rewrite (bind_Ret _ _ _ _ _ (sk_X509_push_eq chain Issuer h pl)).
  destruct (hd true pl).
  - destruct (IH ctx Issuer (chain ++ [Issuer]) (sk_X509_delete_ptr un Issuer) (mkState h (tl pl)))
      as (wk & issuers & un' & s' & Hrun & Hh & Hl & Hlk & Hsub'); [lia|].
    exists wk, (Issuer :: issuers), un', s'.
    split; [rewrite Hrun, <- app_assoc; reflexivity|]. split; [exact Hh|].
    split; [simpl; lia|]. split; [split; assumption|].
    intros x Hx. apply elem_of_cons in Hx as [->|Hx]; [exact Hin|].
    eapply sk_X509_delete_ptr_subset. apply Hsub'. exact Hx.
  - exists WalkError, [], un, (mkState h (tl pl)). rewrite app_nil_r. repeat split; auto.
Qed.

(** X10. The chain walk of Pkcs7GetCertificatesList terminates, whatever the
    issuer names are, cycles included, and whatever the allocations do: every
    turn that goes on moves one certificate from the untrusted pool to the
    chain, so one turn more than the pool has certificates is enough.  Each
    certificate appended has as subject the issuer name of the one before, and
    comes from the pool; the heap is not touched. *)
Theorem ChainWalk_terminates (get1 : X509_STORE_CTX -> X509 -> option X509)
    (ctx : X509_STORE_CTX) (Cert : X509) (chain un : list X509) (s : state) :
  exists wk issuers un' s',
    ChainWalk get1 (stack_fuel (Some un)) ctx Cert chain (Some un) s
    = Ret ((wk, chain ++ issuers, Some un'), s') /\
    heap s' = heap s /\
    (length issuers + length un')%nat = length un /\
    linked Cert issuers /\
    (forall x, x ∈ issuers ++ un' -> x ∈ un).
Proof. apply ChainWalk_fuel. unfold stack_fuel. simpl. lia. Qed.

Lemma last_cons_indep {A} (l : list A) : forall x d d',
  List.last (x :: l) d = List.last (x :: l) d'.
Proof.
  induction l as [|a l IH]; intros x d d'; [reflexivity|].
  change (List.last (a :: l) d = List.last (a :: l) d'). apply IH.
Qed.

Section WalkChain.

Variable get1 : X509_STORE_CTX -> X509 -> option X509.

Lemma walk_chain_spec fuel : forall ctx Cert un,
  (length un < fuel)%nat -> NoDup (map x_ptr un) ->
  let r := walk_chain get1 fuel ctx Cert un in
  un ≡ₚ r.1 ++ r.2 /\
  linked Cert r.1 /\
  (self_issued get1 ctx (List.last r.1 Cert) = true \/
   X509_find_by_subject r.2 (x_issuer (List.last r.1 Cert)) = None).
Proof.
  induction fuel as [|fuel IH]; intros ctx Cert un Hfuel Hnd; [lia|].
  cbn [walk_chain]. fold (self_issued get1 ctx Cert).
  destruct (self_issued get1 ctx Cert) eqn:Hself.
  { cbn. split; [reflexivity|]. split; [exact I|]. left. exact Hself. }
  destruct (X509_find_by_subject un (x_issuer Cert)) as [Issuer|] eqn:Hfind.
  2:{ cbn. split; [reflexivity|]. split; [exact I|]. right. exact Hfind. }
  apply X509_find_by_subject_elem in Hfind as [Hin Hsub].
  pose proof (sk_X509_delete_ptr_perm un Issuer Hnd Hin) as Hperm.
  destruct (IH ctx Issuer (sk_X509_delete_ptr un Issuer)) as (Hp & Hl & Hm).
  - apply Permutation_length in Hperm. simpl in Hperm. lia.
  - assert (Hp2 : map x_ptr un ≡ₚ x_ptr Issuer :: map x_ptr (sk_X509_delete_ptr un Issuer))
      by (rewrite Hperm at 1; reflexivity).
    rewrite Hp2 in Hnd. inversion Hnd; assumption.
  - cbn [fst snd]. split; [rewrite Hperm at 1; simpl; rewrite Hp at 1; reflexivity|].
    split; [split; assumption|].
    set (r := walk_chain get1 fuel ctx Issuer (sk_X509_delete_ptr un Issuer)) in *.
    change (List.last (Issuer :: r.1) Cert) with
      (match r.1 with [] => Issuer | _ :: _ => List.last r.1 Cert end).
    destruct (r.1) as [|x l] eqn:E; [exact Hm|].
    rewrite (last_cons_indep l x Cert Issuer). exact Hm.
Qed.

End WalkChain.

Section Lists.

Variable d2i_PKCS7 : list Z -> option PKCS7.
Variable X509_STORE_CTX_get1_issuer : X509_STORE_CTX -> X509 -> option X509.

Lemma pool_NoDup certs Signer :
  NoDup (map x_ptr certs) -> Signer ∈ certs ->
  NoDup (map x_ptr (sk_X509_delete_ptr certs Signer)).
Proof.
  intros Hnd Hin. pose proof (sk_X509_delete_ptr_perm certs Signer Hnd Hin) as Hperm.
  assert (Hp2 : map x_ptr certs ≡ₚ x_ptr Signer :: map x_ptr (sk_X509_delete_ptr certs Signer))
    by (rewrite Hperm at 1; reflexivity).
  rewrite Hp2 in Hnd. inversion Hnd; assumption.
Qed.

(** X11. In a call on a well-formed, wrapped single-signer input with every
    allocation granted, each embedded certificate object is serialized exactly
    once: the certificates of the chain list and those of the unchained list
    are, together, a permutation of the embedded set, and the signer's
    certificate is the last record of the chain list. *)
Theorem Pkcs7GetCertificatesList_partition (s : state) (P7Data : ptr) (B : list Z)
    (p7 : PKCS7) (si : PKCS7_SIGNER_INFO) (certs : list X509) (Signer : X509)
    (a c : ptr) (b d : Z) :
  block s P7Data = Some B -> is_wrapped B = true ->
  Z.of_nat (length B) <= INT_MAX -> all_granted s ->
  d2i_PKCS7 B = Some p7 -> type_is_signed p7 = true ->
  sign_signer_info p7 = Some [si] -> sign_cert p7 = Some certs ->
  X509_find_by_issuer_and_serial certs (si_issuer si) (si_serial si) = Some Signer ->
  NoDup (map x_ptr certs) -> Forall encodable certs -> 1 + records_size certs < 2^64 ->
  exists issuers un out' s',
    Pkcs7GetCertificatesList d2i_PKCS7 X509_STORE_CTX_get1_issuer P7Data
      (Z.of_nat (length B)) (mkCertListOut (Some a) (Some b) (Some c) (Some d)) s
    = Ret ((true, out'), s') /\
    listed s' (SignerChainCerts out') (ChainLength out') (reverse (Signer :: issuers)) /\
    listed s' (UnchainCerts out') (UnchainLength out') (reverse un) /\
    certs ≡ₚ Signer :: issuers ++ un.
Proof.
  intros HB Hlen Hmax Hg Hd Hty Hsi Hc Hf Hnd Henc Hbound.
  destruct (CertList_granted d2i_PKCS7 X509_STORE_CTX_get1_issuer s P7Data B p7 si certs
              Signer a b c d HB Hlen Hmax Hg Hd Hty Hsi Hc Hf Hnd Henc Hbound)
    as (out' & s' & Hrun & L1 & L2).
  pose proof (X509_find_by_issuer_and_serial_elem _ _ _ _ Hf) as Hin.
  destruct (walk_chain_spec X509_STORE_CTX_get1_issuer
              (S (length (sk_X509_delete_ptr certs Signer)))
              (mkCtx Signer (Some certs) None) Signer (sk_X509_delete_ptr certs Signer)
              ltac:(lia) (pool_NoDup certs Signer Hnd Hin)) as (Hp & _ & _).
  eexists _, _, out', s'. split; [exact Hrun|]. split; [exact L1|]. split; [exact L2|].
  rewrite (sk_X509_delete_ptr_perm certs Signer Hnd Hin) at 1. rewrite Hp at 1. reflexivity.
Qed.

(** X12. In such a call the embedded certificate objects that the chain list
    holds are, from its last record to its first, the signer's certificate
    followed by issuers linked by name: the subject of each is the issuer name
    of the one before.  The chain is as long as the pool allows: its end is a
    certificate that X509_STORE_CTX_get1_issuer finds self-issued, or none of
    the embedded certificates left for the unchained list has the issuer name
    of that end as its subject. *)
Theorem Pkcs7GetCertificatesList_chain_linked (s : state) (P7Data : ptr) (B : list Z)
    (p7 : PKCS7) (si : PKCS7_SIGNER_INFO) (certs : list X509) (Signer : X509)
    (a c : ptr) (b d : Z) :
  block s P7Data = Some B -> is_wrapped B = true ->
  Z.of_nat (length B) <= INT_MAX -> all_granted s ->
  d2i_PKCS7 B = Some p7 -> type_is_signed p7 = true ->
  sign_signer_info p7 = Some [si] -> sign_cert p7 = Some certs ->
  X509_find_by_issuer_and_serial certs (si_issuer si) (si_serial si) = Some Signer ->
  NoDup (map x_ptr certs) -> Forall encodable certs -> 1 + records_size certs < 2^64 ->
  exists issuers un out' s',
    Pkcs7GetCertificatesList d2i_PKCS7 X509_STORE_CTX_get1_issuer P7Data
      (Z.of_nat (length B)) (mkCertListOut (Some a) (Some b) (Some c) (Some d)) s
    = Ret ((true, out'), s') /\
    listed s' (SignerChainCerts out') (ChainLength out') (reverse (Signer :: issuers)) /\
    listed s' (UnchainCerts out') (UnchainLength out') (reverse un) /\
    certs ≡ₚ Signer :: issuers ++ un /\
    linked Signer issuers /\
    (self_issued X509_STORE_CTX_get1_issuer (mkCtx Signer (Some certs) None)
       (List.last issuers Signer) = true \/
     X509_find_by_subject un (x_issuer (List.last issuers Signer)) = None).
Proof.
  intros HB Hlen Hmax Hg Hd Hty Hsi Hc Hf Hnd Henc Hbound.
  destruct (CertList_granted d2i_PKCS7 X509_STORE_CTX_get1_issuer s P7Data B p7 si certs
              Signer a b c d HB Hlen Hmax Hg Hd Hty Hsi Hc Hf Hnd Henc Hbound)
    as (out' & s' & Hrun & L1 & L2).
  pose proof (X509_find_by_issuer_and_serial_elem _ _ _ _ Hf) as Hin.
  destruct (walk_chain_spec X509_STORE_CTX_get1_issuer
              (S (length (sk_X509_delete_ptr certs Signer)))
              (mkCtx Signer (Some certs) None) Signer (sk_X509_delete_ptr certs Signer)
              ltac:(lia) (pool_NoDup certs Signer Hnd Hin)) as (Hp & Hl & Hm).
  eexists _, _, out', s'. split; [exact Hrun|]. split; [exact L1|]. split; [exact L2|].
  split; [|split; [exact Hl|exact Hm]].
  rewrite (sk_X509_delete_ptr_perm certs Signer Hnd Hin) at 1. rewrite Hp at 1. reflexivity.
Qed.

End Lists.

Lemma Pkcs7GetCertificatesList_partition_witness :
  exists issuers un out' s',
    Pkcs7GetCertificatesList Sample.d2i_PKCS7 Sample.get1_issuer Sample.P7Data 20
      Sample.certlist_out (Sample.memory (Sample.input 5) [] [])
    = Ret ((true, out'), s') /\
    listed s' (SignerChainCerts out') (ChainLength out') (reverse (Sample.Leaf :: issuers)) /\
    listed s' (UnchainCerts out') (UnchainLength out') (reverse un) /\
    [Sample.Leaf; Sample.Root] ≡ₚ Sample.Leaf :: issuers ++ un.
Proof.
  refine (Pkcs7GetCertificatesList_partition Sample.d2i_PKCS7 Sample.get1_issuer
            (Sample.memory (Sample.input 5) [] []) Sample.P7Data (Sample.input 5)
            (Sample.signed [Sample.Leaf; Sample.Root] [Sample.signer_info])
            Sample.signer_info [Sample.Leaf; Sample.Root] Sample.Leaf NULL NULL 0 0
            _ _ _ _ _ _ _ _ _ _ _ _).
  - reflexivity.
  - vm_compute. reflexivity.
  - unfold INT_MAX. simpl. lia.
  - constructor.
  - vm_compute. reflexivity.
  - reflexivity.
  - reflexivity.
  - reflexivity.
  - vm_compute. reflexivity.
  - apply (bool_decide_unpack _). vm_compute. reflexivity.
  - repeat constructor; unfold INT_MAX; simpl; lia.
  - simpl. lia.
Defined.

Lemma Pkcs7GetCertificatesList_chain_linked_witness :
  exists issuers un out' s',
    Pkcs7GetCertificatesList Sample.d2i_PKCS7 Sample.get1_issuer Sample.P7Data 20
      Sample.certlist_out (Sample.memory (Sample.input 1) [] [])
    = Ret ((true, out'), s') /\
    listed s' (SignerChainCerts out') (ChainLength out') (reverse (Sample.Leaf :: issuers)) /\
    listed s' (UnchainCerts out') (UnchainLength out') (reverse un) /\
    linked Sample.Leaf issuers.
Proof.
  destruct (Pkcs7GetCertificatesList_chain_linked Sample.d2i_PKCS7 Sample.get1_issuer
              (Sample.memory (Sample.input 1) [] []) Sample.P7Data (Sample.input 1)
              (Sample.signed [Sample.Intermediate; Sample.Leaf; Sample.Root] [Sample.signer_info])
              Sample.signer_info [Sample.Intermediate; Sample.Leaf; Sample.Root]
              Sample.Leaf NULL NULL 0 0)
    as (issuers & un & out' & s' & H1 & H2 & H3 & _ & H4 & _).
  - reflexivity.
  - vm_compute. reflexivity.
  - unfold INT_MAX. simpl. lia.
  - constructor.
  - vm_compute. reflexivity.
  - reflexivity.
  - reflexivity.
  - reflexivity.
  - vm_compute. reflexivity.
  - apply (bool_decide_unpack _). vm_compute. reflexivity.
  - repeat constructor; unfold INT_MAX; simpl; lia.
  - simpl. lia.
  - exists issuers, un, out', s'. repeat (split; [assumption|]). exact H4.
Defined.

Section MemoryCertList.

Variable d2i_PKCS7 : list Z -> option PKCS7.
Variable X509_STORE_CTX_get1_issuer : X509_STORE_CTX -> X509 -> option X509.


End MemoryCertList.


(** ** Pkcs7Verify *)

Lemma requests_granted n : forall h pl,
  all_granted (mkState h pl) ->
  exists pl', requests n (mkState h pl) = Ret (true, mkState h pl') /\
              all_granted (mkState h pl').
Proof.
  induction n as [|n IH]; intros h pl Hg; simpl.
  - exists pl. split; [reflexivity|exact Hg].
  - rewrite (bind_Ret _ _ _ _ _ (request_eq h pl)).
    destruct (all_granted_hd h pl Hg) as [-> Hg']. apply IH, Hg'.
Qed.

Section Verify.

Variable d2i_PKCS7 : list Z -> option PKCS7.
Variable d2i_X509 : list Z -> option X509.
Variable PKCS7_verify : PKCS7 -> X509 -> list Z -> bool.

(** X14. Whatever the allocations do, Pkcs7Verify returns TRUE only if the
    envelope of the input decodes to a SignedData, the first [CertLength]
    bytes of the trusted certificate decode, and PKCS7_verify accepts the first
    [DataLength] bytes of the content under that certificate. *)
Theorem Pkcs7Verify_TRUE (s s' : state) (P7Data TrustedCert InData : ptr)
    (B Tb Db : list Z) (CertLength DataLength : Z) :
  block s P7Data = Some B -> (17 <= length B)%nat ->
  block s TrustedCert = Some Tb -> block s InData = Some Db ->
  Pkcs7Verify d2i_PKCS7 d2i_X509 PKCS7_verify P7Data (Z.of_nat (length B))
    TrustedCert CertLength InData DataLength s = Ret (true, s') ->
  exists p7 cert,
    d2i_PKCS7 (envelope B) = Some p7 /\ type_is_signed p7 = true /\
    d2i_X509 (take (Z.to_nat CertLength) Tb) = Some cert /\
    PKCS7_verify p7 cert (take (Z.to_nat DataLength) Db) = true.
Proof.
  intros HB Hlen HT HD H. unfold Pkcs7Verify in H.
  destruct (_ || _) eqn:Hchk; [discriminate|].
  repeat (apply orb_false_iff in Hchk as [Hchk ?]).
  assert (Hmax : Z.of_nat (length B) <= INT_MAX).
  { destruct (Z.gtb_spec (Z.of_nat (length B)) INT_MAX); [discriminate|assumption]. }
  apply bind_inv in H as (registered & s0 & Hreq & H). apply requests_heap in Hreq.
  destruct registered; cbn [negb] in H; [|discriminate].
  apply bind_inv in H as ([st w] & s1 & Hw & H). cbn [fst snd] in H. cbv zeta in H.
  destruct st; cbn [negb] in H; [|discriminate].
  rewrite <- (block_heap s s0 P7Data Hreq) in HB.
  rewrite <- (block_heap s s0 TrustedCert Hreq) in HT.
  rewrite <- (block_heap s s0 InData Hreq) in HD.
  destruct (WrapPkcs7Data_TRUE_inv s0 P7Data B w s1 HB Hlen
              ltac:(unfold INT_MAX in Hmax; lia) Hw) as (_ & Hsz & Hblk & Hkeep & _ & _).
  assert (Hexit : forall b0 s2,
            (when (negb (WrapFlag w)) (free (WrapData w)) ;; ret b0) s2 = Ret (true, s') ->
            b0 = true).
  { intros b0 s2 He. apply bind_inv in He as (u & s3 & _ & He). injection He as -> _.
    reflexivity. }
  destruct (WrapDataSize w >? INT_MAX); [apply Hexit in H; discriminate|].
  apply bind_inv in H as (der & s2 & Hrd & H).
  destruct (read_bytes_inv _ _ _ _ _ _ _ Hrd Hblk) as [-> ->].
  rewrite Hsz, Nat2Z.id, drop_0, firstn_all in H.
  destruct (d2i_PKCS7 (envelope B)) as [p7|]; [|apply Hexit in H; discriminate].
  destruct (type_is_signed p7) eqn:Hty; cbn [negb] in H; [|apply Hexit in H; discriminate].
  apply bind_inv in H as (root & s2 & Hrd2 & H).
  destruct (read_bytes_inv _ _ _ _ _ _ _ Hrd2 (Hkeep _ _ HT)) as [-> ->].
  rewrite drop_0 in H.
  destruct (d2i_X509 (take (Z.to_nat CertLength) Tb)) as [cert|];
    [|apply Hexit in H; discriminate].
  apply bind_inv in H as (ok1 & s2 & Hr1 & H). apply request_heap in Hr1.
  destruct ok1; cbn [negb] in H; [|apply Hexit in H; discriminate].
  apply bind_inv in H as (ok2 & s3 & Hr2 & H). apply request_heap in Hr2.
  destruct ok2; cbn [negb] in H; [|apply Hexit in H; discriminate].
  apply bind_inv in H as (content & s4 & Hrd3 & H).
  assert (HD3 : block s3 InData = Some Db).
  { rewrite (block_heap s1 s3) by congruence. apply Hkeep. exact HD. }
  destruct (read_bytes_inv _ _ _ _ _ _ _ Hrd3 HD3) as [-> ->].
  rewrite drop_0 in H.
  apply bind_inv in H as (ok3 & s4 & Hr3 & H).
  destruct ok3; cbn [negb] in H; [|apply Hexit in H; discriminate].
  apply Hexit in H. exists p7, cert. auto.
Qed.

(** X15. With every allocation granted, an input that decodes to a
    SignedData and a trusted certificate that decodes, Pkcs7Verify returns the
    verdict of PKCS7_verify on the decoded SignedData, the decoded certificate
    and the content. *)
Theorem Pkcs7Verify_verdict (s : state) (P7Data TrustedCert InData : ptr)
    (B Tb Db : list Z) (p7 : PKCS7) (cert : X509) :
  block s P7Data = Some B -> (17 <= length B)%nat ->
  Z.of_nat (length B) + 19 <= INT_MAX ->
  block s TrustedCert = Some Tb -> Z.of_nat (length Tb) <= INT_MAX ->
  block s InData = Some Db -> Z.of_nat (length Db) <= INT_MAX ->
  all_granted s ->
  d2i_PKCS7 (envelope B) = Some p7 -> type_is_signed p7 = true ->
  d2i_X509 Tb = Some cert ->
  exists s',
    Pkcs7Verify d2i_PKCS7 d2i_X509 PKCS7_verify P7Data (Z.of_nat (length B))
      TrustedCert (Z.of_nat (length Tb)) InData (Z.of_nat (length Db)) s
    = Ret (PKCS7_verify p7 cert Db, s').
Proof.
  intros HB Hlen Hmax HT HTm HD HDm Hg Hd Hty Hx.
  unfold Pkcs7Verify.
  destruct P7Data as [p|]; [|discriminate]. destruct TrustedCert as [t|]; [|discriminate].
  destruct InData as [i|]; [|discriminate]. cbn [notnull negb orb].
  rewrite !gtb_false by (unfold INT_MAX in *; lia). cbn [orb].
  destruct s as [h pl].
  destruct (requests_granted 6 h pl Hg) as (pl0 & Hreq & Hg0).
  rewrite (bind_Ret _ _ _ _ _ Hreq). cbn [negb].
  assert (HB0 : block (mkState h pl0) (Some p) = Some B) by (rewrite (block_plan _ _ pl); exact HB).
  destruct (WrapPkcs7Data_envelope (mkState h pl0) (Some p) B HB0 Hlen
              ltac:(unfold INT_MAX in *; lia) (all_granted_next _ Hg0))
    as (w & [h1 pl1] & Hw & Hfl & Hsz & Hblk & Hcase).
  rewrite (bind_Ret _ _ _ _ _ Hw). cbn [fst snd negb]. cbv zeta.
  pose proof (envelope_length B) as Hel.
  rewrite Hsz, gtb_false by (unfold INT_MAX in *; lia). rewrite <- Hsz.
  rewrite (bind_Ret _ _ _ _ _ (read_bytes_all _ _ _ _ Hblk Hsz)).
  rewrite Hd, Hty. cbn [negb].
  assert (Hkeep : forall q bs pl', block (mkState h pl) (Some q) = Some bs ->
                                   block (mkState h1 pl') (Some q) = Some bs).
  { intros q bs pl' Hq. destruct (is_wrapped B).
    - destruct Hcase as [E _]. injection E as -> _. rewrite (block_plan _ _ pl). exact Hq.
    - destruct Hcase as [E _]. injection E as -> _. cbn [heap].
      rewrite (block_plan _ _ pl). apply block_app_l. exact Hq. }
  assert (Hg1 : all_granted (mkState h1 pl1)).
  { destruct (is_wrapped B).
    - destruct Hcase as [E _]. injection E as -> ->. exact Hg0.
    - destruct Hcase as [E _]. injection E as -> ->. cbn [heap plan].
      apply all_granted_tail with (h := h). exact Hg0. }
  rewrite (bind_Ret _ _ _ _ _ (read_bytes_all _ _ _ _ (Hkeep _ _ pl1 HT) eq_refl)).
  rewrite Hx.
  rewrite (bind_Ret _ _ _ _ _ (request_eq h1 pl1)).
  destruct (all_granted_hd h1 pl1 Hg1) as [-> Hg2]. cbn [negb].
  rewrite (bind_Ret _ _ _ _ _ (request_eq h1 (tl pl1))).
  destruct (all_granted_hd h1 (tl pl1) (Hg2 h1)) as [-> Hg3]. cbn [negb].
  rewrite (bind_Ret _ _ _ _ _ (read_bytes_all _ _ _ _ (Hkeep _ _ (tl (tl pl1)) HD) eq_refl)).
  rewrite (bind_Ret _ _ _ _ _ (request_eq h1 (tl (tl pl1)))).
  destruct (all_granted_hd h1 (tl (tl pl1)) (Hg3 h1)) as [-> Hg4]. cbn [negb].
  destruct (when_free_total (negb (WrapFlag w)) (WrapData w) (mkState h1 (tl (tl (tl pl1)))))
    as (s' & Hf).
  exists s'. rewrite (bind_Ret _ _ _ _ _ Hf). reflexivity.
Qed.

End Verify.

Lemma Pkcs7Verify_TRUE_witness :
  exists p7 cert,
    Sample.d2i_PKCS7 (envelope (Sample.input 1)) = Some p7 /\ type_is_signed p7 = true /\
    SampleVerify.d2i_X509 (take (Z.to_nat 3) (x_der Sample.Root)) = Some cert /\
    SampleVerify.PKCS7_verify p7 cert (take (Z.to_nat 3) [1; 2; 3]) = true.
Proof.
  assert (Hrun : Pkcs7Verify Sample.d2i_PKCS7 SampleVerify.d2i_X509 SampleVerify.PKCS7_verify
                   Sample.P7Data (Z.of_nat (length (Sample.input 1)))
                   SampleVerify.TrustedCert 3 SampleVerify.InData 3
                   (SampleVerify.memory 1 [1; 2; 3] [])
                 = Ret (true, _)) by (vm_compute; reflexivity).
  refine (Pkcs7Verify_TRUE Sample.d2i_PKCS7 SampleVerify.d2i_X509 SampleVerify.PKCS7_verify
            (SampleVerify.memory 1 [1; 2; 3] []) _ Sample.P7Data SampleVerify.TrustedCert
            SampleVerify.InData (Sample.input 1) (x_der Sample.Root) [1; 2; 3] 3 3
            _ _ _ _ Hrun).
  - reflexivity.
  - simpl. lia.
  - reflexivity.
  - reflexivity.
Defined.

Lemma Pkcs7Verify_verdict_witness :
  exists s',
    Pkcs7Verify Sample.d2i_PKCS7 SampleVerify.d2i_X509 SampleVerify.PKCS7_verify
      Sample.P7Data 20 SampleVerify.TrustedCert 3 SampleVerify.InData 3
      (SampleVerify.memory 1 [1; 2; 4] [])
    = Ret (false, s').
Proof.
  refine (Pkcs7Verify_verdict Sample.d2i_PKCS7 SampleVerify.d2i_X509 SampleVerify.PKCS7_verify
            (SampleVerify.memory 1 [1; 2; 4] []) Sample.P7Data SampleVerify.TrustedCert
            SampleVerify.InData (Sample.input 1) (x_der Sample.Root) [1; 2; 4]
            (Sample.signed [Sample.Intermediate; Sample.Leaf; Sample.Root] [Sample.signer_info])
            Sample.Root _ _ _ _ _ _ _ _ _ _ _).
  - reflexivity.
  - simpl. lia.
  - unfold INT_MAX. simpl. lia.
  - reflexivity.
  - unfold INT_MAX. simpl. lia.
  - reflexivity.
  - unfold INT_MAX. simpl. lia.
  - constructor.
  - vm_compute. reflexivity.
  - reflexivity.
  - vm_compute. reflexivity.
Defined.

Section MemoryVerify.

Variable d2i_PKCS7 : list Z -> option PKCS7.
Variable d2i_X509 : list Z -> option X509.
Variable PKCS7_verify : PKCS7 -> X509 -> list Z -> bool.

(** X16. Pkcs7Verify leaves the heap as it found it: no block that existed at
    the call is changed or released, and the envelope that the call may
    allocate is released before every return. *)
Theorem Pkcs7Verify_memory P7Data P7Length TrustedCert CertLength InData DataLength s b s' :
  Pkcs7Verify d2i_PKCS7 d2i_X509 PKCS7_verify P7Data P7Length TrustedCert CertLength
    InData DataLength s = Ret (b, s') ->
  tidy (heap s) (heap s') (fun _ => False).
Proof.
  unfold Pkcs7Verify. intros H.
  destruct (_ || _); [injection H as _ <-; apply tidy_refl|].
  apply bind_inv in H as (registered & s0 & Hreq & H). apply requests_heap in Hreq.
  destruct registered; cbn [negb] in H;
    [|injection H as _ <-; rewrite Hreq; apply tidy_refl].
  apply bind_inv in H as ([st w] & s1 & Hw & H). cbn [fst snd] in H. cbv zeta in H.
  pose proof (tidy_refl (heap s) (fun _ => False)) as HT0. rewrite <- Hreq in HT0 at 2.
  destruct (WrapPkcs7Data_tidy (heap s) _ _ _ _ _ _ _ Hw HT0) as (_ & Hfr & Hfalse & HT1).
  destruct st; cbn [negb] in H.
  2:{ injection H as _ <-. destruct (Hfalse eq_refl) as [_ EN].
      eapply tidy_weaken; [|exact HT1]. rewrite EN. sets. }
  assert (Hexit : forall b0 s2, heap s2 = heap s1 ->
            (when (negb (WrapFlag w)) (free (WrapData w)) ;; ret b0) s2 = Ret (b, s') ->
            tidy (heap s) (heap s') (fun _ => False)).
  { clear H. intros b0 s2 Hs2 He. apply bind_inv in He as (u & s3 & Hf & He).
    injection He as _ <-. rewrite <- Hs2 in HT1.
    eapply tidy_weaken; [|eapply (tidy_when_free _ _ _ _ _ _ _ Hf); [|exact HT1]].
    - cbv beta. intros q [[[]|[EW Hq]] Hne]. apply Hne; [rewrite EW; reflexivity|exact Hq].
    - intros EW. apply Hfr. destruct (WrapFlag w); [discriminate|reflexivity]. }
  destruct (_ >? _); [exact (Hexit _ _ eq_refl H)|].
  apply bind_inv in H as (der & s2 & Hrd & H). apply read_bytes_state in Hrd as ->.
  destruct (d2i_PKCS7 der) as [p7|]; [|exact (Hexit _ _ eq_refl H)].
  destruct (negb (type_is_signed p7)); [exact (Hexit _ _ eq_refl H)|].
  apply bind_inv in H as (root & s2 & Hrd & H). apply read_bytes_state in Hrd as ->.
  destruct (d2i_X509 root) as [Cert|]; [|exact (Hexit _ _ eq_refl H)].
  apply bind_inv in H as (ok1 & s2 & Hr1 & H). apply request_heap in Hr1.
  destruct ok1; cbn [negb] in H; [|exact (Hexit _ _ Hr1 H)].
  apply bind_inv in H as (ok2 & s3 & Hr2 & H). apply request_heap in Hr2.
  destruct ok2; cbn [negb] in H; [|refine (Hexit _ _ _ H); congruence].
  apply bind_inv in H as (content & s4 & Hrd & H). apply read_bytes_state in Hrd as ->.
  apply bind_inv in H as (ok3 & s4 & Hr3 & H). apply request_heap in Hr3.
  destruct ok3; cbn [negb] in H; refine (Hexit _ _ _ H); congruence.
Qed.

End MemoryVerify.

Lemma Pkcs7Verify_memory_witness :
  exists b s',
    Pkcs7Verify Sample.d2i_PKCS7 SampleVerify.d2i_X509 SampleVerify.PKCS7_verify
      Sample.P7Data 17 SampleVerify.TrustedCert 3 SampleVerify.InData 3
      (Sample.memory (Sample.bare_input 1) [x_der Sample.Root; [1; 2; 3]] [])
    = Ret (b, s') /\
    tidy [Some (Sample.bare_input 1); Some (x_der Sample.Root); Some [1; 2; 3]] (heap s')
      (fun _ => False).
Proof.
  eexists _, _.
  assert (Hrun : Pkcs7Verify Sample.d2i_PKCS7 SampleVerify.d2i_X509 SampleVerify.PKCS7_verify
                   Sample.P7Data 17 SampleVerify.TrustedCert 3 SampleVerify.InData 3
                   (Sample.memory (Sample.bare_input 1) [x_der Sample.Root; [1; 2; 3]] [])
                 = Ret (_, _)) by (vm_compute; reflexivity).
  split; [exact Hrun|].
  exact (Pkcs7Verify_memory Sample.d2i_PKCS7 SampleVerify.d2i_X509 SampleVerify.PKCS7_verify
           _ _ _ _ _ _ _ _ _ Hrun).
Defined.

(** ** Pkcs7GetSignature *)

Section GetSignature.

Variable d2i_PKCS7 : list Z -> option PKCS7.

(** Pkcs7GetSignature on a well-formed single-signer input, up to the store
    through [SignatureLength]. *)
Lemma Pkcs7GetSignature_reach s P7Data B p7 si sig out :
  block s P7Data = Some B -> (17 <= length B)%nat ->
  Z.of_nat (length B) + 19 <= INT_MAX -> next_granted s ->
  d2i_PKCS7 (envelope B) = Some p7 -> type_is_signed p7 = true ->
  sign_signer_info p7 = Some [si] -> enc_digest si = Some sig ->
  notnull (Signature out) || notnull (SignatureLength out) = true ->
  exists w s1,
    (forall p bs, block s p = Some bs -> block s1 p = Some bs) /\
    Pkcs7GetSignature d2i_PKCS7 P7Data (Z.of_nat (length B)) out s
    = match SignatureLength out with
      | None => Crash (BadPointer NULL)
      | Some _ =>
          let out' := mkSignatureOut (Signature out) (Some (Z.of_nat (length sig))) in
          match Signature out with
          | Some (Some dst) =>
              (store_bytes (Some dst) 0 sig ;;
               when (negb (WrapFlag w)) (free (WrapData w)) ;; ret (true, out')) s1
          | _ => (when (negb (WrapFlag w)) (free (WrapData w)) ;; ret (false, out')) s1
          end
      end.
Proof.
  intros HB Hlen Hmax Hg Hd Hty Hsi Hsig Hout.
  unfold INT_MAX in Hmax.
  destruct (WrapPkcs7Data_envelope s P7Data B HB Hlen ltac:(lia) Hg)
    as (w & s1 & Hw & Hf & Hsz & Hblk & Hcase).
  destruct (WrapPkcs7Data_TRUE_inv s P7Data B w s1 HB Hlen ltac:(lia) Hw)
    as (_ & _ & _ & Hkeep & _ & _).
  exists w, s1. split; [exact Hkeep|].
  unfold Pkcs7GetSignature.
  destruct P7Data as [p|]; [|discriminate]. cbn [notnull negb orb].
  rewrite gtb_false by (unfold INT_MAX; lia). cbn [orb].
  rewrite <- negb_orb, Hout. cbn [negb].
  rewrite (bind_Ret _ _ _ _ _ Hw). cbn [fst snd negb]. cbv zeta.
  pose proof (envelope_length B) as Hel.
  rewrite Hsz, gtb_false by (unfold INT_MAX; lia). rewrite <- Hsz.
  rewrite (bind_Ret _ _ _ _ _ (read_bytes_all s1 _ _ _ Hblk Hsz)).
  rewrite Hd, Hty. cbn [negb]. unfold PKCS7_get_signer_info. rewrite Hty, Hsi, Hsig.
  destruct (SignatureLength out); [|reflexivity].
  destruct (Signature out) as [[dst|]|]; reflexivity.
Qed.

(** X17. The parameter check of Pkcs7GetSignature rejects only the call in
    which both [Signature] and [SignatureLength] are NULL.  Called with
    [SignatureLength] NULL and [Signature] not, on a well-formed single-signer
    input, it stores the length through the NULL pointer. *)
Theorem Pkcs7GetSignature_NULL_length (s : state) (P7Data : ptr) (B : list Z) (p7 : PKCS7)
    (si : PKCS7_SIGNER_INFO) (sig : list Z) (dst : ptr) :
  block s P7Data = Some B -> (17 <= length B)%nat ->
  Z.of_nat (length B) + 19 <= INT_MAX -> next_granted s ->
  d2i_PKCS7 (envelope B) = Some p7 -> type_is_signed p7 = true ->
  sign_signer_info p7 = Some [si] -> enc_digest si = Some sig ->
  Pkcs7GetSignature d2i_PKCS7 P7Data (Z.of_nat (length B)) (mkSignatureOut (Some dst) None) s
  = Crash (BadPointer NULL).
Proof.
  intros HB Hlen Hmax Hg Hd Hty Hsi Hsig.
  destruct (Pkcs7GetSignature_reach s P7Data B p7 si sig (mkSignatureOut (Some dst) None)
              HB Hlen Hmax Hg Hd Hty Hsi Hsig eq_refl) as (w & s1 & _ & Hrun).
  exact Hrun.
Qed.

(** X18. Pkcs7GetSignature has no capacity parameter and copies the whole
    signature: when the destination block is shorter than the signature, the
    copy writes beyond its end. *)
Theorem Pkcs7GetSignature_short_destination (s : state) (P7Data : ptr) (B : list Z)
    (p7 : PKCS7) (si : PKCS7_SIGNER_INFO) (sig buf : list Z) (dst : nat) (len0 : Z) :
  block s P7Data = Some B -> (17 <= length B)%nat ->
  Z.of_nat (length B) + 19 <= INT_MAX -> next_granted s ->
  d2i_PKCS7 (envelope B) = Some p7 -> type_is_signed p7 = true ->
  sign_signer_info p7 = Some [si] -> enc_digest si = Some sig ->
  block s (Some dst) = Some buf -> (length buf < length sig)%nat ->
  Pkcs7GetSignature d2i_PKCS7 P7Data (Z.of_nat (length B))
    (mkSignatureOut (Some (Some dst)) (Some len0)) s
  = Crash (OutOfBounds (Some dst) (length sig - 1)).
Proof.
  intros HB Hlen Hmax Hg Hd Hty Hsi Hsig Hbuf Hshort.
  destruct (Pkcs7GetSignature_reach s P7Data B p7 si sig
              (mkSignatureOut (Some (Some dst)) (Some len0))
              HB Hlen Hmax Hg Hd Hty Hsi Hsig eq_refl) as (w & s1 & Hkeep & Hrun).
  rewrite Hrun. cbn [SignatureLength Signature]. cbv zeta.
  apply bind_Crash. unfold store_bytes. rewrite (Hkeep _ _ Hbuf).
  rewrite decide_False by (simpl; lia). reflexivity.
Qed.

(** X19. Whatever the allocations do, Pkcs7GetSignature returns TRUE only if
    the envelope of the input decodes to a SignedData with exactly one signer
    info, which has an encrypted digest.  Then [*SignatureLength] is the
    length of that digest, and the destination holds the digest in its first
    bytes, its other bytes as they were. *)
Theorem Pkcs7GetSignature_TRUE (s s' : state) (P7Data : ptr) (B buf : list Z) (dst : nat)
    (out out' : SignatureOut) :
  block s P7Data = Some B -> (17 <= length B)%nat ->
  Signature out = Some (Some dst) -> block s (Some dst) = Some buf ->
  Pkcs7GetSignature d2i_PKCS7 P7Data (Z.of_nat (length B)) out s = Ret ((true, out'), s') ->
  exists p7 si sig,
    d2i_PKCS7 (envelope B) = Some p7 /\ type_is_signed p7 = true /\
    sign_signer_info p7 = Some [si] /\ enc_digest si = Some sig /\
    out' = mkSignatureOut (Signature out) (Some (Z.of_nat (length sig))) /\
    (length sig <= length buf)%nat /\
    block s' (Some dst) = Some (sig ++ drop (length sig) buf).
Proof.
  intros HB Hlen HS Hbuf H. unfold Pkcs7GetSignature in H.
  destruct (_ || _) eqn:Hchk; [discriminate|].
  apply orb_false_iff in Hchk as [Hchk _]. apply orb_false_iff in Hchk as [_ Hchk].
  assert (Hmax : Z.of_nat (length B) <= INT_MAX).
  { destruct (Z.gtb_spec (Z.of_nat (length B)) INT_MAX); [discriminate|assumption]. }
  apply bind_inv in H as ([st w] & s1 & Hw & H). cbn [fst snd] in H. cbv zeta in H.
  destruct st; cbn [negb] in H; [|discriminate].
  destruct (WrapPkcs7Data_TRUE_inv s P7Data B w s1 HB Hlen
              ltac:(unfold INT_MAX in Hmax; lia) Hw) as (_ & Hsz & Hblk & Hkeep & Hnew & _).
  assert (Hexit : forall b0 o s2,
            (when (negb (WrapFlag w)) (free (WrapData w)) ;; ret (b0, o)) s2
            = Ret ((true, out'), s') -> b0 = true /\ o = out').
  { intros b0 o s2 He. apply bind_inv in He as (u & s3 & _ & He). injection He as -> -> _.
    auto. }
  destruct (WrapDataSize w >? INT_MAX); [apply Hexit in H as [? _]; discriminate|].
  apply bind_inv in H as (der & s2 & Hrd & H).
  destruct (read_bytes_inv _ _ _ _ _ _ _ Hrd Hblk) as [-> ->].
  rewrite Hsz, Nat2Z.id, drop_0, firstn_all in H.
  destruct (d2i_PKCS7 (envelope B)) as [p7|]; [|apply Hexit in H as [? _]; discriminate].
  destruct (type_is_signed p7) eqn:Hty; cbn [negb] in H;
    [|apply Hexit in H as [? _]; discriminate].
  unfold PKCS7_get_signer_info in H. rewrite Hty in H.
  destruct (sign_signer_info p7) as [[|si [|? ?]]|] eqn:Hsi;
    try (apply Hexit in H as [? _]; discriminate).
  destruct (enc_digest si) as [sig|] eqn:Hsig; [|apply Hexit in H as [? _]; discriminate].
  destruct (SignatureLength out); [|discriminate].
  rewrite HS in H.
  apply bind_inv in H as (u & s2 & Hst & H).
  pose proof (Hkeep _ _ Hbuf) as Hbuf1.
  unfold store_bytes in Hst. rewrite Hbuf1 in Hst.
  destruct (decide _) as [Hfit|]; [|discriminate]. injection Hst as _ <-.
  assert (Hdst1 : (dst < length (heap s1))%nat).
  { destruct s1 as [h1 pl1]. eapply block_Some_lt. exact Hbuf1. }
  assert (Hdst : (dst < length (heap s))%nat).
  { destruct s as [h pl]. eapply block_Some_lt. exact Hbuf. }
  apply bind_inv in H as (u' & s3 & Hf & H). injection H as <- <-.
  exists p7, si, sig. rewrite HS. split; [reflexivity|]. split; [exact Hty|].
  split; [exact Hsi|]. split; [exact Hsig|]. split; [reflexivity|].
  split; [simpl in Hfit; lia|].
  assert (Hw0 : write_at buf 0 sig = sig ++ drop (length sig) buf) by reflexivity.
  destruct (WrapFlag w) eqn:EW; cbn [negb when] in Hf.
  - injection Hf as _ <-. unfold block. cbn [heap].
    rewrite list_lookup_insert_eq by exact Hdst1. rewrite Hw0. reflexivity.
  - destruct (Hnew eq_refl) as [EN _]. rewrite EN in Hf. injection Hf as _ <-.
    unfold block. cbn [heap]. rewrite list_lookup_insert_ne by lia.
    rewrite list_lookup_insert_eq by exact Hdst1. rewrite Hw0. reflexivity.
Qed.

End GetSignature.

Lemma Pkcs7GetSignature_NULL_length_witness :
  Pkcs7GetSignature Sample.d2i_PKCS7 Sample.P7Data 20 (mkSignatureOut (Some (Some 1%nat)) None)
    (Sample.memory (Sample.input 1) [[0; 0; 0; 0]] [])
  = Crash (BadPointer NULL).
Proof.
  refine (Pkcs7GetSignature_NULL_length Sample.d2i_PKCS7
            (Sample.memory (Sample.input 1) [[0; 0; 0; 0]] []) Sample.P7Data
            (Sample.input 1) _ Sample.signer_info [0xDE; 0xAD; 0xBE; 0xEF] (Some 1%nat)
            _ _ _ _ _ _ _ _).
  - reflexivity.
  - simpl. lia.
  - unfold INT_MAX. simpl. lia.
  - reflexivity.
  - vm_compute. reflexivity.
  - reflexivity.
  - reflexivity.
  - reflexivity.
Defined.

Lemma Pkcs7GetSignature_short_destination_witness :
  Pkcs7GetSignature Sample.d2i_PKCS7 Sample.P7Data 20
    (mkSignatureOut (Some (Some 1%nat)) (Some 0))
    (Sample.memory (Sample.input 1) [[0; 0]] [])
  = Crash (OutOfBounds (Some 1%nat) 3).
Proof.
  refine (Pkcs7GetSignature_short_destination Sample.d2i_PKCS7
            (Sample.memory (Sample.input 1) [[0; 0]] []) Sample.P7Data
            (Sample.input 1) _ Sample.signer_info [0xDE; 0xAD; 0xBE; 0xEF] [0; 0] 1 0
            _ _ _ _ _ _ _ _ _ _).
  - reflexivity.
  - simpl. lia.
  - unfold INT_MAX. simpl. lia.
  - reflexivity.
  - vm_compute. reflexivity.
  - reflexivity.
  - reflexivity.
  - reflexivity.
  - reflexivity.
  - simpl. lia.
Defined.

Lemma Pkcs7GetSignature_TRUE_witness :
  exists p7 si sig,
    Sample.d2i_PKCS7 (envelope (Sample.bare_input 1)) = Some p7 /\
    sign_signer_info p7 = Some [si] /\ enc_digest si = Some sig /\
    (length sig <= 5)%nat.
Proof.
  assert (Hrun : Pkcs7GetSignature Sample.d2i_PKCS7 Sample.P7Data
                   (Z.of_nat (length (Sample.bare_input 1)))
                   (mkSignatureOut (Some (Some 1%nat)) (Some 0))
                   (Sample.memory (Sample.bare_input 1) [[0; 0; 0; 0; 0]] [])
                 = Ret ((true, _), _)) by (vm_compute; reflexivity).
  destruct (Pkcs7GetSignature_TRUE Sample.d2i_PKCS7
              (Sample.memory (Sample.bare_input 1) [[0; 0; 0; 0; 0]] []) _ Sample.P7Data
              (Sample.bare_input 1) [0; 0; 0; 0; 0] 1
              (mkSignatureOut (Some (Some 1%nat)) (Some 0)) _
              eq_refl ltac:(simpl; lia) eq_refl eq_refl Hrun)
    as (p7 & si & sig & H1 & _ & H3 & H4 & _ & H6 & _).
  exists p7, si, sig. repeat (split; [assumption|]). exact H6.
Defined.

Section MemorySignature.

Variable d2i_PKCS7 : list Z -> option PKCS7.

(** X20. Pkcs7GetSignature changes no block that existed at the call but the
    destination, and leaves no block of its own allocated. *)
Theorem Pkcs7GetSignature_memory P7Data P7Length out s b out' s' :
  Pkcs7GetSignature d2i_PKCS7 P7Data P7Length out s = Ret ((b, out'), s') ->
  (forall q, (q < length (heap s))%nat -> Signature out <> Some (Some q) ->
             heap s' !! q = heap s !! q) /\
  (forall q, (length (heap s) <= q)%nat -> ~ live (heap s') q).
Proof.
  intros H.
  enough (exists hb, length hb = length (heap s) /\
            (forall q, Signature out <> Some (Some q) -> hb !! q = heap s !! q) /\
            tidy hb (heap s') (fun _ => False)) as (hb & HL & HB & (_ & F & V)).
  { split.
    - intros q Hq Hne. rewrite F by lia. apply HB. exact Hne.
    - intros q Hq Hl. apply (V q); [lia|exact Hl]. }
  unfold Pkcs7GetSignature in H.
  destruct (_ || _).
  { injection H as _ _ <-. exists (heap s). split; [reflexivity|]. split; [reflexivity|].
    apply tidy_refl. }
  apply bind_inv in H as ([st w] & s1 & Hw & H). cbn [fst snd] in H. cbv zeta in H.
  destruct (WrapPkcs7Data_tidy (heap s) _ _ _ _ _ _ _ Hw (tidy_refl _ (fun _ => False)))
    as (_ & Hfr & Hfalse & HT1).
  destruct st; cbn [negb] in H.
  2:{ injection H as _ _ <-. destruct (Hfalse eq_refl) as [_ EN].
      exists (heap s). split; [reflexivity|]. split; [reflexivity|].
      eapply tidy_weaken; [|exact HT1]. rewrite EN. sets. }
  assert (Hexit : forall hb b0 o s2, length hb = length (heap s) ->
            tidy hb (heap s2)
              (fun q => False \/ (WrapFlag w = false /\ Some q = WrapData w)) ->
            (when (negb (WrapFlag w)) (free (WrapData w)) ;; ret (b0, o)) s2
            = Ret ((b, out'), s') ->
            tidy hb (heap s') (fun _ => False)).
  { clear H. intros hb b0 o s2 Hlen HT2 He. apply bind_inv in He as (u & s3 & Hf & He).
    injection He as _ _ <-.
    eapply tidy_weaken; [|eapply (tidy_when_free _ _ _ _ _ _ _ Hf); [|exact HT2]].
    - cbv beta. intros q [[[]|[EW Hq]] Hne]. apply Hne; [rewrite EW; reflexivity|exact Hq].
    - intros EW q Eq. rewrite Hlen. apply (Hfr ltac:(destruct (WrapFlag w); [discriminate|reflexivity]) q Eq). }
  assert (Hplain : forall b0 o s2, heap s2 = heap s1 ->
            (when (negb (WrapFlag w)) (free (WrapData w)) ;; ret (b0, o)) s2
            = Ret ((b, out'), s') ->
            exists hb, length hb = length (heap s) /\
              (forall q, Signature out <> Some (Some q) -> hb !! q = heap s !! q) /\
              tidy hb (heap s') (fun _ => False)).
  { intros b0 o s2 Hs2 He. exists (heap s). split; [reflexivity|]. split; [reflexivity|].
    apply (Hexit (heap s) b0 o s2 eq_refl); [rewrite Hs2; exact HT1|exact He]. }
  destruct (_ >? _); [exact (Hplain _ _ _ eq_refl H)|].
  apply bind_inv in H as (der & s2 & Hrd & H). apply read_bytes_state in Hrd as ->.
  destruct (d2i_PKCS7 der) as [p7|]; [|exact (Hplain _ _ _ eq_refl H)].
  destruct (negb (type_is_signed p7)); [exact (Hplain _ _ _ eq_refl H)|].
  destruct (PKCS7_get_signer_info p7) as [[|si [|? ?]]|];
    try exact (Hplain _ _ _ eq_refl H).
  destruct (enc_digest si) as [sig|]; [|exact (Hplain _ _ _ eq_refl H)].
  destruct (SignatureLength out); [|discriminate].
  destruct (Signature out) as [[dst|]|] eqn:ES;
    try exact (Hplain _ _ _ eq_refl H).
  apply bind_inv in H as (u & s2 & Hst & H).
  destruct (le_lt_dec (length (heap s)) dst) as [Hnew|Hold].
  - exists (heap s). split; [reflexivity|]. split; [reflexivity|].
    eapply (Hexit (heap s) _ _ s2 eq_refl); [|exact H].
    apply (tidy_store (heap s) _ _ _ _ _ _ _ Hst); [|exact HT1].
    intros q [= <-]. exact Hnew.
  - destruct (tidy_store_old (heap s) _ _ _ _ _ _ _ Hst Hold HT1) as (x & HT2).
    exists (<[dst := x]> (heap s)). split; [apply length_insert|].
    split; [intros q Hne; apply list_lookup_insert_ne; intros ->; apply Hne; reflexivity|].
    eapply (Hexit _ _ _ s2 (length_insert _ _ _)); [exact HT2|exact H].
Qed.

End MemorySignature.

Lemma Pkcs7GetSignature_memory_witness :
  exists b out' s',
    Pkcs7GetSignature Sample.d2i_PKCS7 Sample.P7Data 17
      (mkSignatureOut (Some (Some 1%nat)) (Some 0))
      (Sample.memory (Sample.bare_input 1) [[0; 0; 0; 0; 0]] [])
    = Ret ((b, out'), s') /\
    heap s' !! 0%nat = Some (Some (Sample.bare_input 1)) /\
    ~ live (heap s') 2.
Proof.
  eexists _, _, _.
  assert (Hrun : Pkcs7GetSignature Sample.d2i_PKCS7 Sample.P7Data 17
                   (mkSignatureOut (Some (Some 1%nat)) (Some 0))
                   (Sample.memory (Sample.bare_input 1) [[0; 0; 0; 0; 0]] [])
                 = Ret ((_, _), _)) by (vm_compute; reflexivity).
  split; [exact Hrun|].
  destruct (Pkcs7GetSignature_memory Sample.d2i_PKCS7 _ _ _ _ _ _ _ Hrun) as [F V].
  split.
  - apply (F 0%nat); [simpl; lia|discriminate].
  - apply (V 2%nat). simpl. lia.
Defined.

(** ** Which calls fault *)

Lemma WrapPkcs7Data_bare_prefix s P7Data B L :
  block s P7Data = Some B ->
  0 <= L <= Z.of_nat (length B) -> L + 19 < 2^64 ->
  DetectWrapped P7Data s = Ret (false, s) ->
  next_granted s ->
  WrapPkcs7Data P7Data L s
  = Ret ((true, mkWrapOut false (Some (length (heap s))) (L + 19)),
         mkState (heap s ++ [Some (wrap_header L ++ take (Z.to_nat L) B)]) (tl (plan s))).
Proof.
  intros HB HL Hlen Hdet Hgr.
  set (n := Z.to_nat L).
  unfold WrapPkcs7Data. rewrite (bind_Ret _ _ _ _ _ Hdet).
  assert (Hsize : UINTN (L + 19) = L + 19) by (apply Z.mod_small; lia).
  cbv zeta. rewrite Hsize.
  rewrite (bind_Ret _ _ _ _ _ (malloc_granted s _ Hgr)).
  replace (Z.to_nat (L + 19)) with (19 + n)%nat by lia.
  rewrite UINT16_UINTN, !UINT16_bytes.
  replace (L + 19 - 4) with (L + 15) by lia.
  set (h := heap s). set (pl := tl (plan s)).
  pose proof (store_bytes_fill h pl [] [0x30; 0x82] (19 + n) 0 eq_refl) as E1.
  rewrite (bind_Ret _ _ _ _ _ (E1 ltac:(simpl; lia))). clear E1.
  pose proof (store_bytes_fill h pl ([] ++ [0x30; 0x82]) (be16 (L + 15))
                (19 + n - 2) 2 eq_refl) as E2.
  rewrite (bind_Ret _ _ _ _ _ (E2 ltac:(simpl; lia))). clear E2.
  pose proof (store_bytes_fill h pl (([] ++ [0x30; 0x82]) ++ be16 (L + 15)) [0x06; 0x09]
                (19 + n - 2 - 2) 4 eq_refl) as E3.
  rewrite (bind_Ret _ _ _ _ _ (E3 ltac:(simpl; lia))). clear E3.
  pose proof (store_bytes_fill h pl ((([] ++ [0x30; 0x82]) ++ be16 (L + 15)) ++ [0x06; 0x09])
                mOidValue (19 + n - 2 - 2 - 2) 6 eq_refl) as E4.
  rewrite (bind_Ret _ _ _ _ _ (E4 ltac:(simpl; lia))). clear E4.
  pose proof (store_bytes_fill h pl
                (((([] ++ [0x30; 0x82]) ++ be16 (L + 15)) ++ [0x06; 0x09]) ++ mOidValue)
                [0xA0; 0x82] (19 + n - 2 - 2 - 2 - 9) 15 eq_refl) as E5.
  rewrite (bind_Ret _ _ _ _ _ (E5 ltac:(simpl; lia))). clear E5.
  pose proof (store_bytes_fill h pl
                ((((([] ++ [0x30; 0x82]) ++ be16 (L + 15)) ++ [0x06; 0x09]) ++ mOidValue)
                   ++ [0xA0; 0x82])
                (be16 L) (19 + n - 2 - 2 - 2 - 9 - 2) 17 eq_refl) as E6.
  rewrite (bind_Ret _ _ _ _ _ (E6 ltac:(simpl; lia))). clear E6.
  change ((((((([] ++ [0x30; 0x82]) ++ be16 (L + 15)) ++ [0x06; 0x09]) ++ mOidValue)
             ++ [0xA0; 0x82]) ++ be16 L)) with (wrap_header L).
  replace (19 + n - 2 - 2 - 2 - 9 - 2 - length (be16 L))%nat
    with n by (simpl; lia).
  unfold CopyMem.
  assert (Hrd : read_bytes P7Data 0 (Z.to_nat L)
                  (mkState (h ++ [Some (wrap_header L ++ replicate n 0)]) pl)
                = Ret (take n B, mkState (h ++ [Some (wrap_header L ++ replicate n 0)]) pl)).
  { destruct P7Data as [b|]; [|discriminate].
    erewrite read_bytes_prefix.
    - reflexivity.
    - apply block_app_l. destruct s; exact HB.
    - lia. }
  erewrite bind_Ret; [reflexivity|].
  rewrite (bind_Ret _ _ _ _ _ Hrd).
  assert (Hn : length (take n B) = n) by (rewrite length_take; lia).
  pose proof (store_bytes_fill h pl (wrap_header L) (take n B) n 19 eq_refl) as E7.
  rewrite Hn in E7. rewrite E7 by lia.
  rewrite Nat.sub_diag. simpl replicate. rewrite app_nil_r. reflexivity.
Qed.

(** WrapPkcs7Data when [P7Length] counts a part of the caller's block. *)
Lemma WrapPkcs7Data_prefix s P7Data B L :
  block s P7Data = Some B -> (17 <= length B)%nat ->
  0 <= L <= Z.of_nat (length B) -> L + 19 < 2^64 ->
  WrapPkcs7Data P7Data L s
  = if is_wrapped B then Ret ((true, mkWrapOut true P7Data L), s)
    else if hd true (plan s)
         then Ret ((true, mkWrapOut false (Some (length (heap s))) (L + 19)),
                   mkState (heap s ++ [Some (wrap_header L ++ take (Z.to_nat L) B)])
                           (tl (plan s)))
         else Ret ((false, mkWrapOut false NULL (L + 19)), mkState (heap s) (tl (plan s))).
Proof.
  intros HB Hlen HL Hsz. pose proof (DetectWrapped_spec s P7Data B HB Hlen) as Hdet.
  destruct (is_wrapped B) eqn:E.
  - unfold WrapPkcs7Data. rewrite (bind_Ret _ _ _ _ _ Hdet). reflexivity.
  - destruct (hd true (plan s)) eqn:Hg.
    + apply WrapPkcs7Data_bare_prefix; assumption.
    + unfold WrapPkcs7Data. rewrite (bind_Ret _ _ _ _ _ Hdet). cbv zeta.
      destruct s as [h pl]. cbn [plan heap] in *.
      erewrite bind_Ret by (rewrite malloc_eq, Hg; reflexivity).
      unfold UINTN. rewrite (Z.mod_small (L + 19)) by lia. reflexivity.
Qed.

(** What the callers need of a successful WrapPkcs7Data: the envelope is a
    block of at least [*WrapDataSize] bytes, and the blocks of the caller are
    as they were. *)
Lemma WrapPkcs7Data_returns s P7Data B L :
  block s P7Data = Some B -> (17 <= length B)%nat ->
  0 <= L <= Z.of_nat (length B) -> L <= INT_MAX ->
  exists b w s1,
    WrapPkcs7Data P7Data L s = Ret ((b, w), s1) /\
    (forall p bs, block s p = Some bs -> block s1 p = Some bs) /\
    (b = true ->
       exists E, block s1 (WrapData w) = Some E /\
                 (Z.to_nat (WrapDataSize w) <= length E)%nat).
Proof.
  intros HB Hlen HL Hmax.
  assert (Hsz : L + 19 < 2^64) by (unfold INT_MAX in Hmax; lia).
  rewrite (WrapPkcs7Data_prefix s P7Data B L HB Hlen HL Hsz).
  destruct (is_wrapped B).
  - eexists _, _, _. split; [reflexivity|]. split; [auto|].
    intros _. exists B. cbn [WrapData WrapDataSize]. split; [exact HB|lia].
  - destruct s as [h pl]. cbn [heap plan]. destruct (hd true pl).
    + eexists _, _, _. split; [reflexivity|]. split.
      * intros [q|] bs Hq; [|discriminate].
        apply block_app_l. rewrite (block_plan h _ pl). exact Hq.
      * intros _. eexists. cbn [WrapData WrapDataSize]. split; [apply block_last|].
        rewrite length_app, length_take. unfold wrap_header, be16, mOidValue. simpl length. lia.
    + eexists _, _, _. split; [reflexivity|]. split; [|discriminate].
      intros p bs Hq. rewrite (block_plan h _ pl). exact Hq.
Qed.

Lemma read_bytes_returns s p bs off n :
  block s p = Some bs -> (off + n <= length bs)%nat ->
  read_bytes p off n s = Ret (take n (drop off bs), s).
Proof.
  intros Hb Hle. unfold read_bytes. rewrite Hb.
  destruct (decide (off + n <= length bs)%nat); [reflexivity|lia].
Qed.

Lemma requests_total n : forall s,
  exists b s', requests n s = Ret (b, s') /\ heap s' = heap s.
Proof.
  induction n as [|n IH]; intros s; cbn [requests].
  - exists true, s. split; reflexivity.
  - destruct (request_total s) as (ok & s1 & Hr & Hh). rewrite (bind_Ret _ _ _ _ _ Hr).
    destruct ok.
    + destruct (IH s1) as (b & s2 & H2 & Hh2). exists b, s2. split; [exact H2|congruence].
    + exists false, s1. split; [reflexivity|exact Hh].
Qed.

(** The sizes the loop leaves behind when it breaks: either nothing was
    serialized, or the accumulator ends with the record of the last
    certificate, which starts at [OldSize]. *)
Lemma SerializeLoop_sizes pops : forall fuel l h pl l' s',
  Stack l = Some (reverse pops) -> Forall sized pops ->
  0 <= BufferSize l -> BufferSize l + records_size pops < 2^64 ->
  SerializeLoop fuel l (mkState h pl) = Ret ((Break, l'), s') ->
  (CertBuf l' = CertBuf l /\ BufferSize l' = BufferSize l /\ OldSize l' = OldSize l) \/
  (exists n, 0 < n /\ 0 <= OldSize l' /\ BufferSize l' = OldSize l' + n + 4).
Proof.
  induction pops as [|c pops IH]; intros fuel l h pl l' s' Hsk Hall Hb0 Hb H.
  - destruct fuel as [|fuel]; [discriminate|].
    cbn [SerializeLoop] in H. rewrite Hsk in H. cbn in H.
    injection H as <- _. left. cbn. auto.
  - destruct fuel as [|fuel]; [discriminate|].
    rewrite reverse_cons in Hsk. inversion Hall as [|? ? Hc Hall']; subst.
    simpl records_size in Hb. pose proof (records_size_nonneg pops) as Hnn.
    cbn [SerializeLoop] in H. rewrite Hsk in H.
    destruct (X509PopCertificate_cases h pl (reverse pops) c Hc) as [[pl' Hpop]|[Hen Hg3]].
    + rewrite (bind_Ret _ _ _ _ _ Hpop) in H. injection H as <- _. left. cbn. auto.
    + rewrite (bind_Ret _ _ _ _ _ (X509PopCertificate_ok h pl (reverse pops) c Hg3 Hen)) in H.
      cbv beta iota zeta in H.
      assert (Hu : UINTN (BufferSize l + Z.of_nat (length (x_der c)) + 4)
                   = BufferSize l + Z.of_nat (length (x_der c)) + 4)
        by (apply Z.mod_small; lia).
      rewrite Hu in H.
      destruct (hd true (tl (tl (tl pl)))) eqn:E4.
      2:{ erewrite bind_Ret in H by (rewrite malloc_eq, E4; reflexivity). discriminate. }
      erewrite bind_Ret in H by (rewrite malloc_eq, E4; reflexivity).
      apply bind_inv in H as (? & s3 & _ & H).
      apply bind_inv in H as (? & s4 & _ & H).
      apply bind_inv in H as (? & s5 & _ & H).
      apply bind_inv in H as (? & s6 & _ & H).
      destruct s6 as [h6 pl6].
      destruct Hen as [Hpos _].
      apply IH in H; [|reflexivity|exact Hall'|cbn [BufferSize]; lia|cbn [BufferSize]; lia].
      destruct H as [(E1 & E2 & E3)|Hr].
      * right. cbn [CertBuf BufferSize OldSize] in *.
        exists (Z.of_nat (length (x_der c))). rewrite E2, E3. lia.
      * right. exact Hr.
Qed.

Lemma records_size_count l :
  Forall sized l -> records_size l <= Z.of_nat (length l) * (INT_MAX + 4).
Proof.
  induction 1 as [|c l Hc _ IH]; [simpl; lia|].
  simpl records_size. unfold sized in Hc. rewrite length_cons. lia.
Qed.

Ltac exit_cases :=
  match goal with
  | |- context [GetSigners_Exit ?W ?N ?p7 ?l1 ?o ?s0] =>
      let s' := fresh "s'" in let c := fresh "c" in let He := fresh "He" in
      destruct (GetSigners_Exit_cases W N p7 l1 o s0) as [[s' He]|(c & _ & He)];
      [left; eexists _, _; exact He|right; exists c; exact He]
  end.

(** From the loop to the return, Pkcs7GetSigners makes no access outside a
    block; it returns, or releases a certificate a second time at _Exit. *)
Lemma GetSigners_serialize_cases W N p7 found out h pl :
  Forall sized found -> 1 + records_size found < 2^64 ->
  (exists r s', GetSigners_serialize W N p7 (Some found) out (mkState h pl) = Ret (r, s')) \/
  (exists c, GetSigners_serialize W N p7 (Some found) out (mkState h pl)
             = Crash (DoubleFree (x_ptr c))).
Proof.
  intros Hall Hb. unfold GetSigners_serialize.
  set (l0 := mkLocals false 0 NULL NULL 1 1 NULL (Some found)).
  assert (Hall' : Forall sized (reverse found)) by (apply Forall_reverse; exact Hall).
  assert (Hb' : BufferSize l0 + records_size (reverse found) < 2^64).
  { cbn [BufferSize l0]. rewrite records_size_reverse. exact Hb. }
  destruct (SerializeLoop_total (reverse found) (stack_fuel (Some found)) l0 h pl [])
    as (lv & l' & h' & pl' & Hrun & HF & Hlv).
  { cbn [Stack l0]. rewrite reverse_involutive. reflexivity. }
  { unfold stack_fuel. simpl. rewrite length_reverse. lia. }
  { exact Hall'. }
  { reflexivity. }
  { reflexivity. }
  { exact Hb'. }
  { reflexivity. }
  { reflexivity. }
  { cbn. lia. }
  rewrite !(bind_Ret _ _ _ _ _ Hrun).
  destruct lv; [|exit_cases].
  destruct Hlv as (done & Hpre & HS & HI & HB & HH & HO & HSC & HE & HL & HG).
  destruct (CertBuf l') as [q|] eqn:Hcb; [|exit_cases].
  cbn [holds app] in HH.
  destruct (SerializeLoop_sizes (reverse found) _ l0 h pl l' _
              ltac:(cbn; rewrite reverse_involutive; reflexivity)
              Hall' ltac:(cbn; lia) Hb' Hrun) as [(E1 & _)|(n & Hn & Ho & Hbn)].
  { rewrite Hcb in E1. discriminate. }
  cbn [BufferSize l0] in HB.
  assert (Hlen : Z.of_nat (length (cert_records done)) = records_size done)
    by apply cert_records_length.
  assert (Hdone : records_size done <= records_size (reverse found)).
  { destruct Hpre as [k ->]. rewrite records_size_app. pose proof (records_size_nonneg k). lia. }
  destruct (store_count (mkState h' pl') q (cert_records done) (Index l') HH)
    as (s1 & Hst & Hq1 & Hpl1 & Hlen1 & _).
  rewrite !(bind_Ret _ _ _ _ _ Hst). cbv zeta.
  assert (Hcl : UINTN (BufferSize l' - OldSize l' - 4) = n).
  { unfold UINTN. rewrite Hbn. replace (OldSize l' + n + 4 - OldSize l' - 4) with n by lia.
    apply Z.mod_small. cbn [BufferSize l0] in Hb'. lia. }
  rewrite Hcl. destruct s1 as [h1 pl1].
  assert (Hm : malloc n (mkState h1 pl1)
               = if hd true pl1
                 then Ret (Some (length h1),
                           mkState (h1 ++ [Some (replicate (Z.to_nat n) 0)]) (tl pl1))
                 else Ret (NULL, mkState h1 (tl pl1))) by apply malloc_eq.
  destruct (hd true pl1) eqn:Hg.
  2:{ rewrite !(bind_Ret _ _ _ _ _ Hm). cbv beta iota. unfold NULL. exit_cases. }
  rewrite !(bind_Ret _ _ _ _ _ Hm). cbv beta iota.
  assert (Hcp : exists s4,
            CopyMem (Some (length h1)) 0 (Some q) (Z.to_nat (OldSize l' + 4)) n
              (mkState (h1 ++ [Some (replicate (Z.to_nat n) 0)]) (tl pl1))
            = Ret (tt, s4)).
  { unfold CopyMem. erewrite bind_Ret.
    2:{ apply (read_bytes_returns _ _ (Index l' :: cert_records done)).
        - apply block_app_l. rewrite (block_plan h1 _ pl1). exact Hq1.
        - simpl length. lia. }
    eexists. apply (store_bytes_ok _ _ (replicate (Z.to_nat n) 0)).
    - apply block_last.
    - rewrite length_replicate, length_take, length_drop. simpl length. lia. }
  destruct Hcp as [s4 Hcp].
  rewrite !(bind_Ret _ _ _ _ _ Hcp). exit_cases.
Qed.

Section SafeSigners.

Variable d2i_PKCS7 : list Z -> option PKCS7.

(** X21. On every call whose buffer has at least 17 bytes and at least
    [P7Length] bytes, Pkcs7GetSigners has one fault only.  Whatever the bytes
    decode to, whatever the allocations do and whichever outputs are NULL, no
    access falls outside a block or goes through NULL or a released block, and
    the loop ends: the call returns, or it releases a certificate a second
    time at _Exit.  The decoder is taken to hand out certificates of at most
    INT_MAX bytes and at most INT_MAX signer infos. *)
Theorem Pkcs7GetSigners_one_fault s P7Data B P7Length out :
  block s P7Data = Some B -> (17 <= length B)%nat ->
  0 <= P7Length <= Z.of_nat (length B) ->
  signers_wf d2i_PKCS7 ->
  (exists r s', Pkcs7GetSigners d2i_PKCS7 P7Data P7Length out s = Ret (r, s')) \/
  (exists c, Pkcs7GetSigners d2i_PKCS7 P7Data P7Length out s = Crash (DoubleFree (x_ptr c))).
Proof.
  intros HB Hlen HL Hwf. unfold Pkcs7GetSigners.
  match goal with |- context [if ?c then _ else _] => destruct c eqn:Hchk end.
  { left. eexists _, _. reflexivity. }
  assert (Hmax : P7Length <= INT_MAX).
  { destruct (P7Length >? INT_MAX) eqn:E; [|lia].
    rewrite !orb_true_r in Hchk. discriminate. }
  destruct (WrapPkcs7Data_returns s P7Data B P7Length HB Hlen HL Hmax)
    as (b & w & s1 & Hw & _ & HE).
  rewrite !(bind_Ret _ _ _ _ _ Hw). cbn [fst snd]. cbv zeta.
  destruct b; cbn [negb]; [|left; eexists _, _; reflexivity].
  destruct (HE eq_refl) as (E & HbE & HlE).
  destruct (WrapDataSize w >? INT_MAX); [exit_cases|].
  rewrite !(bind_Ret _ _ _ _ _
              (read_bytes_returns s1 (WrapData w) E 0 (Z.to_nat (WrapDataSize w)) HbE
                 ltac:(lia))).
  destruct (d2i_PKCS7 _) as [p7|] eqn:Hd; [|exit_cases].
  destruct (type_is_signed p7); cbn [negb]; [|exit_cases].
  destruct (PKCS7_get0_signers_total p7 s1) as (r & s2 & Hg & Hh & Hr).
  rewrite !(bind_Ret _ _ _ _ _ Hg).
  destruct r as [found|]; [|exit_cases].
  destruct (Hr found eq_refl) as (sinfos & Hsi & Hn).
  destruct (Hwf _ _ Hd) as [Hsz Hcnt].
  assert (Hall : Forall sized found).
  { apply Forall_forall. intros x Hx.
    destruct (PKCS7_get0_signers_elem p7 s1 found s2 Hg x Hx) as (cs & Hcs & Hin).
    pose proof (Hsz cs Hcs) as Hf. rewrite Forall_forall in Hf. apply Hf, Hin. }
  assert (Hb : 1 + records_size found < 2^64).
  { pose proof (records_size_count found Hall) as Hle.
    specialize (Hcnt sinfos Hsi). rewrite <- Hn in Hcnt. unfold INT_MAX in *. nia. }
  destruct s2 as [h2 pl2].
  exact (GetSigners_serialize_cases (WrapFlag w) (WrapData w) (Some p7) found out h2 pl2
           Hall Hb).
Qed.

End SafeSigners.

(** What returns on a wrapped input faults on an input that had to be
    wrapped: the two runs differ at the first jump to _Error only. *)
Lemma CertList_unchain_sim N A q un l out1 s r :
  CertList_unchain true N A un l out1 s = Ret r ->
  CertList_unchain false (Some q) true un l out1 s = Crash (InvalidFree (Some q)).
Proof.
  unfold CertList_unchain. destruct r as [r0 s0]. intros H.
  destruct un as [u|]; [|apply CertList_Error_crash].
  apply bind_inv in H as ([[] l2] & s2 & Hloop & H); rewrite (bind_Ret _ _ _ _ _ Hloop).
  - apply bind_inv in H as (out2 & s3 & Hst & _). rewrite (bind_Ret _ _ _ _ _ Hst).
    apply CertList_Error_crash.
  - apply CertList_Error_crash.
Qed.

Lemma CertList_serialize_sim N A q chain un s r :
  CertList_serialize true N A chain un s = Ret r ->
  CertList_serialize false (Some q) true chain un s = Crash (InvalidFree (Some q)).
Proof.
  unfold CertList_serialize. cbv zeta. destruct r as [r0 s0]. intros H.
  apply bind_inv in H as ([[] l1] & s1 & Hloop & H); rewrite (bind_Ret _ _ _ _ _ Hloop).
  - apply bind_inv in H as (out1 & s2 & Hst & H). rewrite (bind_Ret _ _ _ _ _ Hst).
    exact (CertList_unchain_sim _ _ _ _ _ _ _ _ H).
  - apply CertList_Error_crash.
Qed.

Section SafeCertList.

Variable d2i_PKCS7 : list Z -> option PKCS7.
Variable X509_STORE_CTX_get1_issuer : X509_STORE_CTX -> X509 -> option X509.

(** X22. On a wrapped input, Pkcs7GetCertificatesList returns, without a
    fault, on every call whose buffer has at least [P7Length] bytes, whatever
    the bytes decode to, whatever the allocations do and whichever outputs are
    NULL; the chain walk and the two loops end.  The decoder is taken to hand
    out distinct certificate objects of at most INT_MAX bytes each. *)
Theorem Pkcs7GetCertificatesList_safe s P7Data B P7Length out :
  block s P7Data = Some B -> is_wrapped B = true ->
  0 <= P7Length <= Z.of_nat (length B) ->
  decoder_wf d2i_PKCS7 ->
  exists b out' s',
    Pkcs7GetCertificatesList d2i_PKCS7 X509_STORE_CTX_get1_issuer P7Data P7Length out s
    = Ret ((b, out'), s').
Proof.
  intros HB HWr HL Hwf. pose proof (is_wrapped_length B HWr) as Hlen.
  destruct (negb (notnull P7Data) || negb (notnull (SignerChainCerts out)) ||
            negb (notnull (ChainLength out)) || negb (notnull (UnchainCerts out)) ||
            negb (notnull (UnchainLength out)) || (P7Length >? INT_MAX)) eqn:Hchk.
  { unfold Pkcs7GetCertificatesList. rewrite Hchk. eexists _, _, _. reflexivity. }
  assert (Hmax : P7Length <= INT_MAX).
  { destruct (P7Length >? INT_MAX) eqn:E; [|lia].
    rewrite ?orb_true_r in Hchk. discriminate. }
  pose proof (WrapPkcs7Data_prefix s P7Data B P7Length HB Hlen HL
                ltac:(unfold INT_MAX in Hmax; lia)) as Hw.
  rewrite HWr in Hw.
  set (w := mkWrapOut true P7Data P7Length) in *.
  assert (Herr : forall st A sx, exists b out' s',
            CertList_Error st true P7Data A NULL NULL NULL
              (mkCertListOut (Some NULL) (Some 0) (Some NULL) (Some 0)) sx
            = Ret ((b, out'), s')).
  { intros st A sx.
    destruct (CertList_Error_total st true P7Data A NULL NULL NULL
                (mkCertListOut (Some NULL) (Some 0) (Some NULL) (Some 0)) sx eq_refl)
      as [s' He].
    eexists _, _, _. exact He. }
  assert (Hsz : (P7Length >? INT_MAX) = false) by (apply gtb_false; exact Hmax).
  pose proof (read_bytes_returns s P7Data B 0 (Z.to_nat P7Length) HB ltac:(lia)) as Hrd.
  destruct (d2i_PKCS7 (take (Z.to_nat P7Length) (drop 0 B))) as [p7|] eqn:Hd.
  2:{ unfold Pkcs7GetCertificatesList. rewrite Hchk, (bind_Ret _ _ _ _ _ Hw).
      cbn [fst snd negb orb w WrapFlag WrapData WrapDataSize]. cbv zeta.
      rewrite Hsz, (bind_Ret _ _ _ _ _ Hrd), Hd. apply Herr. }
  destruct (type_is_signed p7) eqn:Hty.
  2:{ unfold Pkcs7GetCertificatesList. rewrite Hchk, (bind_Ret _ _ _ _ _ Hw).
      cbn [fst snd negb orb w WrapFlag WrapData WrapDataSize]. cbv zeta.
      rewrite Hsz, (bind_Ret _ _ _ _ _ Hrd), Hd, Hty. apply Herr. }
  destruct (PKCS7_get0_signers_total p7 s) as (r & s2 & Hg & Hh & _).
  assert (Hother : (forall Signer, r <> Some [Signer]) ->
            exists b out' s',
              Pkcs7GetCertificatesList d2i_PKCS7 X509_STORE_CTX_get1_issuer P7Data P7Length out s
              = Ret ((b, out'), s')).
  { intros Hne. unfold Pkcs7GetCertificatesList. rewrite Hchk, (bind_Ret _ _ _ _ _ Hw).
    cbn [fst snd negb orb w WrapFlag WrapData WrapDataSize]. cbv zeta.
    rewrite Hsz, (bind_Ret _ _ _ _ _ Hrd), Hd, Hty.
    cbn [negb]. rewrite (bind_Ret _ _ _ _ _ Hg).
    destruct r as [[|Signer [|]]|]; try apply Herr.
    exfalso. apply (Hne Signer). reflexivity. }
  destruct r as [[|Signer [|]]|]; try (apply Hother; congruence).
  destruct (PKCS7_get0_signers_elem p7 s [Signer] s2 Hg Signer ltac:(apply list_elem_of_here))
    as (certs & Hcs & Hin).
  destruct (Hwf _ _ _ Hd Hcs) as (Hnd & Hsized & Hbound).
  destruct out as [[a|] [b|] [c|] [d|]];
    try (cbn in Hchk; rewrite ?orb_true_r in Hchk; discriminate).
  destruct s as [h1 pl1]. destruct s2 as [h2 pl2].
  destruct (CertList_past_gate d2i_PKCS7 X509_STORE_CTX_get1_issuer P7Data P7Length a b c d
              (mkState h1 pl1) w h1 pl1 (take (Z.to_nat P7Length) (drop 0 B)) p7 Signer h2 pl2
              certs) as (b' & out' & s' & Hrun & _); try assumption; try reflexivity.
  - destruct P7Data; [reflexivity|discriminate].
  - intros n Hn. cbn [w WrapData] in Hn. rewrite Hn in HB. apply (block_Some_lt _ _ _ _ HB).
  - eexists _, _, _. exact Hrun.
Qed.

(** X25. On an input that it has to wrap, Pkcs7GetCertificatesList does not
    return once the decoder has accepted the envelope: d2i_PKCS7 is handed the
    address of [NewP7Data] and leaves it behind the bytes it has decoded, and
    _Error, which every path reaches, passes that pointer to free. *)
Theorem Pkcs7GetCertificatesList_bare_faults s P7Data B P7Length p7 a b c d :
  block s P7Data = Some B -> (17 <= length B)%nat -> is_wrapped B = false ->
  0 <= P7Length <= Z.of_nat (length B) -> P7Length + 19 <= INT_MAX ->
  next_granted s -> decoder_wf d2i_PKCS7 ->
  d2i_PKCS7 (wrap_header P7Length ++ take (Z.to_nat P7Length) B) = Some p7 ->
  Pkcs7GetCertificatesList d2i_PKCS7 X509_STORE_CTX_get1_issuer P7Data P7Length
    (mkCertListOut (Some a) (Some b) (Some c) (Some d)) s
  = Crash (InvalidFree (Some (length (heap s)))).
Proof.
  intros HB Hlen HWr HL Hmax Hgr Hwf Hd.
  destruct P7Data as [p|]; [|discriminate].
  pose proof (WrapPkcs7Data_prefix s (Some p) B P7Length HB Hlen HL
                ltac:(unfold INT_MAX in Hmax; lia)) as Hw.
  rewrite HWr, Hgr in Hw.
  set (q := length (heap s)) in *.
  set (E := wrap_header P7Length ++ take (Z.to_nat P7Length) B) in *.
  set (s1 := mkState (heap s ++ [Some E]) (tl (plan s))) in *.
  assert (HE : block s1 (Some q) = Some E) by apply block_last.
  assert (HlE : P7Length + 19 = Z.of_nat (length E)).
  { unfold E. rewrite length_app, length_take, wrap_header_length. lia. }
  unfold Pkcs7GetCertificatesList.
  cbn [notnull negb orb SignerChainCerts ChainLength UnchainCerts UnchainLength].
  rewrite gtb_false by (unfold INT_MAX in *; lia).
  rewrite (bind_Ret _ _ _ _ _ Hw). cbn [fst snd negb orb WrapFlag WrapData WrapDataSize].
  cbv zeta. rewrite gtb_false by exact Hmax.
  rewrite (bind_Ret _ _ _ _ _ (read_bytes_all s1 (Some q) E (P7Length + 19) HE HlE)), Hd.
  destruct (type_is_signed p7) eqn:Hty; cbn [negb]; [|apply CertList_Error_crash].
  destruct (PKCS7_get0_signers_total p7 s1) as (r & [h2 pl2] & Hg & _ & _).
  rewrite (bind_Ret _ _ _ _ _ Hg).
  destruct r as [[|Signer [|? ?]]|]; try apply CertList_Error_crash.
  destruct (PKCS7_get0_signers_elem p7 s1 [Signer] _ Hg Signer ltac:(apply list_elem_of_here))
    as (certs & Hcs & Hin).
  destruct (Hwf _ _ _ Hd Hcs) as (Hnd & Hsized & Hbound).
  rewrite (bind_Ret _ _ _ _ _ (request_eq h2 pl2)).
  destruct (hd true pl2); cbn [negb]; [|apply CertList_Error_crash].
  rewrite (bind_Ret _ _ _ _ _ (request_eq h2 (tl pl2))).
  destruct (hd true (tl pl2)); cbn [negb]; [|apply CertList_Error_crash].
  cbn [ctx_chain ctx_cert ctx_untrusted]. rewrite Hcs. cbn [fmap option_fmap option_map].
  destruct (hd true (tl (tl pl2))) eqn:E3.
  2:{ erewrite bind_Ret
        by (rewrite (bind_Ret _ _ _ _ _ (request_eq h2 (tl (tl pl2)))), E3; reflexivity).
      apply CertList_Error_crash. }
  erewrite bind_Ret
    by (rewrite (bind_Ret _ _ _ _ _ (request_eq h2 (tl (tl pl2)))), E3; apply sk_X509_push_eq).
  destruct (hd true (tl (tl (tl pl2)))); [|apply CertList_Error_crash].
  set (pool0 := sk_X509_delete_ptr certs Signer).
  pose proof (sk_X509_delete_ptr_perm certs Signer Hnd Hin) as Hperm0. fold pool0 in Hperm0.
  assert (Hnd0 : NoDup (map x_ptr pool0)).
  { assert (Hp2 : map x_ptr certs ≡ₚ x_ptr Signer :: map x_ptr pool0)
      by (rewrite Hperm0 at 1; reflexivity).
    rewrite Hp2 in Hnd. inversion Hnd; assumption. }
  unfold stack_fuel. simpl default. fold pool0.
  destruct (ChainWalk_total X509_STORE_CTX_get1_issuer (S (length pool0))
              (mkCtx Signer (Some certs) None) Signer ([] ++ [Signer]) pool0 h2
              (tl (tl (tl (tl pl2)))) ltac:(lia) Hnd0)
    as (wk & issuers & un' & pl4 & Hwalk & Hperm & _ & _).
  rewrite (bind_Ret _ _ _ _ _ Hwalk).
  destruct wk; [|apply CertList_Error_crash].
  assert (Hall : certs ≡ₚ (([] ++ [Signer]) ++ issuers) ++ un').
  { rewrite Hperm0 at 1. simpl. rewrite Hperm. reflexivity. }
  assert (Hs1 : Forall sized (([] ++ [Signer]) ++ issuers) /\ Forall sized un').
  { rewrite Hall in Hsized. apply Forall_app in Hsized. exact Hsized. }
  assert (Hr : records_size certs
               = records_size (([] ++ [Signer]) ++ issuers) + records_size un').
  { rewrite (records_size_perm _ _ Hall), records_size_app. reflexivity. }
  pose proof (records_size_nonneg (([] ++ [Signer]) ++ issuers)) as Hnn1.
  pose proof (records_size_nonneg un') as Hnn2.
  destruct (CertList_serialize_total true NULL true (([] ++ [Signer]) ++ issuers) (Some un')
              h2 pl4 eq_refl (proj1 Hs1) (proj2 Hs1) ltac:(lia) ltac:(simpl default; lia)
              ltac:(intros n [=]))
    as (b' & out' & h' & pl' & Hser & _).
  exact (CertList_serialize_sim _ _ _ _ _ _ _ Hser).
Qed.

End SafeCertList.

Section SafeVerify.

Variable d2i_PKCS7 : list Z -> option PKCS7.
Variable d2i_X509 : list Z -> option X509.
Variable PKCS7_verify : PKCS7 -> X509 -> list Z -> bool.

(** X23. Pkcs7Verify returns, without a fault, on every call whose three
    buffers have the bytes that their lengths announce, the signed data at
    least 17 of them: whatever the bytes decode to and whatever the
    allocations do. *)
Theorem Pkcs7Verify_safe s P7Data B P7Length TrustedCert T CertLength InData D DataLength :
  block s P7Data = Some B -> (17 <= length B)%nat ->
  0 <= P7Length <= Z.of_nat (length B) ->
  block s TrustedCert = Some T -> CertLength <= Z.of_nat (length T) ->
  block s InData = Some D -> DataLength <= Z.of_nat (length D) ->
  exists b s',
    Pkcs7Verify d2i_PKCS7 d2i_X509 PKCS7_verify P7Data P7Length TrustedCert CertLength
      InData DataLength s = Ret (b, s').
Proof.
  intros HB Hlen HL HT HTl HD HDl. unfold Pkcs7Verify.
  match goal with |- context [if ?c then _ else _] => destruct c eqn:Hchk end.
  { eexists _, _. reflexivity. }
  assert (Hmax : P7Length <= INT_MAX).
  { destruct (P7Length >? INT_MAX) eqn:E; [|lia].
    rewrite ?orb_true_r in Hchk. discriminate. }
  destruct (requests_total 6 s) as (reg & s0 & Hreq & Hh0).
  rewrite (bind_Ret _ _ _ _ _ Hreq).
  destruct reg; cbn [negb]; [|eexists _, _; reflexivity].
  rewrite <- (block_heap s s0 P7Data Hh0) in HB.
  rewrite <- (block_heap s s0 TrustedCert Hh0) in HT.
  rewrite <- (block_heap s s0 InData Hh0) in HD.
  destruct (WrapPkcs7Data_returns s0 P7Data B P7Length HB Hlen HL Hmax)
    as (b & w & s1 & Hw & Hkeep & HE).
  rewrite (bind_Ret _ _ _ _ _ Hw). cbn [fst snd]. cbv zeta.
  destruct b; cbn [negb]; [|eexists _, _; reflexivity].
  destruct (HE eq_refl) as (E & HbE & HlE).
  assert (Hexit : forall (st : bool) sx, exists (b : bool) s',
            (when (negb (WrapFlag w)) (free (WrapData w)) ;; ret st) sx = Ret (b, s')).
  { intros st sx. destruct (when_free_total (negb (WrapFlag w)) (WrapData w) sx) as [s' He].
    rewrite (bind_Ret _ _ _ _ _ He). eexists _, _. reflexivity. }
  destruct (WrapDataSize w >? INT_MAX); [apply Hexit|].
  rewrite (bind_Ret _ _ _ _ _
             (read_bytes_returns s1 (WrapData w) E 0 (Z.to_nat (WrapDataSize w)) HbE ltac:(lia))).
  destruct (d2i_PKCS7 _) as [p7|]; [|apply Hexit].
  destruct (type_is_signed p7); cbn [negb]; [|apply Hexit].
  rewrite (bind_Ret _ _ _ _ _
             (read_bytes_returns s1 TrustedCert T 0 (Z.to_nat CertLength)
                (Hkeep _ _ HT) ltac:(lia))).
  destruct (d2i_X509 _) as [Cert|]; [|apply Hexit].
  destruct (request_total s1) as (ok1 & s2 & Hr1 & Hh1). rewrite (bind_Ret _ _ _ _ _ Hr1).
  destruct ok1; cbn [negb]; [|apply Hexit].
  destruct (request_total s2) as (ok2 & s3 & Hr2 & Hh2). rewrite (bind_Ret _ _ _ _ _ Hr2).
  destruct ok2; cbn [negb]; [|apply Hexit].
  assert (HD3 : block s3 InData = Some D).
  { rewrite (block_heap s1 s3) by congruence. apply Hkeep, HD. }
  rewrite (bind_Ret _ _ _ _ _
             (read_bytes_returns s3 InData D 0 (Z.to_nat DataLength) HD3 ltac:(lia))).
  destruct (request_total s3) as (ok3 & s4 & Hr3 & Hh3). rewrite (bind_Ret _ _ _ _ _ Hr3).
  destruct ok3; cbn [negb]; apply Hexit.
Qed.

End SafeVerify.

Section SafeSignature.

Variable d2i_PKCS7 : list Z -> option PKCS7.

(** X24. Pkcs7GetSignature returns, without a fault, when the buffer has at
    least 17 bytes and at least [P7Length] bytes, [SignatureLength] is not
    NULL, and the destination, if there is one, has room for every signature
    that the decoder can hand out. *)
Theorem Pkcs7GetSignature_safe s P7Data B P7Length (sg : option ptr) len0 (room : nat) :
  block s P7Data = Some B -> (17 <= length B)%nat ->
  0 <= P7Length <= Z.of_nat (length B) ->
  (forall der p7 si sig,
     d2i_PKCS7 der = Some p7 -> sign_signer_info p7 = Some [si] ->
     enc_digest si = Some sig -> (length sig <= room)%nat) ->
  (forall dst, sg = Some (Some dst) ->
     exists D, block s (Some dst) = Some D /\ (room <= length D)%nat) ->
  exists b out' s',
    Pkcs7GetSignature d2i_PKCS7 P7Data P7Length (mkSignatureOut sg (Some len0)) s
    = Ret ((b, out'), s').
Proof.
  intros HB Hlen HL Hroom Hdst. unfold Pkcs7GetSignature.
  match goal with |- context [if ?c then _ else _] => destruct c eqn:Hchk end.
  { eexists _, _, _. reflexivity. }
  assert (Hmax : P7Length <= INT_MAX).
  { destruct (P7Length >? INT_MAX) eqn:E; [|lia].
    rewrite ?orb_true_r in Hchk. discriminate. }
  destruct (WrapPkcs7Data_returns s P7Data B P7Length HB Hlen HL Hmax)
    as (b & w & s1 & Hw & Hkeep & HE).
  rewrite (bind_Ret _ _ _ _ _ Hw). cbn [fst snd]. cbv zeta.
  destruct b; cbn [negb]; [|eexists _, _, _; reflexivity].
  destruct (HE eq_refl) as (E & HbE & HlE).
  assert (Hexit : forall (st : bool) (o : SignatureOut) sx, exists b out' s',
            (when (negb (WrapFlag w)) (free (WrapData w)) ;; ret (st, o)) sx
            = Ret ((b, out'), s')).
  { intros st o sx. destruct (when_free_total (negb (WrapFlag w)) (WrapData w) sx) as [s' He].
    rewrite (bind_Ret _ _ _ _ _ He). eexists _, _, _. reflexivity. }
  destruct (WrapDataSize w >? INT_MAX); [apply Hexit|].
  rewrite (bind_Ret _ _ _ _ _
             (read_bytes_returns s1 (WrapData w) E 0 (Z.to_nat (WrapDataSize w)) HbE ltac:(lia))).
  destruct (d2i_PKCS7 _) as [p7|] eqn:Hd; [|apply Hexit].
  unfold PKCS7_get_signer_info.
  destruct (type_is_signed p7); cbn [negb]; [|apply Hexit].
  destruct (sign_signer_info p7) as [[|si [|]]|] eqn:Hsi; try apply Hexit.
  destruct (enc_digest si) as [sig|] eqn:Hsig; [|apply Hexit].
  cbn [SignatureLength Signature].
  destruct sg as [[dst|]|]; try apply Hexit.
  destruct (Hdst dst eq_refl) as (D & HD & Hfit).
  pose proof (Hroom _ _ _ _ Hd Hsi Hsig) as Hle.
  rewrite (bind_Ret _ _ _ _ _
             (store_bytes_ok s1 dst D 0 sig (Hkeep _ _ HD) ltac:(lia))).
  apply Hexit.
Qed.

End SafeSignature.

Lemma Sample_signers_wf : signers_wf Sample.d2i_PKCS7.
Proof.
  intros der p7 Hd. unfold Sample.d2i_PKCS7 in Hd.
  destruct (der !! 19%nat) as [tag|]; [|discriminate].
  repeat case_match; simplify_eq.
  all: split; [intros certs Hc|intros sinfos Hs]; cbn in *; simplify_eq.
  all: try (repeat constructor; unfold sized, INT_MAX; simpl; lia).
  all: unfold INT_MAX; simpl; lia.
Qed.

Lemma Sample_digests der p7 si sig :
  Sample.d2i_PKCS7 der = Some p7 -> sign_signer_info p7 = Some [si] ->
  enc_digest si = Some sig -> (length sig <= 4)%nat.
Proof.
  intros Hd Hs Hg. unfold Sample.d2i_PKCS7 in Hd.
  destruct (der !! 19%nat) as [tag|]; [|discriminate].
  repeat case_match; simplify_eq.
  all: cbn in Hs; simplify_eq; cbn in Hg; simplify_eq; simpl; lia.
Qed.

Lemma Pkcs7GetSigners_one_fault_witness :
  let s := Sample.memory (Sample.input 2 ++ [7; 7]) []
             [true; true; true; true; true; true; false] in
  (exists r s', Pkcs7GetSigners Sample.d2i_PKCS7 Sample.P7Data 20 Sample.signers_out s
                = Ret (r, s')) \/
  (exists c, Pkcs7GetSigners Sample.d2i_PKCS7 Sample.P7Data 20 Sample.signers_out s
             = Crash (DoubleFree (x_ptr c))).
Proof.
  apply (Pkcs7GetSigners_one_fault Sample.d2i_PKCS7 _ Sample.P7Data (Sample.input 2 ++ [7; 7])).
  - reflexivity.
  - simpl. lia.
  - simpl. lia.
  - exact Sample_signers_wf.
Defined.

Lemma Pkcs7GetCertificatesList_safe_witness :
  exists b out' s',
    Pkcs7GetCertificatesList Sample.d2i_PKCS7 Sample.get1_issuer Sample.P7Data 20
      Sample.certlist_out
      (Sample.memory (Sample.input 1 ++ [7; 7]) [] (replicate 9 true ++ [false]))
    = Ret ((b, out'), s').
Proof.
  apply (Pkcs7GetCertificatesList_safe Sample.d2i_PKCS7 Sample.get1_issuer _ Sample.P7Data
           (Sample.input 1 ++ [7; 7])).
  - reflexivity.
  - vm_compute. reflexivity.
  - simpl. lia.
  - exact Sample_decoder_wf.
Defined.

Lemma Pkcs7GetCertificatesList_bare_faults_witness :
  Pkcs7GetCertificatesList Sample.d2i_PKCS7 Sample.get1_issuer Sample.P7Data 17
    (mkCertListOut (Some NULL) (Some 0) (Some NULL) (Some 0))
    (Sample.memory (Sample.bare_input 1) [] (replicate 9 true))
  = Crash (InvalidFree (Some 1%nat)).
Proof.
  apply (Pkcs7GetCertificatesList_bare_faults Sample.d2i_PKCS7 Sample.get1_issuer
           (Sample.memory (Sample.bare_input 1) [] (replicate 9 true)) Sample.P7Data
           (Sample.bare_input 1) 17 (Sample.signed [Sample.Intermediate; Sample.Leaf; Sample.Root]
                                       [Sample.signer_info])).
  - reflexivity.
  - simpl. lia.
  - vm_compute. reflexivity.
  - simpl. lia.
  - unfold INT_MAX. lia.
  - reflexivity.
  - exact Sample_decoder_wf.
  - vm_compute. reflexivity.
Defined.

Lemma Pkcs7Verify_safe_witness :
  exists b s',
    Pkcs7Verify Sample.d2i_PKCS7 SampleVerify.d2i_X509 SampleVerify.PKCS7_verify
      Sample.P7Data 20 SampleVerify.TrustedCert 3 SampleVerify.InData 2
      (SampleVerify.memory 1 [1; 2; 3] [true; false]) = Ret (b, s').
Proof.
  apply (Pkcs7Verify_safe Sample.d2i_PKCS7 SampleVerify.d2i_X509 SampleVerify.PKCS7_verify
           (SampleVerify.memory 1 [1; 2; 3] [true; false]) Sample.P7Data (Sample.input 1) 20
           SampleVerify.TrustedCert (x_der Sample.Root) 3 SampleVerify.InData [1; 2; 3] 2).
  - reflexivity.
  - simpl. lia.
  - simpl. lia.
  - reflexivity.
  - simpl. lia.
  - reflexivity.
  - simpl. lia.
Defined.

Lemma Pkcs7GetSignature_safe_witness :
  exists b out' s',
    Pkcs7GetSignature Sample.d2i_PKCS7 Sample.P7Data 17
      (mkSignatureOut (Some (Some 1%nat)) (Some 0))
      (Sample.memory (Sample.bare_input 1 ++ [9]) [[0; 0; 0; 0; 0]] [false])
    = Ret ((b, out'), s').
Proof.
  apply (Pkcs7GetSignature_safe Sample.d2i_PKCS7 _ Sample.P7Data (Sample.bare_input 1 ++ [9])
           17 (Some (Some 1%nat)) 0 4).
  - reflexivity.
  - simpl. lia.
  - simpl. lia.
  - exact Sample_digests.
  - intros dst [= <-]. exists [0; 0; 0; 0; 0]. split; [reflexivity|simpl; lia].
Defined.
